(** * ProductRecommenderAI: a shallow embedding of [ProductRecommender_AI.py]

    The development follows the source file top to bottom: the Python
    built-ins the class relies on, the pandas data frame it manipulates,
    then each method of [ProductRecommenderAI], and finally the properties
    of the validation pipeline, of the metrics table and of the report.

    Modelling conventions.
    - Text is a [string] of UTF-8 bytes; the report literals hold their
      UTF-8 bytes.  [strip] removes the white space of [str.isspace],
      the characters beyond ASCII included; [lower] acts on the ASCII
      range.
    - A number held in a frame (an int64 or float64 cell) is the rational
      [Qc] it stands for.  The arithmetic of numpy on such numbers
      (products, sums, rounding to two decimals, sorting of long arrays)
      is not computed here: it is the operations of the class [Library],
      so that rounding error and wrap-around are whatever the library
      does.  A float64 holds no finite number of magnitude [2^1024] or
      more: a number that large stands for the infinity of its sign.  NaN
      and None in a frame are the single null marker [VNull]; a NaN that
      arithmetic would produce is outside the model.
    - The rows of a frame are named by their place, [0 .. nrows-1], as
      under the default [RangeIndex]; this stands for any index without
      a repeated label.  A frame whose index repeats a label ([read_csv]
      makes one when the rows hold one field more than the header and
      two rows start with the same field) is outside the model.  Label
      lookup takes the first column of a name, which is pandas'
      behaviour when no label is repeated: the properties of frames are
      stated for frames without a repeated label.
    - Python exceptions are values of [exn]; a computation that may raise
      has type [result A], and [try]/[except] is a match on the outcome.
    - The text readers of pandas and json are not part of the repository:
      they are the operations of the class [Library].
    - The layout of a Python [set], which changes from one process to the
      next, is the operation of the class [Runtime]. *)

From Stdlib Require Import List String Ascii Bool Arith ZArith Lia.
From Stdlib Require Import QArith Qcanon Qround Lqa.
From Stdlib Require Import Sorted Permutation OrderedTypeEx.
From Stdlib Require Import DecimalString.
Import ListNotations.
Close Scope Q_scope.
Close Scope Qc_scope.
Open Scope string_scope.
Open Scope nat_scope.

(** Text is joined with [++]; lists are joined with [+++]. *)
Infix "+++" := (@List.app _) (right associativity, at level 60).

(* ================================================================== *)
(** ** Python built-ins *)
(* ================================================================== *)

Module Py.

(** The line feed, written [\n] in the source. *)
Definition nl : string := String (ascii_of_nat 10) EmptyString.

(** [sep.join(parts)] *)
Definition join (sep : string) (parts : list string) : string :=
  String.concat sep parts.

(** [c * n] for a one-character text [c]. *)
Fixpoint repeat_str (c : string) (n : nat) : string :=
  match n with
  | O => ""
  | S n' => c ++ repeat_str c n'
  end.

(** [sub in s] for two texts. *)
Fixpoint contains (sub s : string) : bool :=
  String.prefix sub s ||
  match s with
  | EmptyString => false
  | String _ s' => contains sub s'
  end.

(** [str.isspace] on the ASCII range: TAB, LF, VT, FF, CR, the four
    separators FS GS RS US, and the space. *)
Definition is_space (c : ascii) : bool :=
  let n := nat_of_ascii c in
  ((9 <=? n) && (n <=? 13)) || ((28 <=? n) && (n <=? 32)).

Definition byte_is (c : ascii) (n : nat) : bool := nat_of_ascii c =? n.

(** The white space of [str.isspace] that UTF-8 writes in two bytes:
    U+0085 and U+00A0. *)
Definition wide2 (c1 c2 : ascii) : bool :=
  byte_is c1 194 && (byte_is c2 133 || byte_is c2 160).

(** The white space of [str.isspace] that UTF-8 writes in three bytes:
    U+1680, U+2000 to U+200A, U+2028, U+2029, U+202F, U+205F, U+3000. *)
Definition wide3 (c1 c2 c3 : ascii) : bool :=
  (byte_is c1 225 && byte_is c2 154 && byte_is c3 128) ||
  (byte_is c1 226 && byte_is c2 128 &&
   (((128 <=? nat_of_ascii c3) && (nat_of_ascii c3 <=? 138)) ||
    byte_is c3 168 || byte_is c3 169 || byte_is c3 175)) ||
  (byte_is c1 226 && byte_is c2 129 && byte_is c3 159) ||
  (byte_is c1 227 && byte_is c2 128 && byte_is c3 128).

(** [s.lstrip()] *)
Fixpoint lstrip (s : string) : string :=
  match s with
  | EmptyString => EmptyString
  | String c1 s1 =>
      if is_space c1 then lstrip s1
      else
        match s1 with
        | EmptyString => s
        | String c2 s2 =>
            if wide2 c1 c2 then lstrip s2
            else
              match s2 with
              | EmptyString => s
              | String c3 s3 => if wide3 c1 c2 c3 then lstrip s3 else s
              end
        end
  end.

(** The text holds white space only. *)
Definition all_space (s : string) : bool :=
  match lstrip s with
  | EmptyString => true
  | _ => false
  end.

(** [s.rstrip()] *)
Fixpoint rstrip (s : string) : string :=
  match s with
  | EmptyString => EmptyString
  | String c s' => if all_space s then EmptyString else String c (rstrip s')
  end.

(** [s.strip()] *)
Definition strip (s : string) : string := rstrip (lstrip s).

Definition lower_ascii (c : ascii) : ascii :=
  let n := nat_of_ascii c in
  if (65 <=? n) && (n <=? 90) then ascii_of_nat (n + 32) else c.

(** [s.lower()] *)
Fixpoint lower (s : string) : string :=
  match s with
  | EmptyString => EmptyString
  | String c s' => String (lower_ascii c) (lower s')
  end.

(** [x in xs] for a list or a set of texts. *)
Definition mem (x : string) (xs : list string) : bool :=
  existsb (String.eqb x) xs.

(** [str(n)] for a non-negative int. *)
Definition str_nat (n : nat) : string :=
  NilEmpty.string_of_uint (Nat.to_uint n).

(** [str(z)] for an int. *)
Definition str_int (z : Z) : string :=
  match z with
  | Z0 => "0"
  | Zpos p => str_nat (Pos.to_nat p)
  | Zneg p => "-" ++ str_nat (Pos.to_nat p)
  end.

(** The magnitude from which a number stands for an infinity. *)
Definition float_limit : Z := 2 ^ 1024.

(** [math.isinf(x)] *)
Definition isinf (x : Qc) : bool :=
  (float_limit * Zpos (Qden x) <=? Z.abs (Qnum x))%Z.

(** [int(x)] for a finite number: truncation towards zero. *)
Definition int (x : Qc) : Z := Z.quot (Qnum x) (Zpos (Qden x)).

(** Nearest integer, ties to the even one: the rounding of [round],
    of [numpy.rint] and of the [f] format. *)
Definition round_half_even (x : Q) : Z :=
  let f := Qfloor x in
  match Qcompare (x - inject_Z f) (1 # 2) with
  | Lt => f
  | Gt => (f + 1)%Z
  | Eq => if Z.even f then f else (f + 1)%Z
  end.

(** The number of hundredths nearest to [x]. *)
Definition hundredths (x : Qc) : Z := round_half_even (x * 100)%Q.

(** Two decimal digits, zero padded. *)
Definition two_digits (n : nat) : string :=
  if n <? 10 then "0" ++ str_nat n else str_nat n.

(** Three decimal digits, zero padded. *)
Definition three_digits (n : nat) : string :=
  if n <? 10 then "00" ++ str_nat n
  else if n <? 100 then "0" ++ str_nat n else str_nat n.

(** The integer part with [,] between groups of three digits. *)
Fixpoint grouped (fuel n : nat) : string :=
  match fuel with
  | O => str_nat n
  | S fuel' =>
      if n <? 1000 then str_nat n
      else grouped fuel' (n / 1000) ++ "," ++ three_digits (n mod 1000)
  end.

Definition sign_of (x : Qc) : string :=
  if Z.ltb (Qnum x) 0 then "-" else "".

(** [f"{x:.2f}"] *)
Definition fmt_2f (x : Qc) : string :=
  if isinf x then sign_of x ++ "inf"
  else
    let h := Z.to_nat (Z.abs (hundredths x)) in
    sign_of x ++ str_nat (h / 100) ++ "." ++ two_digits (h mod 100).

(** [f"{x:,.2f}"] *)
Definition fmt_comma_2f (x : Qc) : string :=
  if isinf x then sign_of x ++ "inf"
  else
    let h := Z.to_nat (Z.abs (hundredths x)) in
    sign_of x ++ grouped (h / 100) (h / 100) ++ "." ++ two_digits (h mod 100).

End Py.

(* ================================================================== *)
(** ** Exceptions and fallible computations *)
(* ================================================================== *)

(** The exception classes the source can meet.  [JSONDecodeError] is the
    one class it names in an [except] clause; [LibraryError] stands for
    any other exception raised inside pandas or json. *)
Inductive exn : Type :=
| KeyError (key : string)
| TypeError (msg : string)
| ValueError (msg : string)
| JSONDecodeError (msg : string)
| AttributeError (msg : string)
| OverflowError (msg : string)
| LibraryError (msg : string).

(** [str(e)]: a [KeyError] prints the repr of its key. *)
Definition str_exn (e : exn) : string :=
  match e with
  | KeyError k => "'" ++ k ++ "'"
  | TypeError m | ValueError m | JSONDecodeError m | AttributeError m
  | OverflowError m | LibraryError m => m
  end.

Inductive result (A : Type) : Type :=
| Return (a : A)
| Raise (e : exn).

Arguments Return {A} a.
Arguments Raise {A} e.

Definition bind {A B : Type} (c : result A) (k : A -> result B) : result B :=
  match c with
  | Return a => k a
  | Raise e => Raise e
  end.

Declare Scope result_scope.
Delimit Scope result_scope with result.
Notation "x <- c ;; k" := (bind c (fun x => k))
  (at level 61, c at next level, right associativity) : result_scope.
Open Scope result_scope.

(** A loop whose body may raise: the first exception ends it. *)
Fixpoint for_each {A B : Type} (body : A -> result B) (xs : list A)
  : result (list B) :=
  match xs with
  | [] => Return []
  | x :: xs' =>
      y <- body x ;;
      ys <- for_each body xs' ;;
      Return (y :: ys)
  end.

Definition returns {A : Type} (c : result A) : bool :=
  match c with Return _ => true | Raise _ => false end.

(* ================================================================== *)
(** ** Cells, JSON documents and data frames *)
(* ================================================================== *)

(** A cell of a frame: null (NaN or None), a number, or text. *)
Inductive value : Type :=
| VNull
| VNum (q : Qc)
| VStr (s : string).

(** A decoded JSON document. *)
#[local] Unset Elimination Schemes.
Inductive json : Type :=
| JNull
| JBool (b : bool)
| JNum (q : Qc)
| JStr (s : string)
| JArr (items : list json)
| JObj (members : list (string * json)).
#[local] Set Elimination Schemes.

(** A pandas [DataFrame] whose rows are named by their place: [nrows]
    row labels [0 .. nrows-1] and the labelled columns in order, each
    holding one cell per row.  Label lookup takes the first column of
    that name; frames with a repeated label are outside the model. *)
Record DataFrame : Type := mkFrame {
  nrows : nat;
  series : list (string * list value)
}.

(** [df.columns] *)
Definition columns (df : DataFrame) : list string := map fst (series df).

Fixpoint lookup {A : Type} (k : string) (kvs : list (string * A)) : option A :=
  match kvs with
  | [] => None
  | (k', v) :: rest => if String.eqb k k' then Some v else lookup k rest
  end.

Fixpoint update {A : Type} (k : string) (v : A) (kvs : list (string * A))
  : list (string * A) :=
  match kvs with
  | [] => [(k, v)]
  | (k', v') :: rest =>
      if String.eqb k k' then (k, v) :: rest else (k', v') :: update k v rest
  end.

(** [df[c]] *)
Definition get_col (df : DataFrame) (c : string) : result (list value) :=
  match lookup c (series df) with
  | Some cells => Return cells
  | None => Raise (KeyError c)
  end.

(** [df[c] = cells] *)
Definition set_col (df : DataFrame) (c : string) (cells : list value)
  : DataFrame :=
  mkFrame (nrows df) (update c cells (series df)).

(** [df.columns = [f(col) for col in df.columns]] *)
Definition rename_columns (f : string -> string) (df : DataFrame)
  : DataFrame :=
  mkFrame (nrows df) (map (fun kv => (f (fst kv), snd kv)) (series df)).

(** The cell of row [i] in a column. *)
Definition cell (cells : list value) (i : nat) : value := nth i cells VNull.

(** [row[c]] for the row labelled [i] handed out by [df.iterrows()]. *)
Definition row_get (df : DataFrame) (i : nat) (c : string) : result value :=
  cells <- get_col df c ;;
  Return (cell cells i).

(** [series.isna()] on one cell. *)
Definition isna (v : value) : bool :=
  match v with VNull => true | _ => false end.

(** [series <= 0] on one cell: a null compares false, text cannot be
    compared with an int. *)
Definition le_zero (v : value) : result bool :=
  match v with
  | VNull => Return false
  | VNum q => Return (Qle_bool q 0)
  | VStr _ =>
      Raise (TypeError "'<=' not supported between instances of 'str' and 'int'")
  end.

(** The mask [df[c].isna() | (df[c] <= 0)] of a column already fetched. *)
Definition invalid_mask (cells : list value) : result (list bool) :=
  for_each (fun v => b <- le_zero v ;; Return (isna v || b)) cells.

(** [len(df[mask])] *)
Definition count_true (mask : list bool) : nat :=
  List.length (filter (fun b => b) mask).

(** [series == x] on one cell: a null equals nothing. *)
Definition value_eqb (v w : value) : bool :=
  match v, w with
  | VNum p, VNum q => Qeq_bool p q
  | VStr s, VStr t => String.eqb s t
  | _, _ => false
  end.

Definition is_text (v : value) : bool :=
  match v with VStr _ => true | _ => false end.

(** A column has a numeric dtype when it holds no text. *)
Definition numeric_dtype (cells : list value) : bool :=
  forallb (fun v => negb (is_text v)) cells.

(** The library operations the class calls and the repository does not
    define.
    - [read_csv text]: [pd.read_csv(io.StringIO(text), skipinitialspace=True)].
    - [json_loads text]: [json.loads(text)]; undecodable text raises
      [JSONDecodeError].
    - [frame_of_json j]: [pd.DataFrame(j)].
    - [text_labels j]: whether every column label of [pd.DataFrame(j)] is
      a [str]; a list of lists, for one, gets the labels [0, 1, ...].
    - [numeric_of_text s]: the number [pd.to_numeric] reads in the text
      [s], if any.
    - [to_datetime cells]: whether [pd.to_datetime] accepts the column.
    - [str_num q]: [str(x)] for a numeric cell.
    - [num_mul x y], [num_add x y]: numpy's [x * y] and [x + y] on int64
      or float64 numbers, with the rounding of float64.
    - [groupby_sum xs]: the [sum] aggregate of a group that holds the
      numbers [xs]; [series_sum xs]: [Series.sum()] of a series that
      holds the numbers [xs] (nulls are skipped by both and are not among
      [xs]).
    - [round2 x]: [round(2)] of a numeric column on one number; it keeps
      the order of numbers.
    - [quicksort keys]: [numpy.argsort(keys, kind='quicksort')] for an
      array too long for numpy's insertion sort: the places of [keys] in
      an ascending order of the keys; among equal keys numpy promises no
      order. *)
Class Library : Type := {
  read_csv : string -> result DataFrame;
  json_loads : string -> result json;
  frame_of_json : json -> result DataFrame;
  text_labels : json -> bool;
  numeric_of_text : string -> option Qc;
  to_datetime : list value -> result unit;
  str_num : Qc -> string;
  num_mul : Qc -> Qc -> Qc;
  num_add : Qc -> Qc -> Qc;
  groupby_sum : list Qc -> Qc;
  series_sum : list Qc -> Qc;
  round2 : Qc -> Qc;
  round2_monotone :
    forall x y : Qc, (x <= y)%Qc -> (round2 x <= round2 y)%Qc;
  quicksort : list Qc -> list nat;
  quicksort_perm :
    forall keys, Permutation (quicksort keys) (seq 0 (List.length keys));
  quicksort_sorted :
    forall keys,
      StronglySorted
        (fun i j => (nth i keys (Q2Qc 0) <= nth j keys (Q2Qc 0))%Qc)
        (quicksort keys)
}.

(** [pd.to_numeric(series, errors='coerce')] on one cell. *)
Definition to_numeric `{Library} (v : value) : value :=
  match v with
  | VNull => VNull
  | VNum q => VNum q
  | VStr s =>
      match numeric_of_text s with
      | Some q => VNum q
      | None => VNull
      end
  end.

(** [str(x)] for a cell. *)
Definition str_value `{Library} (v : value) : string :=
  match v with
  | VNull => "nan"
  | VNum q => str_num q
  | VStr s => s
  end.

(** [key in j] for a decoded document [j]: a key of an object, an item
    of an array, a piece of a text; other documents are not containers. *)
Definition json_contains (key : string) (j : json) : result bool :=
  match j with
  | JObj members => Return (existsb (fun kv => String.eqb key (fst kv)) members)
  | JArr items =>
      Return (existsb
                (fun x => match x with JStr s => String.eqb key s | _ => false end)
                items)
  | JStr s => Return (Py.contains key s)
  | JNull => Raise (TypeError "argument of type 'NoneType' is not iterable")
  | JBool _ => Raise (TypeError "argument of type 'bool' is not iterable")
  | JNum _ => Raise (TypeError "argument of type 'int' is not iterable")
  end.

(** [j[key]] for a text key. *)
Definition json_subscript (j : json) (key : string) : result json :=
  match j with
  | JObj members =>
      match lookup key members with
      | Some v => Return v
      | None => Raise (KeyError key)
      end
  | JArr _ =>
      Raise (TypeError "list indices must be integers or slices, not str")
  | JStr _ => Raise (TypeError "string indices must be integers, not 'str'")
  | JNull => Raise (TypeError "'NoneType' object is not subscriptable")
  | JBool _ => Raise (TypeError "'bool' object is not subscriptable")
  | JNum _ => Raise (TypeError "'int' object is not subscriptable")
  end.

(* ================================================================== *)
(** ** In-place updates of a frame *)
(* ================================================================== *)

(** A computation over the frame a method received: it may assign to
    columns of the caller's frame and may raise; what it assigned before
    raising stays assigned. *)
Definition mutating (A : Type) : Type := DataFrame -> result A * DataFrame.

Definition mret {A : Type} (a : A) : mutating A := fun df => (Return a, df).

Definition mbind {A B : Type} (c : mutating A) (k : A -> mutating B)
  : mutating B :=
  fun df =>
    match c df with
    | (Return a, df') => k a df'
    | (Raise e, df') => (Raise e, df')
    end.

(** Reading from the frame. *)
Definition reading {A : Type} (f : DataFrame -> result A) : mutating A :=
  fun df => (f df, df).

(** [df[c] = cells] *)
Definition assign (c : string) (cells : list value) : mutating unit :=
  fun df => (Return tt, set_col df c cells).

Declare Scope mutating_scope.
Delimit Scope mutating_scope with mutating.
Notation "x <~ c ;; k" := (mbind c (fun x => k))
  (at level 61, c at next level, right associativity) : mutating_scope.
Notation "c ;;; k" := (mbind c (fun _ => k))
  (at level 61, right associativity) : mutating_scope.

(* ================================================================== *)
(** ** Grouping, sorting and rounding of pandas *)
(* ================================================================== *)

(** The order in which [groupby] (with its default [sort=True]) lays out
    the distinct values of one key column: numbers by value, then text in
    code-point order.  Null keys never reach it ([dropna=True]). *)
Definition value_compare (v w : value) : comparison :=
  match v, w with
  | VNull, VNull => Eq
  | VNull, _ => Gt
  | _, VNull => Lt
  | VNum p, VNum q => Qccompare p q
  | VNum _, VStr _ => Lt
  | VStr _, VNum _ => Gt
  | VStr s, VStr t => String.compare s t
  end.

(** A group key: the cells of [product_id] and [product_name]. *)
Definition key : Type := (value * value)%type.

(** Groups are ordered by the first key column, then by the second. *)
Definition key_compare (k1 k2 : key) : comparison :=
  match value_compare (fst k1) (fst k2) with
  | Eq => value_compare (snd k1) (snd k2)
  | c => c
  end.

Definition has_null (k : key) : bool := isna (fst k) || isna (snd k).

(** Adding the row labelled [i] to the groups built so far: to the group
    of its key if there is one, else as a new group at the key's place. *)
Fixpoint group_insert (k : key) (i : nat) (groups : list (key * list nat))
  : list (key * list nat) :=
  match groups with
  | [] => [(k, [i])]
  | (k', members) :: rest =>
      match key_compare k k' with
      | Eq => (k', members +++ [i]) :: rest
      | Lt => (k, [i]) :: groups
      | Gt => (k', members) :: group_insert k i rest
      end
  end.

(** The key of the row labelled [i]. *)
Definition key_at (ids names : list value) (i : nat) : key :=
  (cell ids i, cell names i).

(** [df.groupby([c1, c2])] over the two key columns of a frame with [n]
    rows: every group with its key and the labels of its rows. *)
Definition groupby (ids names : list value) (n : nat)
  : list (key * list nat) :=
  fold_left
    (fun groups i =>
       let k := key_at ids names i in
       if has_null k then groups else group_insert k i groups)
    (seq 0 n) [].

(** What a sum takes of a cell: the number it holds; a null is skipped,
    text cannot be added up. *)
Definition addend (v : value) : result (list Qc) :=
  match v with
  | VNull => Return []
  | VNum q => Return [q]
  | VStr _ => Raise (TypeError "unsupported operand type(s) for +: 'int' and 'str'")
  end.

(** What the sum of [quantity * price] takes of a row: the product of
    the two numbers; the product with a null is null and is skipped. *)
Definition product_addend `{Library} (quantity price : value)
  : result (list Qc) :=
  q <- addend quantity ;;
  p <- addend price ;;
  match q, p with
  | [x], [y] => Return [num_mul x y]
  | _, _ => Return []
  end.

(** One row of the metrics table. *)
Record ProductMetric : Type := mkMetric {
  product_id : value;
  product_name : value;
  total_quantity : Qc;
  total_spend : Qc;
  importance_score : Qc
}.

(** The ascending argsort of a short array: numpy sorts an array of at
    most [insertion_limit] entries by insertion, which keeps rows of equal
    score in the order received. *)
Fixpoint insert_asc (x : nat * ProductMetric) (l : list (nat * ProductMetric))
  : list (nat * ProductMetric) :=
  match l with
  | [] => [x]
  | y :: l' =>
      if Qle_bool (importance_score (snd x)) (importance_score (snd y))
      then x :: l
      else y :: insert_asc x l'
  end.

Fixpoint argsort_asc (l : list (nat * ProductMetric))
  : list (nat * ProductMetric) :=
  match l with
  | [] => []
  | x :: l' => insert_asc x (argsort_asc l')
  end.

Definition insertion_limit : nat := 16.

(** The entry at place [i], if there is one. *)
Definition pick {A : Type} (l : list A) (i : nat) : list A :=
  match nth_error l i with
  | Some x => [x]
  | None => []
  end.

(** [argsort(kind='quicksort')] of the rows by score: by insertion for a
    short array, by the library's quicksort for a longer one. *)
Definition argsort `{Library} (l : list (nat * ProductMetric))
  : list (nat * ProductMetric) :=
  if List.length l <=? insertion_limit then argsort_asc l
  else flat_map (pick l)
                (quicksort (map (fun x => importance_score (snd x)) l)).

(** [frame.sort_values('importance_score', ascending=False)]: pandas
    reverses the rows, sorts ascending, and reverses the outcome.  Rows
    keep their labels. *)
Definition sort_values_desc `{Library} (l : list (nat * ProductMetric))
  : list (nat * ProductMetric) :=
  rev (argsort (rev l)).

Definition round_cell `{Library} (v : value) : value :=
  match v with
  | VNum q => VNum (round2 q)
  | _ => v
  end.

(** [frame.round(2)] on one row: every column of numeric dtype is
    rounded, a key column too when it is numeric. *)
Definition round_metric `{Library} (numeric_id numeric_name : bool)
  (m : ProductMetric) : ProductMetric :=
  mkMetric
    (if numeric_id then round_cell (product_id m) else product_id m)
    (if numeric_name then round_cell (product_name m) else product_name m)
    (round2 (total_quantity m))
    (round2 (total_spend m))
    (round2 (importance_score m)).

(** The constant [0.5]. *)
Definition half : Qc := Q2Qc (1 # 2).

(* ================================================================== *)
(** ** The class [ProductRecommenderAI] *)
(* ================================================================== *)

(** The Python process.  A [set] of texts holds each of its elements, in
    an order that varies with the hash seed of the process: [set_order]
    lays out the elements put into a set. *)
Class Runtime : Type := {
  set_order : list string -> list string;
  set_order_members : forall l x, In x (set_order l) <-> In x l
}.

(** The state of an instance. *)
Record ProductRecommenderAI : Type := mkRecommender {
  required_fields : list string
}.

(** [__init__] *)
Definition init : ProductRecommenderAI :=
  mkRecommender
    ["transaction_id"; "customer_id"; "transaction_date";
     "product_id"; "product_name"; "quantity"; "price_usd"].

Section Methods.

Context `{Library} `{Runtime}.
Variable self : ProductRecommenderAI.

Import Py.

Definition rule : string := repeat_str "-" 50.

(** The status of one type check of the report. *)
Definition type_status (mask : list bool) : string :=
  if existsb (fun b => b) mask
  then "✗ Found " ++ str_nat (count_true mask) ++ " invalid records"
  else "✓ Valid".

(** Lines 47-52: the date check and its bare [except]. *)
Definition date_status (df : DataFrame) : string :=
  match (dates <- get_col df "transaction_date" ;; to_datetime dates) with
  | Return _ => "✓ Valid"
  | Raise _ => "✗ Invalid date format found"
  end.

(** [df_columns = set(col.lower().strip() for col in df.columns)] *)
Definition df_columns (df : DataFrame) : list string :=
  set_order (map (fun col => strip (lower col)) (columns df)).

Definition format_validation_report (df : DataFrame) : result (list string) :=
  let structure :=
    ["Data Validation Report:";
     rule;
     "1. Data Structure Check:";
     "   - Number of records: " ++ str_nat (nrows df);
     "   - Number of columns: " ++ str_nat (List.length (columns df));
     nl ++ "2. Required Fields Check:"] in
  let fields :=
    map (fun field =>
           "   - " ++ field ++ ": " ++
           (if mem (lower field) (df_columns df)
            then "✓ Present" else "✗ Missing"))
        (required_fields self) in
  quantity <- get_col df "quantity" ;;
  invalid_quantity <- invalid_mask quantity ;;
  price <- get_col df "price_usd" ;;
  invalid_price <- invalid_mask price ;;
  Return
    (structure +++ fields +++
     [nl ++ "3. Data Type Validation:";
      "   - Quantity (positive integers): " ++ type_status invalid_quantity;
      "   - Price (positive numbers): " ++ type_status invalid_price;
      "   - Date format: " ++ date_status df;
      nl ++ rule]).

Definition invalid_json_structure : string :=
  "ERROR: Invalid JSON structure. Must contain 'transactions' key.".

Definition invalid_data_format : string :=
  "ERROR: Invalid data format. Please provide your data in CSV or JSON format.".

(** Lines 65: the CSV test on the stripped text. *)
Definition looks_like_csv (data : string) : bool :=
  existsb (fun field => contains field data)
          ["transaction_id,"; "transaction_id" ++ nl].

(** Lines 73-82: the inner [try] and its [except json.JSONDecodeError]. *)
Definition read_json (data : string)
  : result (bool * string * option DataFrame) :=
  let attempt :=
    json_data <- json_loads data ;;
    present <- json_contains "transactions" json_data ;;
    if present then
      transactions <- json_subscript json_data "transactions" ;;
      df <- frame_of_json transactions ;;
      if text_labels transactions
      then Return (true, "Success", Some (rename_columns lower df))
      else Raise (AttributeError "'int' object has no attribute 'lower'")
    else Return (false, invalid_json_structure, None) in
  match attempt with
  | Raise (JSONDecodeError _) => Return (false, invalid_data_format, None)
  | outcome => outcome
  end.

Definition validate_data_format (data : string)
  : bool * string * option DataFrame :=
  let data := strip data in
  let attempt :=
    if looks_like_csv data then
      df <- read_csv data ;;
      Return (true, "Success",
              Some (rename_columns (fun col => lower (strip col)) df))
    else read_json data in
  match attempt with
  | Return outcome => outcome
  | Raise e => (false, "ERROR: Data processing failed. " ++ str_exn e, None)
  end.

Definition missing_fields (df : DataFrame) : list string :=
  filter (fun field => negb (mem (lower field) (df_columns df)))
         (required_fields self).

Definition validate_required_fields (df : DataFrame) : bool * string :=
  match missing_fields df with
  | [] => (true, "Success")
  | missing =>
      (false, "ERROR: Missing required fields: " ++ join ", " missing ++ ".")
  end.

Definition invalid_quantity_message : string :=
  "ERROR: Invalid value for field(s): quantity. Must be positive integer.".

Definition invalid_price_message : string :=
  "ERROR: Invalid value for field(s): price_usd. Must be positive number.".

Open Scope mutating_scope.

(** Lines 104-117: the body of the [try] of [validate_data_types]. *)
Definition coerce_and_check : mutating (bool * string) :=
  quantity <~ reading (fun df => get_col df "quantity") ;;
  assign "quantity" (map to_numeric quantity) ;;;
  price <~ reading (fun df => get_col df "price_usd") ;;
  assign "price_usd" (map to_numeric price) ;;;
  invalid_quantity <~
    reading (fun df => quantity <- get_col df "quantity" ;;
                       invalid_mask quantity) ;;
  if existsb (fun b => b) invalid_quantity
  then mret (false, invalid_quantity_message)
  else
    invalid_price <~
      reading (fun df => price <- get_col df "price_usd" ;;
                         invalid_mask price) ;;
    if existsb (fun b => b) invalid_price
    then mret (false, invalid_price_message)
    else mret (true, "Success").

Close Scope mutating_scope.

(** The method returns its verdict; the second component is the caller's
    frame as the method leaves it. *)
Definition validate_data_types (df : DataFrame)
  : (bool * string) * DataFrame :=
  match coerce_and_check df with
  | (Return verdict, df') => (verdict, df')
  | (Raise e, df') =>
      ((false, "ERROR: Data type validation failed. " ++ str_exn e), df')
  end.

(** The two aggregates of one group: [sum] of [quantity], and the lambda
    of line 126 over the rows [x.index] of the group. *)
Definition aggregate (quantity price : list value) (group : key * list nat)
  : result (key * Qc * Qc) :=
  let (k, members) := group in
  quantities <- for_each (fun i => addend (cell quantity i)) members ;;
  spends <- for_each (fun i => product_addend (cell quantity i)
                                              (cell price i)) members ;;
  Return (k, groupby_sum (List.concat quantities),
          series_sum (List.concat spends)).

(** Lines 132-135: a row of the table with its importance score. *)
Definition scored (row : key * Qc * Qc) : ProductMetric :=
  let '(k, quantity, spend) := row in
  mkMetric (fst k) (snd k) quantity spend
           (num_add (num_mul quantity half) (num_mul spend half)).

(** [groupby] takes a list of keys that are not all labels of the frame
    for the group labels themselves when the list is as long as the
    frame, which for the two keys of line 124 is a frame of two rows. *)
Definition keys_taken_as_labels (df : DataFrame) : bool :=
  (nrows df =? 2) &&
  negb (mem "product_id" (columns df) && mem "product_name" (columns df)).

(** Lines 124-135: the table after [reset_index], labelled [0, 1, ...] in
    group order, before it is sorted and rounded.  When the keys were
    taken as labels the aggregate has three columns after [reset_index],
    and line 129 cannot name four. *)
Definition unsorted_metrics (df : DataFrame)
  : result (list (nat * ProductMetric)) :=
  if keys_taken_as_labels df then
    quantity <- get_col df "quantity" ;;
    price <- get_col df "price_usd" ;;
    Raise (ValueError
             "Length mismatch: Expected axis has 3 elements, new values have 4 elements")
  else
    ids <- get_col df "product_id" ;;
    names <- get_col df "product_name" ;;
    quantity <- get_col df "quantity" ;;
    price <- get_col df "price_usd" ;;
    rows <- for_each (aggregate quantity price)
                     (groupby ids names (nrows df)) ;;
    Return (combine (seq 0 (List.length rows)) (map scored rows)).

(** The dtype of a key column of the frame. *)
Definition numeric_column (df : DataFrame) (c : string) : bool :=
  match lookup c (series df) with
  | Some cells => numeric_dtype cells
  | None => false
  end.

Definition calculate_metrics (df : DataFrame)
  : result (list (nat * ProductMetric)) :=
  product_metrics <- unsorted_metrics df ;;
  let product_metrics := sort_values_desc product_metrics in
  Return
    (map (fun row =>
            (fst row,
             round_metric (numeric_column df "product_id")
                          (numeric_column df "product_name") (snd row)))
         product_metrics).

(** [df[df['product_id'] == product_id]]: the labels of the rows kept. *)
Definition select_product (ids : list value) (n : nat) (pid : value)
  : list nat :=
  filter (fun i => value_eqb (cell ids i) pid) (seq 0 n).

(** A cell of a coerced column as a number for [int] and for the [f]
    format. *)
Definition number (v : value) : result Qc :=
  match v with
  | VNum q => Return q
  | VNull => Raise (ValueError "cannot convert float NaN to integer")
  | VStr _ => Raise (ValueError "Unknown format code 'f' for object of type 'str'")
  end.

(** [int(x)] for a float: an infinity cannot be converted. *)
Definition to_int (x : Qc) : result Z :=
  if isinf x
  then Raise (OverflowError "cannot convert float infinity to integer")
  else Return (int x).

(** Lines 148-152: the line of one transaction. *)
Definition transaction_line (df : DataFrame) (i : nat) : result string :=
  transaction_id <- row_get df i "transaction_id" ;;
  quantity <- row_get df i "quantity" ;;
  quantity <- number quantity ;;
  units <- to_int quantity ;;
  price_usd <- row_get df i "price_usd" ;;
  price_usd <- number price_usd ;;
  Return ("Transaction " ++ str_value transaction_id ++ ": " ++
          str_int units ++ " units × $" ++ fmt_2f price_usd ++
          " = $" ++ fmt_2f (num_mul quantity price_usd)).

Definition format_transaction_details (df : DataFrame) (pid : value)
  : result string :=
  ids <- get_col df "product_id" ;;
  details <- for_each (transaction_line df)
                      (select_product ids (nrows df) pid) ;;
  Return (join nl details).

Definition template_offer : string :=
  "Would you like a template for the data input?".

Definition formulas : list string :=
  ["Formulas Used:";
   "1. Total Quantity Formula:";
   "   Total Quantity = ∑(quantity for each transaction)";
   nl ++ "2. Total Spend Formula:";
   "   Total Spend = ∑(quantity × price_usd for each transaction)";
   nl ++ "3. Importance Score Formula:";
   "   Importance Score = (Total Quantity × 0.5) + (Total Spend × 0.5)"].

(** Line 208: the heading of a product; [idx] is the label of its row. *)
Definition rank_line (idx : nat) (row : ProductMetric) : string :=
  let rank := idx + 1 in
  nl ++ "Rank " ++ str_nat rank ++ ": " ++ str_value (product_name row).

(** Lines 206-237: the body of the loop over
    [product_metrics.iterrows()]. *)
Definition product_section (df : DataFrame) (entry : nat * ProductMetric)
  : result (list string) :=
  let (idx, row) := entry in
  details <- format_transaction_details df (product_id row) ;;
  units <- to_int (total_quantity row) ;;
  Return
    [rank_line idx row;
     "Detailed Calculations:";
     "Individual Transactions:";
     details;
     nl ++ "Total Quantity Calculation:";
     "Total Quantity = " ++ str_int units ++ " units";
     nl ++ "Total Spend Calculation:";
     "Total Spend = $" ++ fmt_comma_2f (total_spend row);
     nl ++ "Importance Score Calculation:";
     "Importance Score = (Total Quantity × 0.5) + (Total Spend × 0.5)" ++
     nl ++ "= (" ++ str_int units ++ " × 0.5) + (" ++
     fmt_2f (total_spend row) ++ " × 0.5)" ++
     nl ++ "= " ++ fmt_2f (num_mul (total_quantity row) half) ++ " + " ++
     fmt_2f (num_mul (total_spend row) half) ++
     nl ++ "= " ++ fmt_2f (importance_score row);
     nl ++ "Product Summary:";
     "- Total Quantity: " ++ str_int units ++ " units";
     "- Total Spend: $" ++ fmt_comma_2f (total_spend row);
     "- Importance Score: " ++ fmt_2f (importance_score row);
     nl ++ rule].

Definition success_banner : string :=
  nl ++ "Data validation successful! Proceeding with analysis...".

Definition closing_prompt : string :=
  nl ++ "Would you like detailed calculations for any specific product? Please rate this analysis from 1 to 5 stars.".

Definition transparency_note : string :=
  nl ++ "Note: All products are shown with full calculations for transparency.".

(** Lines 176-244: the report of a frame that passed both checks. *)
Definition success_report (validation_report : list string)
  (df : DataFrame) : result string :=
  product_metrics <- calculate_metrics df ;;
  sections <- for_each (product_section df) product_metrics ;;
  Return
    (join nl
       (validation_report +++ [success_banner] +++ formulas +++
        [nl ++ "Summary:";
         "Total number of products analyzed: " ++
         str_nat (List.length product_metrics);
         nl ++ "Ranked List and Calculations:"] +++
        List.concat sections +++
        (if 10 <? List.length product_metrics then [transparency_note] else []) +++
        [closing_prompt])).

(** Lines 162-244: what [generate_response] does with the frame it got. *)
Definition report_on (df : DataFrame) : result string :=
  validation_report <- format_validation_report df ;;
  let (is_valid_fields, fields_message) := validate_required_fields df in
  let '(is_valid_types, types_message, df) := validate_data_types df in
  if negb is_valid_fields || negb is_valid_types then
    Return
      (join nl
         (validation_report +++
          [nl ++ "Data validation failed. Please correct the errors above.";
           template_offer]))
  else success_report validation_report df.

Definition generate_response (data : string) : result string :=
  let '(is_valid_format, format_message, df) := validate_data_format data in
  if negb is_valid_format then
    Return (format_message ++ nl ++ nl ++ template_offer)
  else
    match df with
    | Some df => report_on df
    | None => Raise (TypeError "object of type 'NoneType' has no len()")
    end.

(** The two answers of [process_feedback]. *)
Definition process_feedback (rating : Z) : string :=
  if (4 <=? rating)%Z then "Thank you for your positive feedback!"
  else "How can we improve our product recommendations?".

End Methods.

(* ================================================================== *)
(** ** A library instance for running the methods *)
(* ================================================================== *)

(** The properties below hold for every [Library].  To run the methods on
    concrete text one instance is fixed here; it follows pandas and json
    on plain inputs: comma-separated text without quoting, decimal
    numerals, ISO dates, and JSON text without escapes whose records are
    flat objects.  Its arithmetic is exact, which is the arithmetic of
    numpy on the numbers of the texts it is run on below. *)
Module Demo.

Import Py.

Definition comma : ascii := ascii_of_nat 44.
Definition line_feed : ascii := ascii_of_nat 10.
Definition blank : ascii := ascii_of_nat 32.

(** [text.split(sep)] *)
Fixpoint split (sep : ascii) (text : string) : list string :=
  match text with
  | EmptyString => [EmptyString]
  | String c rest =>
      if Ascii.eqb c sep then EmptyString :: split sep rest
      else
        match split sep rest with
        | [] => [String c EmptyString]
        | field :: fields => String c field :: fields
        end
  end.

(** [skipinitialspace=True]: blanks after a delimiter are dropped. *)
Fixpoint skip_blanks (s : string) : string :=
  match s with
  | String c rest => if Ascii.eqb c blank then skip_blanks rest else s
  | EmptyString => EmptyString
  end.

Definition digit_of (c : ascii) : option Z :=
  let n := nat_of_ascii c in
  if (48 <=? n) && (n <=? 57) then Some (Z.of_nat (n - 48)) else None.

(** The digits of [s] as (value, count), if [s] holds digits only. *)
Fixpoint digits (acc : Z) (count : nat) (s : string) : option (Z * nat) :=
  match s with
  | EmptyString => Some (acc, count)
  | String c rest =>
      match digit_of c with
      | Some d => digits (acc * 10 + d)%Z (S count) rest
      | None => None
      end
  end.

(** An unsigned decimal numeral: digits, then maybe a point and digits. *)
Definition unsigned_decimal (s : string) : option Q :=
  match split (ascii_of_nat 46) s with
  | [whole] =>
      match digits 0 0 whole with
      | Some (n, S _) => Some (n # 1)%Q
      | _ => None
      end
  | [whole; fraction] =>
      match digits 0 0 whole, digits 0 0 fraction with
      | Some (n, S _), Some (f, places) =>
          Some ((n # 1) + (f # 1) / ((10 ^ Z.of_nat places) # 1))%Q
      | _, _ => None
      end
  | _ => None
  end.

(** A decimal numeral with an optional minus sign. *)
Definition decimal (s : string) : option Qc :=
  match s with
  | String c rest =>
      if Ascii.eqb c (ascii_of_nat 45)
      then option_map (fun q => Q2Qc (- q)) (unsigned_decimal rest)
      else option_map Q2Qc (unsigned_decimal s)
  | EmptyString => None
  end.

(** The cells of a column as pandas types them: numbers when every cell
    that is not empty reads as one, text otherwise; an empty cell is
    null. *)
Definition typed_column (cells : list string) : list value :=
  let filled := filter (fun c => negb (String.eqb c "")) cells in
  if forallb (fun c => match decimal c with Some _ => true | None => false end)
             filled
  then map (fun c => match decimal c with Some q => VNum q | None => VNull end)
           cells
  else map (fun c => if String.eqb c "" then VNull else VStr c) cells.

Definition csv_frame (text : string) : result DataFrame :=
  let lines := filter (fun l => negb (String.eqb l "")) (split line_feed text) in
  match lines with
  | [] => Raise (LibraryError "No columns to parse from file")
  | header :: records =>
      let names := map skip_blanks (split comma header) in
      let records := map (fun l => map skip_blanks (split comma l)) records in
      if existsb (fun r => List.length names <? List.length r) records
      then Raise (LibraryError "Error tokenizing data")
      else
        Return
          (mkFrame (List.length records)
             (map (fun j =>
                     (nth j names "",
                      typed_column (map (fun r => nth j r "") records)))
                  (seq 0 (List.length names))))
  end.

(** *** A reader for plain JSON text *)

Definition quote : ascii := ascii_of_nat 34.

Definition json_space (c : ascii) : bool :=
  let n := nat_of_ascii c in
  (n =? 32) || (n =? 9) || (n =? 10) || (n =? 13).

Fixpoint skip_spaces (s : string) : string :=
  match s with
  | String c rest => if json_space c then skip_spaces rest else s
  | EmptyString => EmptyString
  end.

(** The text up to the closing quote, and what follows it.  Escapes are
    not read. *)
Fixpoint until_quote (s : string) : option (string * string) :=
  match s with
  | EmptyString => None
  | String c rest =>
      if Ascii.eqb c quote then Some (EmptyString, rest)
      else if Ascii.eqb c (ascii_of_nat 92) then None
      else
        match until_quote rest with
        | Some (body, rest') => Some (String c body, rest')
        | None => None
        end
  end.

Definition numeral_char (c : ascii) : bool :=
  match digit_of c with
  | Some _ => true
  | None => Ascii.eqb c (ascii_of_nat 45) || Ascii.eqb c (ascii_of_nat 46)
  end.

(** The longest prefix made of numeral characters, and the rest. *)
Fixpoint numeral_prefix (s : string) : string * string :=
  match s with
  | String c rest =>
      if numeral_char c
      then let (n, rest') := numeral_prefix rest in (String c n, rest')
      else (EmptyString, s)
  | EmptyString => (EmptyString, EmptyString)
  end.

Definition after (word s : string) : option string :=
  if String.prefix word s
  then Some (String.substring (String.length word)
                              (String.length s - String.length word) s)
  else None.

(** One JSON value at the head of [s], and the text after it.  [fuel]
    bounds the nesting and the number of members. *)
Fixpoint value_at (fuel : nat) (s : string) : option (json * string) :=
  match fuel with
  | O => None
  | S fuel' =>
      match skip_spaces s with
      | EmptyString => None
      | String c rest =>
          if Ascii.eqb c quote then
            match until_quote rest with
            | Some (body, rest') => Some (JStr body, rest')
            | None => None
            end
          else if Ascii.eqb c (ascii_of_nat 123) then
            match skip_spaces rest with
            | String c' rest' =>
                if Ascii.eqb c' (ascii_of_nat 125) then Some (JObj [], rest')
                else members_at fuel' (skip_spaces rest) []
            | EmptyString => None
            end
          else if Ascii.eqb c (ascii_of_nat 91) then
            match skip_spaces rest with
            | String c' rest' =>
                if Ascii.eqb c' (ascii_of_nat 93) then Some (JArr [], rest')
                else items_at fuel' rest []
            | EmptyString => None
            end
          else
            match after "null" (String c rest), after "true" (String c rest),
                  after "false" (String c rest) with
            | Some rest', _, _ => Some (JNull, rest')
            | _, Some rest', _ => Some (JBool true, rest')
            | _, _, Some rest' => Some (JBool false, rest')
            | None, None, None =>
                let (n, rest') := numeral_prefix (String c rest) in
                match decimal n with
                | Some q => Some (JNum q, rest')
                | None => None
                end
            end
      end
  end

with members_at (fuel : nat) (s : string) (seen : list (string * json))
  : option (json * string) :=
  match fuel with
  | O => None
  | S fuel' =>
      match s with
      | String c rest =>
          if Ascii.eqb c quote then
            match until_quote rest with
            | Some (name, rest') =>
                match skip_spaces rest' with
                | String colon rest'' =>
                    if Ascii.eqb colon (ascii_of_nat 58) then
                      match value_at fuel' rest'' with
                      | Some (v, rest3) =>
                          match skip_spaces rest3 with
                          | String d rest4 =>
                              if Ascii.eqb d comma
                              then members_at fuel' (skip_spaces rest4)
                                              (seen +++ [(name, v)])
                              else if Ascii.eqb d (ascii_of_nat 125)
                              then Some (JObj (seen +++ [(name, v)]), rest4)
                              else None
                          | EmptyString => None
                          end
                      | None => None
                      end
                    else None
                | EmptyString => None
                end
            | None => None
            end
          else None
      | EmptyString => None
      end
  end

with items_at (fuel : nat) (s : string) (seen : list json)
  : option (json * string) :=
  match fuel with
  | O => None
  | S fuel' =>
      match value_at fuel' s with
      | Some (v, rest) =>
          match skip_spaces rest with
          | String d rest' =>
              if Ascii.eqb d comma then items_at fuel' rest' (seen +++ [v])
              else if Ascii.eqb d (ascii_of_nat 93)
              then Some (JArr (seen +++ [v]), rest')
              else None
          | EmptyString => None
          end
      | None => None
      end
  end.

(** [json.loads] on plain text: one value and nothing after it. *)
Definition decode (text : string) : result json :=
  match value_at (String.length text) text with
  | Some (j, rest) =>
      match skip_spaces rest with
      | EmptyString => Return j
      | _ => Raise (JSONDecodeError "Extra data")
      end
  | None => Raise (JSONDecodeError "Expecting value")
  end.

(** The labels of a list of records, in the order first met. *)
Fixpoint record_labels (records : list (list (string * json)))
  (seen : list string) : list string :=
  match records with
  | [] => seen
  | record :: rest =>
      record_labels rest
        (fold_left (fun acc kv => if mem (fst kv) acc then acc
                                  else acc +++ [fst kv])
                   record seen)
  end.

Definition scalar (j : option json) : result value :=
  match j with
  | None | Some JNull => Return VNull
  | Some (JNum q) => Return (VNum q)
  | Some (JStr s) => Return (VStr s)
  | Some _ => Raise (LibraryError "cell outside the model")
  end.

(** [pd.DataFrame(records)] for a list of flat objects. *)
Definition records_frame (j : json) : result DataFrame :=
  match j with
  | JArr items =>
      records <- for_each (fun item => match item with
                                       | JObj members => Return members
                                       | _ => Raise (LibraryError "record outside the model")
                                       end) items ;;
      columns <- for_each
                   (fun label =>
                      cells <- for_each (fun record => scalar (lookup label record))
                                        records ;;
                      Return (label, cells))
                   (record_labels records []) ;;
      Return (mkFrame (List.length records) columns)
  | JObj _ =>
      Raise (ValueError "If using all scalar values, you must pass an index")
  | _ => Raise (ValueError "DataFrame constructor not properly called!")
  end.

(** A date written [YYYY-MM-DD] with digits in the right places. *)
Definition iso_date (v : value) : bool :=
  match v with
  | VStr s =>
      match split (ascii_of_nat 45) s with
      | [y; m; d] =>
          match digits 0 0 y, digits 0 0 m, digits 0 0 d with
          | Some (_, 4), Some (m, 2), Some (d, 2) =>
              ((1 <=? m) && (m <=? 12) && (1 <=? d) && (d <=? 31))%Z
          | _, _, _ => false
          end
      | _ => false
      end
  | VNull => true
  | VNum _ => true
  end.

Definition dates (cells : list value) : result unit :=
  if forallb iso_date cells then Return tt
  else Raise (ValueError "Unknown datetime string format").

(** [str(x)] for a whole number. *)
Definition whole (q : Qc) : string := str_int (int q).

(** The labels of a list of objects are their keys. *)
Definition keyed_records (j : json) : bool :=
  match j with
  | JArr items =>
      forallb (fun item => match item with JObj _ => true | _ => false end)
              items
  | _ => true
  end.

(** The sum of numbers that add up without rounding. *)
Definition total (xs : list Qc) : Qc := fold_right Qcplus (Q2Qc 0) xs.

(** [round(x, 2)]: the nearest multiple of 0.01, ties to the even one. *)
Definition nearest_hundredth (x : Qc) : Qc := Q2Qc (hundredths x # 100).

Lemma round_half_even_range (x : Q) :
  (Qfloor x <= round_half_even x <= Qfloor x + 1)%Z.
Proof.
  unfold round_half_even.
  destruct (Qcompare _ _); try destruct (Z.even _); lia.
Qed.

Lemma round_half_even_monotone (x y : Q) :
  (x <= y)%Q -> (round_half_even x <= round_half_even y)%Z.
Proof.
  intros L.
  pose proof (Qfloor_resp_le x y L) as F.
  pose proof (round_half_even_range x) as Rx.
  pose proof (round_half_even_range y) as Ry.
  destruct (Z.eq_dec (Qfloor x) (Qfloor y)) as [E|N]; [|lia].
  clear Rx Ry F. unfold round_half_even. rewrite <- E.
  destruct (Qcompare (x - inject_Z (Qfloor x)) (1 # 2)) eqn:Cx;
  destruct (Qcompare (y - inject_Z (Qfloor x)) (1 # 2)) eqn:Cy;
    try destruct (Z.even (Qfloor x)); try lia; exfalso;
    repeat match goal with
    | C : Qcompare _ _ = Eq |- _ => apply <- Qeq_alt in C
    | C : Qcompare _ _ = Lt |- _ => apply <- Qlt_alt in C
    | C : Qcompare _ _ = Gt |- _ => apply <- Qgt_alt in C
    end;
    lra.
Qed.

Lemma nearest_hundredth_monotone (x y : Qc) :
  (x <= y)%Qc -> (nearest_hundredth x <= nearest_hundredth y)%Qc.
Proof.
  intros L.
  assert (H : (hundredths x <= hundredths y)%Z).
  { unfold hundredths. apply round_half_even_monotone.
    unfold Qcle in L. lra. }
  unfold nearest_hundredth, Qcle. cbv [Q2Qc this]. rewrite !Qred_correct.
  unfold Qle. cbn [Qnum Qden]. lia.
Qed.

(** The places of [keys] in ascending order, by insertion. *)
Fixpoint insert_place (keys : list Qc) (i : nat) (order : list nat)
  : list nat :=
  match order with
  | [] => [i]
  | j :: rest =>
      if Qle_bool (nth i keys (Q2Qc 0)) (nth j keys (Q2Qc 0))
      then i :: order
      else j :: insert_place keys i rest
  end.

Definition places (keys : list Qc) : list nat :=
  fold_right (insert_place keys) [] (seq 0 (List.length keys)).

Lemma insert_place_perm (keys : list Qc) (i : nat) (order : list nat) :
  Permutation (insert_place keys i order) (i :: order).
Proof.
  induction order as [|j rest IH]; simpl.
  - apply Permutation_refl.
  - destruct (Qle_bool _ _).
    + apply Permutation_refl.
    + eapply Permutation_trans; [apply perm_skip, IH|apply perm_swap].
Qed.

Lemma places_perm (keys : list Qc) :
  Permutation (places keys) (seq 0 (List.length keys)).
Proof.
  unfold places. induction (seq 0 (List.length keys)) as [|i l IH]; simpl.
  - constructor.
  - eapply Permutation_trans; [apply insert_place_perm|].
    now apply perm_skip.
Qed.

Lemma insert_place_sorted (keys : list Qc) (i : nat) (order : list nat) :
  StronglySorted
    (fun a b => (nth a keys (Q2Qc 0) <= nth b keys (Q2Qc 0))%Qc) order ->
  StronglySorted
    (fun a b => (nth a keys (Q2Qc 0) <= nth b keys (Q2Qc 0))%Qc)
    (insert_place keys i order).
Proof.
  induction 1 as [|j rest S IH F]; simpl.
  - constructor; constructor.
  - destruct (Qle_bool (nth i keys (Q2Qc 0)) (nth j keys (Q2Qc 0))) eqn:E.
    + apply Qle_bool_iff in E. constructor.
      * now constructor.
      * constructor; [exact E|].
        rewrite Forall_forall in *. intros b I.
        eapply Qcle_trans; [exact E|]. now apply F.
    + assert (L : (nth j keys (Q2Qc 0) <= nth i keys (Q2Qc 0))%Qc).
      { destruct (Qclt_le_dec (nth j keys (Q2Qc 0)) (nth i keys (Q2Qc 0)))
          as [Lt|Le].
        - now apply Qclt_le_weak.
        - apply Qle_bool_iff in Le. congruence. }
      constructor; [exact IH|].
      rewrite Forall_forall in *. intros b I.
      apply (Permutation_in _ (insert_place_perm keys i rest)) in I.
      destruct I as [I|I]; [now subst|now apply F].
Qed.

Lemma places_sorted (keys : list Qc) :
  StronglySorted
    (fun a b => (nth a keys (Q2Qc 0) <= nth b keys (Q2Qc 0))%Qc)
    (places keys).
Proof.
  unfold places. induction (seq 0 (List.length keys)) as [|i l IH]; simpl.
  - constructor.
  - now apply insert_place_sorted.
Qed.

(** A set laid out in the order of insertion, repetitions dropped. *)
#[global] Instance runtime : Runtime := {
  set_order := nodup string_dec;
  set_order_members := fun l x => nodup_In string_dec l x
}.

#[global] Instance library : Library := {
  read_csv := csv_frame;
  json_loads := decode;
  frame_of_json := records_frame;
  text_labels := keyed_records;
  numeric_of_text := decimal;
  to_datetime := dates;
  str_num := whole;
  num_mul := Qcmult;
  num_add := Qcplus;
  groupby_sum := total;
  series_sum := total;
  round2 := nearest_hundredth;
  round2_monotone := nearest_hundredth_monotone;
  quicksort := places;
  quicksort_perm := places_perm;
  quicksort_sorted := places_sorted
}.

(** The text of the [__main__] block of the source. *)
Definition example_data : string :=
  nl ++
  "    transaction_id,customer_id,transaction_date,product_id,product_name,quantity,price_usd" ++ nl ++
  "TX100,C100,2025-03-01,P100,QuantumMouse,2,25.0" ++ nl ++
  "TX101,C101,2025-03-02,P101,NeonKeyboard,1,75.0" ++ nl ++
  "TX102,C102,2025-03-03,P102,RetroMonitor,3,150.0" ++ nl ++
  "TX103,C103,2025-03-04,P100,QuantumMouse,1,25.0" ++ nl ++
  "TX104,C104,2025-03-05,P101,NeonKeyboard,2,75.0" ++ nl ++
  "TX105,C105,2025-03-06,P102,RetroMonitor,2,150.0" ++ nl ++
  nl ++ nl ++ "    ".

End Demo.

(* ================================================================== *)
(** ** Notions used to state the properties *)
(* ================================================================== *)

(** Strict order of two group keys in the layout of [groupby]. *)
Definition key_lt (k1 k2 : key) : Prop := key_compare k1 k2 = Lt.

(** The row labelled [i] belongs to the product [k]: its [product_id]
    and its [product_name] both equal those of [k]. *)
Definition same_product (ids names : list value) (k : key) (i : nat) : bool :=
  value_eqb (cell ids i) (fst k) && value_eqb (cell names i) (snd k).

(** The labels of the rows of the product [k], in row order. *)
Definition rows_of_product (ids names : list value) (n : nat) (k : key)
  : list nat :=
  filter (same_product ids names k) (seq 0 n).

(** One step of the loop of [groupby]. *)
Definition group_step (ids names : list value)
  (groups : list (key * list nat)) (i : nat) : list (key * list nat) :=
  let k := key_at ids names i in
  if has_null k then groups else group_insert k i groups.

(** The sort key of a labelled row of the metrics table. *)
Definition score (row : nat * ProductMetric) : Qc := importance_score (snd row).

(** [a] comes before [b] in [l]. *)
Definition precedes {A : Type} (a b : A) (l : list A) : Prop :=
  exists l1 l2 l3, l = l1 +++ a :: l2 +++ b :: l3.

(** Scores never increase along the table. *)
Definition non_increasing (table : list (nat * ProductMetric)) : Prop :=
  StronglySorted (fun a b => (score b <= score a)%Qc) table.

Definition non_decreasing (table : list (nat * ProductMetric)) : Prop :=
  StronglySorted (fun a b => (score a <= score b)%Qc) table.

(** The cells of a column, none for a missing column. *)
Definition column (df : DataFrame) (c : string) : list value :=
  match lookup c (series df) with
  | Some cells => cells
  | None => []
  end.

(** A coerced cell that type validation rejects. *)
Definition null_or_nonpositive (v : value) : Prop :=
  v = VNull \/ exists q, v = VNum q /\ (q <= Q2Qc 0)%Qc.

Definition invalid_cell (v : value) : bool :=
  match v with
  | VNull => true
  | VNum q => Qle_bool q 0
  | VStr _ => false
  end.

(** A number that passed type validation. *)
Definition positive_number (v : value) : Prop :=
  exists q, v = VNum q /\ (Q2Qc 0 < q)%Qc.

(** The frame [validate_data_types] leaves behind when both columns are
    there. *)
Definition coerced `{Library} (df : DataFrame) : DataFrame :=
  set_col (set_col df "quantity" (map to_numeric (column df "quantity")))
          "price_usd" (map to_numeric (column df "price_usd")).

(** The verdict of [validate_data_types] when both columns are there. *)
Definition type_verdict `{Library} (df : DataFrame) : bool * string :=
  if existsb (fun v => invalid_cell (to_numeric v)) (column df "quantity")
  then (false, invalid_quantity_message)
  else if existsb (fun v => invalid_cell (to_numeric v)) (column df "price_usd")
  then (false, invalid_price_message)
  else (true, "Success").

(** Some row of column [c] has a coerced cell that is null or not
    positive. *)
Definition some_row_invalid `{Library} (df : DataFrame) (c : string) : Prop :=
  Exists (fun v => null_or_nonpositive (to_numeric v)) (column df c).

(** The frame a text is read into, the empty frame when it is refused. *)
Definition frame_of `{Library} (data : string) : DataFrame :=
  match validate_data_format data with
  | (_, _, Some df) => df
  | (_, _, None) => mkFrame 0 []
  end.

Module Samples.

Import Py Demo.

Definition header : string :=
  "transaction_id,customer_id,transaction_date,product_id,product_name,quantity,price_usd".

(** A negative quantity, and a price of zero in another row. *)
Definition bad_values : string :=
  header ++ nl ++
  "T1,C1,2025-01-01,P1,Alpha,-1,10.0" ++ nl ++
  "T2,C2,2025-01-02,P2,Beta,2,0".

(** Two products of equal score; the one met first has the larger key. *)
Definition tied : string :=
  header ++ nl ++
  "T1,C1,2025-01-01,P2,Beta,1,10.0" ++ nl ++
  "T2,C2,2025-01-02,P1,Alpha,1,10.0".

(** The same two rows the other way round. *)
Definition tied_swapped : string :=
  header ++ nl ++
  "T2,C2,2025-01-02,P1,Alpha,1,10.0" ++ nl ++
  "T1,C1,2025-01-01,P2,Beta,1,10.0".

(** No [quantity] and no [price_usd] column. *)
Definition two_columns : string :=
  "transaction_id,customer_id" ++ nl ++ "T1,C1".

(** No [price_usd] column. *)
Definition no_price : string :=
  "transaction_id,quantity" ++ nl ++ "T1,1".

(** Every required column but [transaction_date]. *)
Definition no_date : string :=
  "transaction_id,customer_id,product_id,product_name,quantity,price_usd"
  ++ nl ++ "T1,C1,P1,Alpha,1,10.0".

(** One [product_id] under two names. *)
Definition renamed : string :=
  header ++ nl ++
  "T1,C1,2025-01-01,P1,Alpha,1,10.0" ++ nl ++
  "T2,C2,2025-01-02,P1,Alfa,2,20.0".

(** A numeric [product_id] with three decimals under two names. *)
Definition fractional_id : string :=
  header ++ nl ++
  "T1,C1,2025-01-01,1.234,Alpha,1,10.0" ++ nl ++
  "T2,C2,2025-01-02,1.234,Alfa,2,20.0".

(** A date that is no date. *)
Definition bad_date : string :=
  header ++ nl ++
  "T1,C1,someday,P1,Alpha,1,10.0".

(** A quantity that is no number. *)
Definition text_quantity : string :=
  header ++ nl ++
  "T1,C1,2025-01-01,P1,Alpha,many,10.0".


Definition quoted (s : string) : string :=
  String quote EmptyString ++ s ++ String quote EmptyString.

(** A JSON member [name: value]. *)
Definition member (name value : string) : string :=
  quoted name ++ ": " ++ value.

(** A JSON envelope with one record whose [product_id] key starts with a
    blank. *)
Definition padded_label : string :=
  "{" ++ member "transactions" "[{" ++
  member "transaction_id" (quoted "T1") ++ ", " ++
  member "customer_id" (quoted "C1") ++ ", " ++
  member "transaction_date" (quoted "2025-01-01") ++ ", " ++
  member " product_id" (quoted "P1") ++ ", " ++
  member "product_name" (quoted "Alpha") ++ ", " ++
  member "quantity" "1" ++ ", " ++
  member "price_usd" "10.0" ++ "}]}".

(** A JSON envelope with one record whose quantity is the text [2]. *)
Definition quoted_quantity : string :=
  "{" ++ member "transactions" "[{" ++
  member "transaction_id" (quoted "T1") ++ ", " ++
  member "customer_id" (quoted "C1") ++ ", " ++
  member "transaction_date" (quoted "2025-01-01") ++ ", " ++
  member "product_id" (quoted "P1") ++ ", " ++
  member "product_name" (quoted "Alpha") ++ ", " ++
  member "quantity" (quoted "2") ++ ", " ++
  member "price_usd" "10.0" ++ "}]}".

(** A JSON object without the [transactions] key. *)
Definition no_transactions : string :=
  "{" ++ member "orders" "[]" ++ "}".

(** Text that is neither CSV nor JSON. *)
Definition not_json : string := "quantity;price".

End Samples.

(** The number in a cell, if it holds one. *)
Definition numbers (v : value) : list Qc :=
  match v with
  | VNum q => [q]
  | _ => []
  end.

(** The keys of the groups of a frame, in the order of [groupby]; the
    group with label [i] in the metrics table has the [i]-th key. *)
Definition group_keys (df : DataFrame) : list key :=
  map fst (groupby (column df "product_id") (column df "product_name")
                   (nrows df)).

(** The rows of the frame that belong to the product [k]. *)
Definition product_rows (df : DataFrame) (k : key) : list nat :=
  rows_of_product (column df "product_id") (column df "product_name")
                  (nrows df) k.

(** [quantity × price] of one row with the product of the library,
    nothing when either is null. *)
Definition spend_of `{Library} (quantity price : value) : list Qc :=
  match quantity, price with
  | VNum q, VNum p => [num_mul q p]
  | _, _ => []
  end.

(** The quantities of the rows [rows], nulls left out. *)
Definition quantities (df : DataFrame) (rows : list nat) : list Qc :=
  flat_map (fun j => numbers (cell (column df "quantity") j)) rows.

(** [quantity × price_usd] of each of the rows [rows], taken row by row
    with the product of the library; rows with a null are left out. *)
Definition spends `{Library} (df : DataFrame) (rows : list nat) : list Qc :=
  flat_map (fun j => spend_of (cell (column df "quantity") j)
                              (cell (column df "price_usd") j)) rows.

(** The sum of [quantity] over the rows of a product, as the library
    adds it up. *)
Definition quantity_sum `{Library} (df : DataFrame) (k : key) : Qc :=
  groupby_sum (quantities df (product_rows df k)).

(** The sum of [quantity × price_usd], row by row, over the rows of a
    product, as the library adds it up. *)
Definition spend_sum `{Library} (df : DataFrame) (k : key) : Qc :=
  series_sum (spends df (product_rows df k)).

(** [total_quantity × 0.5 + total_spend × 0.5] in the arithmetic of the
    library. *)
Definition weighted `{Library} (quantity spend : Qc) : Qc :=
  num_add (num_mul quantity half) (num_mul spend half).

(** The row of the metrics table of the product [k] before rounding. *)
Definition unrounded_metric `{Library} (df : DataFrame) (k : key)
  : ProductMetric :=
  mkMetric (fst k) (snd k) (quantity_sum df k) (spend_sum df k)
           (weighted (quantity_sum df k) (spend_sum df k)).

(** The key of the row labelled [j]. *)
Definition row_key (df : DataFrame) (j : nat) : key :=
  key_at (column df "product_id") (column df "product_name") j.

(** [keys] lists the products of the frame, each once: the keys of the
    rows whose [product_id] and [product_name] are both there. *)
Definition lists_products (df : DataFrame) (keys : list key) : Prop :=
  NoDup keys /\
  forall k, In k keys <->
            has_null k = false /\ exists j, j < nrows df /\ row_key df j = k.

(** A key cell as the metrics table shows it: [round(2)] rounds a key
    column too when it holds numbers only. *)
Definition shown `{Library} (df : DataFrame) (c : string) (v : value)
  : value :=
  if numeric_column df c then round_cell v else v.

(** Column labels in lower case without surrounding blanks, as
    [validate_data_format] leaves the labels of CSV input. *)
Definition normalised (df : DataFrame) : Prop :=
  Forall (fun c => Py.strip (Py.lower c) = c) (columns df).

(** Every column holds one cell per row. *)
Definition rectangular (df : DataFrame) : Prop :=
  Forall (fun kv => List.length (snd kv) = nrows df) (series df).

(** [df] is a frame with normalised labels that passes both checks, and
    [df'] is that frame after [validate_data_types] coerced it. *)
Definition validated `{Library} `{Runtime} (df df' : DataFrame) : Prop :=
  rectangular df /\
  normalised df /\
  fst (validate_required_fields init df) = true /\
  fst (fst (validate_data_types df)) = true /\
  df' = snd (validate_data_types df).

(** The frame has every required column under its own label. *)
Definition has_required_columns (df : DataFrame) : Prop :=
  Forall (fun field => In field (columns df)) (required_fields init).

(** A cell that holds no infinity. *)
Definition finite_cell (v : value) : bool :=
  match v with
  | VNum q => negb (Py.isinf q)
  | _ => true
  end.

(** No quantity of the frame is infinite. *)
Definition finite_quantities (df : DataFrame) : Prop :=
  forallb finite_cell (column df "quantity") = true.

(** No total quantity that the metrics table shows for a product of the
    frame is infinite. *)
Definition finite_totals `{Library} (df : DataFrame) : Prop :=
  forallb (fun k => negb (Py.isinf (round2 (quantity_sum df k))))
          (group_keys df) = true.

(** The first row of the frame in which the product [k] occurs. *)
Definition first_row (df : DataFrame) (k : key) : nat :=
  hd (nrows df) (product_rows df k).

(** Rows of equal score stand in the order in which their groups were
    first met in the frame. *)
Definition ties_by_first_encounter (df : DataFrame)
  (pm : list (nat * ProductMetric)) : Prop :=
  forall a b ka kb,
    precedes a b pm -> score a = score b ->
    nth_error (group_keys df) (fst a) = Some ka ->
    nth_error (group_keys df) (fst b) = Some kb ->
    first_row df ka < first_row df kb.

(** The order of the metrics table as the specification words it. *)
Definition ranked_by_first_encounter (df : DataFrame) : Prop :=
  forall pm, calculate_metrics df = Return pm ->
             non_increasing pm /\ ties_by_first_encounter df pm.

(** The frame of a text after [validate_data_types] coerced it: what
    [generate_response] hands to [calculate_metrics]. *)
Definition checked `{Library} (data : string) : DataFrame :=
  snd (validate_data_types (frame_of data)).

(** The lines of a text that start with [prefix]. *)
Definition lines_with (prefix text : string) : list string :=
  filter (String.prefix prefix) (Demo.split Demo.line_feed text).

(** The text of a report, empty when the call raised. *)
Definition report_text (outcome : result string) : string :=
  match outcome with
  | Return text => text
  | Raise _ => ""
  end.

(** The cell pandas reads in a numeral. *)
Definition num (numeral : string) : value :=
  match Demo.decimal numeral with
  | Some q => VNum q
  | None => VNull
  end.

(** The product id [pid] occurs in the frame under the two distinct
    names [name1] and [name2]. *)
Definition two_names (df : DataFrame) (pid name1 name2 : value) : Prop :=
  exists r1 r2,
    r1 < nrows df /\ r2 < nrows df /\
    key_at (column df "product_id") (column df "product_name") r1
      = (pid, name1) /\
    key_at (column df "product_id") (column df "product_name") r2
      = (pid, name2) /\
    name1 <> name2 /\
    has_null (pid, name1) = false /\ has_null (pid, name2) = false.

(** Both groups of [pid] are in the metrics table, and the listing
    printed for either of them holds the line of every row whose
    [product_id] is [pid], whatever its name. *)
Definition both_list_all `{Library} (df : DataFrame) (pid name1 name2 : value)
  : Prop :=
  exists pm i1 m1 i2 m2 lines,
    calculate_metrics df = Return pm /\
    In (i1, m1) pm /\ In (i2, m2) pm /\
    nth_error (group_keys df) i1 = Some (pid, name1) /\
    nth_error (group_keys df) i2 = Some (pid, name2) /\
    for_each (transaction_line df)
             (select_product (column df "product_id") (nrows df) pid)
      = Return lines /\
    format_transaction_details df (product_id m1)
      = Return (Py.join Py.nl lines) /\
    format_transaction_details df (product_id m2)
      = Return (Py.join Py.nl lines).


(* ================================================================== *)
(** ** Notions used for the further properties *)
(* ================================================================== *)

(** Some column of the frame carries the required field, whatever the
    case and the surrounding blanks of its label. *)
Definition field_present (df : DataFrame) (field : string) : bool :=
  existsb (fun col => String.eqb (Py.strip (Py.lower col)) (Py.lower field))
          (columns df).

(** The required fields of an instance that no column carries, in the
    order of declaration. *)
Definition absent_fields (self : ProductRecommenderAI) (df : DataFrame)
  : list string :=
  filter (fun field => negb (field_present df field)) (required_fields self).

(** The message of the comparison of a text with an int. *)
Definition text_compared : exn :=
  TypeError "'<=' not supported between instances of 'str' and 'int'".

(** The [k]-th line of a report counted from its end. *)
Definition line_from_end (k : nat) (report : list string) : string :=
  nth k (rev report) "".

(** The number of rows that [validate_data_types] rejects in column [c]. *)
Definition rejected `{Library} (df : DataFrame) (c : string) : nat :=
  List.length (filter (fun v => invalid_cell (to_numeric v)) (column df c)).

(** The status the structural report prints for [n] rejected rows. *)
Definition status_of (n : nat) : string :=
  if n =? 0 then "✓ Valid"
  else "✗ Found " ++ Py.str_nat n ++ " invalid records".

Module Orders.

Import Py Samples.

(** A JSON envelope with two records of one product, one key in
    capitals. *)
Definition envelope : string :=
  "{" ++ member "transactions" "[{" ++
  member "transaction_id" (quoted "T1") ++ ", " ++
  member "customer_id" (quoted "C1") ++ ", " ++
  member "transaction_date" (quoted "2025-01-01") ++ ", " ++
  member "Product_ID" (quoted "P1") ++ ", " ++
  member "product_name" (quoted "Alpha") ++ ", " ++
  member "quantity" "1" ++ ", " ++
  member "price_usd" "10.0" ++ "}, {" ++
  member "transaction_id" (quoted "T2") ++ ", " ++
  member "customer_id" (quoted "C2") ++ ", " ++
  member "transaction_date" (quoted "2025-01-02") ++ ", " ++
  member "Product_ID" (quoted "P1") ++ ", " ++
  member "product_name" (quoted "Alpha") ++ ", " ++
  member "quantity" "2" ++ ", " ++
  member "price_usd" "10.0" ++ "}]}".

End Orders.

(** No label occurs twice in the list. *)
Fixpoint distinct (labels : list string) : bool :=
  match labels with
  | [] => true
  | label :: rest => negb (Py.mem label rest) && distinct rest
  end.


(* ================================================================== *)
(** ** The order on group keys *)
(* ================================================================== *)

Lemma value_compare_eq (v w : value) : value_compare v w = Eq -> v = w.
Proof.
  destruct v as [|p|s], w as [|q|t]; simpl; try discriminate; intros E.
  - reflexivity.
  - apply Qceq_alt in E. now subst.
  - apply String_as_OT.cmp_eq in E. now subst.
Qed.

Lemma value_compare_refl (v : value) : value_compare v v = Eq.
Proof.
  destruct v as [|p|s]; simpl.
  - reflexivity.
  - now apply Qceq_alt.
  - now apply String_as_OT.cmp_eq.
Qed.

Lemma value_compare_antisym (v w : value) :
  value_compare v w = CompOpp (value_compare w v).
Proof.
  destruct v as [|p|s], w as [|q|t]; simpl; try reflexivity.
  - unfold Qccompare. now rewrite <- Qcompare_antisym.
  - apply String_as_OT.cmp_antisym.
Qed.

Lemma value_compare_trans (u v w : value) :
  value_compare u v = Lt -> value_compare v w = Lt -> value_compare u w = Lt.
Proof.
  destruct u as [|p|s], v as [|q|t], w as [|r|x]; simpl;
    try discriminate; try reflexivity; intros A B.
  - apply Qclt_alt in A, B. apply Qclt_alt. eapply Qclt_trans; eauto.
  - apply String_as_OT.cmp_lt in A, B. apply String_as_OT.cmp_lt.
    eapply String_as_OT.lt_trans; eauto.
Qed.

Lemma key_compare_eq (k1 k2 : key) : key_compare k1 k2 = Eq -> k1 = k2.
Proof.
  destruct k1 as [a b], k2 as [c d]. unfold key_compare. simpl.
  destruct (value_compare a c) eqn:E; try discriminate.
  intros F. apply value_compare_eq in E, F. now subst.
Qed.

Lemma key_compare_refl (k : key) : key_compare k k = Eq.
Proof.
  unfold key_compare. now rewrite !value_compare_refl.
Qed.

Lemma key_compare_antisym (k1 k2 : key) :
  key_compare k1 k2 = CompOpp (key_compare k2 k1).
Proof.
  unfold key_compare.
  rewrite (value_compare_antisym (fst k1) (fst k2)).
  destruct (value_compare (fst k2) (fst k1)); simpl; auto.
  apply value_compare_antisym.
Qed.

Lemma key_compare_trans (k1 k2 k3 : key) :
  key_compare k1 k2 = Lt -> key_compare k2 k3 = Lt -> key_compare k1 k3 = Lt.
Proof.
  unfold key_compare.
  destruct (value_compare (fst k1) (fst k2)) eqn:A; try discriminate;
  destruct (value_compare (fst k2) (fst k3)) eqn:B; try discriminate;
  intros C D.
  - apply value_compare_eq in A, B. rewrite A, B, value_compare_refl.
    destruct k1, k2, k3; simpl in *; subst. eapply value_compare_trans; eauto.
  - apply value_compare_eq in A. rewrite A, B. reflexivity.
  - apply value_compare_eq in B. rewrite <- B, A. reflexivity.
  - now rewrite (value_compare_trans _ _ _ A B).
Qed.


(* ================================================================== *)
(** ** [groupby] *)
(* ================================================================== *)

Lemma value_eqb_eq (v w : value) : value_eqb v w = true -> v = w.
Proof.
  destruct v as [|p|s], w as [|q|t]; simpl; try discriminate; intros E.
  - apply Qeq_bool_iff in E. apply Qc_is_canon in E. now subst.
  - apply String.eqb_eq in E. now subst.
Qed.

Lemma value_eqb_refl (v : value) : isna v = false -> value_eqb v v = true.
Proof.
  destruct v as [|p|s]; simpl; try discriminate; intros _.
  - apply Qeq_bool_iff. reflexivity.
  - apply String.eqb_refl.
Qed.


Lemma has_null_false (k : key) :
  has_null k = false -> isna (fst k) = false /\ isna (snd k) = false.
Proof. unfold has_null. apply orb_false_iff. Qed.

Lemma same_product_key (ids names : list value) (k : key) (i : nat) :
  same_product ids names k i = true -> key_at ids names i = k.
Proof.
  unfold same_product, key_at. intros E. apply andb_true_iff in E.
  destruct E as [A B]. apply value_eqb_eq in A, B. destruct k; simpl in *.
  now subst.
Qed.

Lemma same_product_self (ids names : list value) (i : nat) :
  has_null (key_at ids names i) = false ->
  same_product ids names (key_at ids names i) i = true.
Proof.
  intros N. apply has_null_false in N. destruct N as [A B].
  unfold same_product. simpl in *. now rewrite !value_eqb_refl.
Qed.

Lemma same_product_null (ids names : list value) (k : key) (i : nat) :
  has_null (key_at ids names i) = true -> same_product ids names k i = false.
Proof.
  unfold has_null, key_at, same_product. simpl. intros N.
  apply orb_true_iff in N. destruct N as [N|N].
  - destruct (cell ids i); try discriminate. reflexivity.
  - destruct (cell names i); try discriminate.
    simpl. apply andb_false_r.
Qed.

Section GroupInsert.

Variables (k : key) (i : nat).

Lemma group_insert_keys_sorted (groups : list (key * list nat)) :
  StronglySorted key_lt (map fst groups) ->
  StronglySorted key_lt (map fst (group_insert k i groups)) /\
  (forall k0, Forall (key_lt k0) (map fst groups) -> key_lt k0 k ->
              Forall (key_lt k0) (map fst (group_insert k i groups))).
Proof.
  induction groups as [|[k' members] rest IH]; simpl; intros S.
  - split.
    + repeat constructor.
    + intros. repeat constructor. assumption.
  - inversion S as [|? ? S' F]; subst.
    destruct (key_compare k k') eqn:C; simpl.
    + split; [constructor; assumption|]. intros; assumption.
    + split.
      * constructor; [assumption|]. constructor; [exact C|].
        eapply Forall_impl; [|exact F]. intros a L. unfold key_lt in *.
        eapply key_compare_trans; eauto.
      * intros k0 F0 L0. constructor; assumption.
    + destruct (IH S') as [IH1 IH2]. split.
      * constructor; [assumption|]. apply IH2; [assumption|].
        unfold key_lt. rewrite key_compare_antisym, C. reflexivity.
      * intros k0 F0 L0. inversion F0; subst. constructor; [assumption|].
        apply IH2; assumption.
Qed.

Lemma sorted_head_not_in (k0 : key) (keys : list key) :
  Forall (key_lt k0) keys -> ~ In k0 keys.
Proof.
  intros F I. rewrite Forall_forall in F. specialize (F _ I).
  unfold key_lt in F. rewrite key_compare_refl in F. discriminate.
Qed.

(** Where an entry of the groups comes from once a row was added. *)
Lemma group_insert_entry (groups : list (key * list nat))
  (k0 : key) (members0 : list nat) :
  StronglySorted key_lt (map fst groups) ->
  In (k0, members0) (group_insert k i groups) ->
  (k0 <> k /\ In (k0, members0) groups) \/
  (k0 = k /\ exists members, In (k, members) groups /\
                             members0 = members +++ [i]) \/
  (k0 = k /\ members0 = [i] /\ ~ In k (map fst groups)).
Proof.
  induction groups as [|[k' members] rest IH]; simpl; intros S I.
  - destruct I as [I|[]]. inversion I; subst. right. right. auto.
  - inversion S as [|? ? S' F]; subst.
    destruct (key_compare k k') eqn:C; simpl in I.
    + apply key_compare_eq in C. subst k'. destruct I as [I|I].
      * inversion I; subst. right. left. split; [reflexivity|].
        exists members. auto.
      * left. split; [|auto]. intros E. subst k0.
        apply (sorted_head_not_in k (map fst rest) F).
        change k with (fst (k, members0)). now apply in_map.
    + assert (N : ~ In k (k' :: map fst rest)).
      { apply sorted_head_not_in. constructor; [exact C|].
        eapply Forall_impl; [|exact F]. intros a L. unfold key_lt in *.
        eapply key_compare_trans; eauto. }
      destruct I as [I|I].
      * inversion I; subst. right. right. auto.
      * left. split; [|exact I]. intros E. subst k0. apply N.
        destruct I as [I|I].
        -- inversion I; subst. now left.
        -- right. change k with (fst (k, members0)). now apply in_map.
    + destruct I as [I|I].
      * inversion I; subst. left. split; [|auto]. intros E. subst k0.
        rewrite key_compare_refl in C. discriminate.
      * destruct (IH S' I) as [[N J]|[[E [ms [J M]]]|[E [M N]]]].
        -- left. auto.
        -- right. left. split; [exact E|]. exists ms. auto.
        -- right. right. repeat split; try assumption.
           intros [J|J]; [|now apply N]. subst k'.
           rewrite key_compare_refl in C. discriminate.
Qed.

(** Adding a row keeps every key and brings in the key of the row. *)
Lemma group_insert_has_key (groups : list (key * list nat)) :
  In k (map fst (group_insert k i groups)) /\
  (forall k0, In k0 (map fst groups) ->
              In k0 (map fst (group_insert k i groups))).
Proof.
  induction groups as [|[k' members] rest [IH1 IH2]]; simpl.
  - split; [now left|]. intros k0 [].
  - destruct (key_compare k k') eqn:C; simpl.
    + apply key_compare_eq in C. subst k'. split; [now left|]. auto.
    + split; [now left|]. intros k0 J. right. exact J.
    + split; [now right|]. intros k0 [J|J]; [now left|right; auto].
Qed.

End GroupInsert.

Section GroupBy.

Variables (ids names : list value).

Lemma groupby_fold (n : nat) :
  groupby ids names n = fold_left (group_step ids names) (seq 0 n) [].
Proof. reflexivity. Qed.

(** What the loop of [groupby] maintains, after the rows [done]. *)
Record grouped (done : list nat) (groups : list (key * list nat)) : Prop := {
  grouped_sorted : StronglySorted key_lt (map fst groups);
  grouped_members :
    forall k members, In (k, members) groups ->
      has_null k = false /\
      members = filter (same_product ids names k) done /\
      members <> [];
  grouped_complete :
    forall i, In i done -> has_null (key_at ids names i) = false ->
              In (key_at ids names i) (map fst groups)
}.

Lemma grouped_nil : grouped [] [].
Proof.
  split; simpl.
  - constructor.
  - intros k members [].
  - intros i [].
Qed.

Lemma filter_snoc {A : Type} (f : A -> bool) (l : list A) (x : A) :
  filter f (l +++ [x]) = filter f l +++ (if f x then [x] else []).
Proof. rewrite filter_app. reflexivity. Qed.

Lemma grouped_step (done : list nat) (groups : list (key * list nat)) (i : nat) :
  grouped done groups ->
  grouped (done +++ [i]) (group_step ids names groups i).
Proof.
  intros [S M C]. unfold group_step.
  destruct (has_null (key_at ids names i)) eqn:N.
  - split.
    + exact S.
    + intros k members I. destruct (M k members I) as [A [B D]].
      repeat split; try assumption.
      rewrite filter_snoc, (same_product_null _ _ _ _ N), app_nil_r.
      exact B.
    + intros j J Nj. apply in_app_or in J. destruct J as [J|[J|[]]].
      * now apply C.
      * subst j. rewrite N in Nj. discriminate.
  - split.
    + now apply group_insert_keys_sorted.
    + intros k members I.
      apply group_insert_entry in I; [|exact S].
      destruct I as [[D I]|[[E [ms [I Ems]]]|[E [Ems Nin]]]].
      * destruct (M k members I) as [A [B D']].
        repeat split; try assumption.
        rewrite filter_snoc.
        destruct (same_product ids names k i) eqn:P.
        -- apply same_product_key in P. congruence.
        -- now rewrite app_nil_r.
      * subst k members. destruct (M _ ms I) as [A [B D']].
        repeat split; try assumption.
        -- rewrite filter_snoc, same_product_self by exact N. now rewrite <- B.
        -- destruct ms; discriminate.
      * subst k members. repeat split; try assumption; [|discriminate].
        rewrite filter_snoc, same_product_self by exact N.
        assert (E : filter (same_product ids names (key_at ids names i)) done = []).
        { destruct (filter _ done) as [|j rest] eqn:F; [reflexivity|].
          exfalso. assert (J : In j (filter (same_product ids names (key_at ids names i)) done)).
          { rewrite F. now left. }
          apply filter_In in J. destruct J as [J P].
          apply same_product_key in P. apply Nin. rewrite <- P.
          apply C; [exact J|]. now rewrite P. }
        now rewrite E.
    + intros j J Nj. apply in_app_or in J. destruct J as [J|[J|[]]].
      * apply (proj2 (group_insert_has_key _ i groups)). now apply C.
      * subst j. apply (proj1 (group_insert_has_key _ i groups)).
Qed.

Lemma grouped_fold (l done : list nat) (groups : list (key * list nat)) :
  grouped done groups ->
  grouped (done +++ l) (fold_left (group_step ids names) l groups).
Proof.
  revert done groups. induction l as [|i l IH]; simpl; intros done groups G.
  - now rewrite app_nil_r.
  - replace (done +++ i :: l) with ((done +++ [i]) +++ l)
      by (rewrite <- app_assoc; reflexivity).
    apply IH. now apply grouped_step.
Qed.

(** The groups of a frame: keys in increasing order without repetition,
    and each group holds exactly the rows of its product, in row order. *)
Lemma groupby_grouped (n : nat) : grouped (seq 0 n) (groupby ids names n).
Proof.
  rewrite groupby_fold. apply (grouped_fold (seq 0 n) [] []), grouped_nil.
Qed.

Lemma groupby_members (n : nat) (k : key) (members : list nat) :
  In (k, members) (groupby ids names n) ->
  members = rows_of_product ids names n k.
Proof.
  intros I. now apply (grouped_members _ _ (groupby_grouped n)) in I.
Qed.

Lemma groupby_keys_sorted (n : nat) :
  StronglySorted key_lt (map fst (groupby ids names n)).
Proof. apply (grouped_sorted _ _ (groupby_grouped n)). Qed.

Lemma groupby_has_key (n i : nat) :
  i < n -> has_null (key_at ids names i) = false ->
  In (key_at ids names i) (map fst (groupby ids names n)).
Proof.
  intros L N. apply (grouped_complete _ _ (groupby_grouped n)); [|exact N].
  apply in_seq. lia.
Qed.

End GroupBy.

Lemma key_lt_irrefl (k : key) : ~ key_lt k k.
Proof. unfold key_lt. rewrite key_compare_refl. discriminate. Qed.

Lemma sorted_keys_NoDup (keys : list key) :
  StronglySorted key_lt keys -> NoDup keys.
Proof.
  induction 1 as [|k keys S IH F]; constructor; [|exact IH].
  intros I. rewrite Forall_forall in F. exact (key_lt_irrefl k (F k I)).
Qed.

(** The keys of the groups are the products of the frame, each once. *)
Lemma group_keys_list_products (df : DataFrame) :
  lists_products df (group_keys df).
Proof.
  unfold lists_products, group_keys, row_key.
  set (ids := column df "product_id"). set (names := column df "product_name").
  split.
  - apply sorted_keys_NoDup, groupby_keys_sorted.
  - intros k. split.
    + intros I. apply in_map_iff in I. destruct I as [[k' members] [E I]].
      simpl in E. subst k'.
      destruct (grouped_members _ _ _ _ (groupby_grouped ids names (nrows df))
                  k members I) as [N [M D]].
      split; [exact N|].
      destruct members as [|j rest]; [congruence|].
      assert (J : In j (filter (same_product ids names k) (seq 0 (nrows df)))).
      { rewrite <- M. now left. }
      apply filter_In in J. destruct J as [J P]. apply in_seq in J.
      exists j. split; [lia|]. now apply same_product_key.
    + intros [N [j [L E]]]. subst k. now apply groupby_has_key.
Qed.

(* ================================================================== *)
(** ** [sort_values] *)
(* ================================================================== *)

Lemma insert_asc_perm (x : nat * ProductMetric) (l : list (nat * ProductMetric)) :
  Permutation (insert_asc x l) (x :: l).
Proof.
  induction l as [|y l IH]; simpl.
  - apply Permutation_refl.
  - destruct (Qle_bool _ _).
    + apply Permutation_refl.
    + eapply Permutation_trans; [apply perm_skip, IH|apply perm_swap].
Qed.

Lemma argsort_asc_perm (l : list (nat * ProductMetric)) :
  Permutation (argsort_asc l) l.
Proof.
  induction l as [|x l IH]; simpl.
  - constructor.
  - eapply Permutation_trans; [apply insert_asc_perm|]. now constructor.
Qed.

Lemma insert_asc_sorted (x : nat * ProductMetric) (l : list (nat * ProductMetric)) :
  non_decreasing l -> non_decreasing (insert_asc x l).
Proof.
  unfold non_decreasing.
  induction l as [|y l IH]; simpl; intros S.
  - repeat constructor.
  - inversion S as [|? ? S' F]; subst.
    destruct (Qle_bool (importance_score (snd x)) (importance_score (snd y))) eqn:C.
    + apply Qle_bool_iff in C. constructor; [exact S|].
      constructor; [exact C|]. eapply Forall_impl; [|exact F].
      intros a L. eapply Qcle_trans; [exact C|exact L].
    + constructor; [now apply IH|].
      assert (L : (score y <= score x)%Qc).
      { apply Qcnot_lt_le. intros L. apply Qclt_le_weak in L.
        apply Qle_bool_iff in L. unfold score in L. congruence. }
      eapply Permutation_Forall; [apply Permutation_sym, insert_asc_perm|].
      constructor; assumption.
Qed.

Lemma argsort_asc_sorted (l : list (nat * ProductMetric)) :
  non_decreasing (argsort_asc l).
Proof.
  induction l as [|x l IH]; simpl.
  - constructor.
  - now apply insert_asc_sorted.
Qed.

Lemma StronglySorted_app {A : Type} (R : A -> A -> Prop) (l1 l2 : list A) :
  StronglySorted R l1 -> StronglySorted R l2 ->
  (forall a b, In a l1 -> In b l2 -> R a b) ->
  StronglySorted R (l1 +++ l2).
Proof.
  induction l1 as [|x l1 IH]; simpl; intros S1 S2 X.
  - exact S2.
  - inversion S1 as [|? ? S1' F]; subst. constructor.
    + apply IH; auto.
    + apply Forall_app. split; [exact F|].
      apply Forall_forall. intros b I. apply X; auto.
Qed.

Lemma StronglySorted_rev {A : Type} (R : A -> A -> Prop) (l : list A) :
  StronglySorted R l -> StronglySorted (fun a b => R b a) (rev l).
Proof.
  induction 1 as [|x l S IH F]; simpl.
  - constructor.
  - apply StronglySorted_app; [exact IH|repeat constructor|].
    intros a b Ia [Ib|[]]. subst b. apply in_rev in Ia.
    rewrite Forall_forall in F. now apply F.
Qed.

Lemma pick_seq {A : Type} (l : list A) :
  flat_map (pick l) (seq 0 (List.length l)) = l.
Proof.
  induction l as [|x l IH]; simpl.
  - reflexivity.
  - f_equal. rewrite <- seq_shift, flat_map_concat_map, map_map.
    rewrite <- flat_map_concat_map. exact IH.
Qed.

Lemma pick_perm {A : Type} (l : list A) (order : list nat) :
  Permutation order (seq 0 (List.length l)) ->
  Permutation (flat_map (pick l) order) l.
Proof.
  intros P. rewrite <- (pick_seq l) at 2. now apply Permutation_flat_map.
Qed.

Lemma pick_key {A : Type} (f : A -> Qc) (l : list A) (i : nat) (x : A) :
  In x (pick l i) -> nth i (map f l) (Q2Qc 0) = f x.
Proof.
  unfold pick. destruct (nth_error l i) as [y|] eqn:E; intros I.
  - destruct I as [I|[]]. subst y.
    apply (map_nth_error f) in E. now apply nth_error_nth.
  - destruct I.
Qed.

Lemma pick_sorted {A : Type} (f : A -> Qc) (l : list A) (order : list nat) :
  StronglySorted
    (fun i j => (nth i (map f l) (Q2Qc 0) <= nth j (map f l) (Q2Qc 0))%Qc)
    order ->
  StronglySorted (fun a b => (f a <= f b)%Qc) (flat_map (pick l) order).
Proof.
  induction 1 as [|i rest S IH F]; simpl.
  - constructor.
  - apply StronglySorted_app.
    + unfold pick. destruct (nth_error l i); repeat constructor.
    + exact IH.
    + intros a b Ia Ib. apply in_flat_map in Ib. destruct Ib as [j [J Ib]].
      rewrite Forall_forall in F.
      rewrite <- (pick_key f l i a Ia), <- (pick_key f l j b Ib).
      now apply F.
Qed.

Section Sorting.

Context `{Library}.

Lemma argsort_perm (l : list (nat * ProductMetric)) :
  Permutation (argsort l) l.
Proof.
  unfold argsort. destruct (List.length l <=? insertion_limit).
  - apply argsort_asc_perm.
  - apply pick_perm. rewrite <- (length_map (fun x => importance_score (snd x))).
    apply quicksort_perm.
Qed.

Lemma argsort_sorted (l : list (nat * ProductMetric)) :
  non_decreasing (argsort l).
Proof.
  unfold argsort. destruct (List.length l <=? insertion_limit).
  - apply argsort_asc_sorted.
  - unfold non_decreasing, score.
    apply (pick_sorted (fun x => importance_score (snd x))).
    apply quicksort_sorted.
Qed.

Lemma sort_values_desc_perm (l : list (nat * ProductMetric)) :
  Permutation (sort_values_desc l) l.
Proof.
  unfold sort_values_desc.
  eapply Permutation_trans; [apply Permutation_sym, Permutation_rev|].
  eapply Permutation_trans; [apply argsort_perm|].
  apply Permutation_sym, Permutation_rev.
Qed.

(** The table comes out with scores in non-increasing order. *)
Lemma sort_values_desc_sorted (l : list (nat * ProductMetric)) :
  non_increasing (sort_values_desc l).
Proof.
  unfold non_increasing, sort_values_desc.
  apply (StronglySorted_rev (fun a b => (score a <= score b)%Qc)).
  apply argsort_sorted.
Qed.

End Sorting.

Lemma precedes_map {A B : Type} (f : A -> B) (a b : B) (l : list A) :
  precedes a b (map f l) ->
  exists a' b', precedes a' b' l /\ f a' = a /\ f b' = b.
Proof.
  intros [l1 [l2 [l3 E]]].
  apply map_eq_app in E. destruct E as [m1 [m [E [E1 E2]]]]. subst.
  destruct m as [|a' m]; [discriminate|]. simpl in E2.
  inversion E2 as [[Ea E3]].
  apply map_eq_app in E3. destruct E3 as [m2 [m' [E [E3 E4]]]]. subst.
  destruct m' as [|b' m3]; [discriminate|]. simpl in E4.
  inversion E4 as [[Eb E5]].
  exists a', b'. repeat split. exists m1, m2, m3. reflexivity.
Qed.

(* ================================================================== *)
(** ** Frames *)
(* ================================================================== *)

Lemma lookup_update_same {A : Type} (c : string) (v : A) (kvs : list (string * A)) :
  lookup c (update c v kvs) = Some v.
Proof.
  induction kvs as [|[c' v'] kvs IH]; simpl.
  - now rewrite String.eqb_refl.
  - destruct (String.eqb c c') eqn:E; simpl.
    + now rewrite String.eqb_refl.
    + now rewrite E.
Qed.

Lemma lookup_update_other {A : Type} (c c' : string) (v : A)
  (kvs : list (string * A)) :
  c <> c' -> lookup c (update c' v kvs) = lookup c kvs.
Proof.
  intros N. induction kvs as [|[c0 v0] kvs IH]; simpl.
  - apply String.eqb_neq in N. now rewrite N.
  - destruct (String.eqb c' c0) eqn:E; simpl.
    + apply String.eqb_eq in E. subst c0.
      apply String.eqb_neq in N. now rewrite N.
    + destruct (String.eqb c c0); auto.
Qed.

Lemma lookup_in {A : Type} (c : string) (kvs : list (string * A)) :
  In c (map fst kvs) -> exists v, lookup c kvs = Some v.
Proof.
  induction kvs as [|[c' v'] kvs IH]; simpl; intros I.
  - destruct I.
  - destruct (String.eqb c c') eqn:E.
    + eauto.
    + destruct I as [I|I]; [|auto]. subst c'.
      rewrite String.eqb_refl in E. discriminate.
Qed.

Lemma lookup_some_in {A : Type} (c : string) (v : A) (kvs : list (string * A)) :
  lookup c kvs = Some v -> In c (map fst kvs).
Proof.
  induction kvs as [|[c' v'] kvs IH]; simpl; intros E.
  - discriminate.
  - destruct (String.eqb c c') eqn:C.
    + apply String.eqb_eq in C. now left.
    + right. auto.
Qed.

Lemma get_col_column (df : DataFrame) (c : string) (cells : list value) :
  get_col df c = Return cells -> column df c = cells.
Proof.
  unfold get_col, column. destruct (lookup c (series df)); intros E.
  - now inversion E.
  - discriminate.
Qed.

Lemma get_col_present (df : DataFrame) (c : string) :
  In c (columns df) -> get_col df c = Return (column df c).
Proof.
  intros I. apply lookup_in in I. destruct I as [v E].
  unfold get_col, column. now rewrite E.
Qed.

Lemma get_col_returns_present (df : DataFrame) (c : string) (cells : list value) :
  get_col df c = Return cells -> In c (columns df).
Proof.
  unfold get_col. destruct (lookup c (series df)) eqn:E; intros R.
  - eapply lookup_some_in; eauto.
  - discriminate.
Qed.

Lemma get_col_missing (df : DataFrame) (c : string) :
  ~ In c (columns df) -> get_col df c = Raise (KeyError c).
Proof.
  intros N. unfold get_col. destruct (lookup c (series df)) eqn:E.
  - exfalso. apply N. eapply lookup_some_in; eauto.
  - reflexivity.
Qed.

Lemma column_set_col_same (df : DataFrame) (c : string) (cells : list value) :
  column (set_col df c cells) c = cells.
Proof. unfold column, set_col. simpl. now rewrite lookup_update_same. Qed.

Lemma column_set_col_other (df : DataFrame) (c c' : string) (cells : list value) :
  c <> c' -> column (set_col df c' cells) c = column df c.
Proof.
  intros N. unfold column, set_col. simpl. now rewrite lookup_update_other.
Qed.

Lemma columns_set_col (df : DataFrame) (c c0 : string) (cells : list value) :
  In c0 (columns df) -> In c0 (columns (set_col df c cells)).
Proof.
  unfold columns, set_col. simpl. intros I. apply lookup_in in I.
  destruct I as [v E].
  destruct (string_dec c0 c) as [->|N].
  - eapply lookup_some_in. apply lookup_update_same.
  - eapply lookup_some_in. rewrite lookup_update_other; eauto.
Qed.

Lemma update_present {A : Type} (c : string) (v : A) (kvs : list (string * A)) :
  In c (map fst kvs) -> map fst (update c v kvs) = map fst kvs.
Proof.
  induction kvs as [|[c' v'] kvs IH]; simpl; intros I.
  - contradiction.
  - destruct (String.eqb c c') eqn:E; simpl.
    + apply String.eqb_eq in E. now subst c'.
    + f_equal. apply IH. destruct I as [I|I]; [|exact I].
      subst c'. rewrite String.eqb_refl in E. discriminate.
Qed.

Lemma columns_set_col_present (df : DataFrame) (c : string)
  (cells : list value) :
  In c (columns df) -> columns (set_col df c cells) = columns df.
Proof. intros I. unfold columns, set_col. simpl. now apply update_present. Qed.

Lemma Return_inj {A : Type} (a b : A) : Return a = Return b -> a = b.
Proof. intros E. now inversion E. Qed.

Lemma for_each_Forall2 {A B : Type} (f : A -> result B) (xs : list A)
  (ys : list B) :
  for_each f xs = Return ys <-> Forall2 (fun x y => f x = Return y) xs ys.
Proof.
  revert ys. induction xs as [|x xs IH]; simpl; intros ys.
  - split; intros E.
    + inversion E. constructor.
    + inversion E. reflexivity.
  - split; intros E.
    + destruct (f x) as [y|e] eqn:F; simpl in E; [|discriminate].
      destruct (for_each f xs) as [ys'|e]; simpl in E; [|discriminate].
      inversion E; subst. constructor; [exact F|]. now apply IH.
    + inversion E as [|? y ? ys' F R]; subst. rewrite F. simpl.
      apply IH in R. rewrite R. reflexivity.
Qed.

Lemma for_each_total {A B : Type} (f : A -> result B) (g : A -> B)
  (xs : list A) :
  (forall x, In x xs -> f x = Return (g x)) ->
  for_each f xs = Return (map g xs).
Proof.
  induction xs as [|x xs IH]; simpl; intros E.
  - reflexivity.
  - rewrite (E x) by now left. simpl. rewrite IH by auto. reflexivity.
Qed.


(* ================================================================== *)
(** ** [validate_data_types] *)
(* ================================================================== *)

Section TypeValidation.

Context `{Library}.

Lemma to_numeric_not_text (v : value) : is_text (to_numeric v) = false.
Proof.
  destruct v as [|q|s]; simpl; try reflexivity.
  destruct (numeric_of_text s); reflexivity.
Qed.

Lemma invalid_mask_numeric (cells : list value) :
  numeric_dtype cells = true ->
  invalid_mask cells = Return (map invalid_cell cells).
Proof.
  intros N. unfold invalid_mask. apply for_each_total. intros v I.
  unfold numeric_dtype in N. rewrite forallb_forall in N. specialize (N v I).
  destruct v as [|q|s]; simpl in *; try reflexivity. discriminate.
Qed.

Lemma numeric_dtype_coerced (cells : list value) :
  numeric_dtype (map to_numeric cells) = true.
Proof.
  unfold numeric_dtype. apply forallb_forall. intros v I.
  apply in_map_iff in I. destruct I as [w [E _]]. subst v.
  now rewrite to_numeric_not_text.
Qed.

Lemma invalid_cell_spec (v : value) :
  invalid_cell (to_numeric v) = true <-> null_or_nonpositive (to_numeric v).
Proof.
  unfold null_or_nonpositive.
  destruct (to_numeric v) as [|q|s] eqn:E; simpl.
  - split; auto.
  - rewrite Qle_bool_iff. split.
    + intros L. right. exists q. split; [reflexivity|exact L].
    + intros [D|[q' [D L]]]; [discriminate|]. inversion D; subst. exact L.
  - pose proof (to_numeric_not_text v) as T. rewrite E in T. discriminate.
Qed.

Lemma valid_cell_spec (v : value) :
  invalid_cell v = false -> positive_number v \/ is_text v = true.
Proof.
  destruct v as [|q|s]; simpl; intros E.
  - discriminate.
  - left. exists q. split; [reflexivity|].
    apply Qcnot_le_lt. intros L. apply Qle_bool_iff in L.
    change (Qle_bool q 0 = true) in L. congruence.
  - now right.
Qed.

Lemma existsb_map_id {A : Type} (f : A -> bool) (l : list A) :
  existsb (fun b => b) (map f l) = existsb f l.
Proof. induction l as [|x l IH]; simpl; congruence. Qed.

(** The run of [validate_data_types] on a frame that has both columns. *)
Lemma validate_data_types_run (df : DataFrame) :
  In "quantity" (columns df) -> In "price_usd" (columns df) ->
  validate_data_types df = (type_verdict df, coerced df).
Proof.
  intros Q P.
  unfold validate_data_types, coerce_and_check, mbind, reading, assign, mret.
  rewrite (get_col_present _ _ Q).
  assert (P1 : In "price_usd"
                 (columns (set_col df "quantity" (map to_numeric (column df "quantity"))))).
  { now apply columns_set_col. }
  rewrite (get_col_present _ _ P1).
  rewrite column_set_col_other by discriminate.
  fold (coerced df).
  assert (Q2 : In "quantity" (columns (coerced df))).
  { unfold coerced. apply columns_set_col, columns_set_col, Q. }
  assert (P2 : In "price_usd" (columns (coerced df))).
  { unfold coerced. apply columns_set_col, columns_set_col, P. }
  assert (CQ : column (coerced df) "quantity" = map to_numeric (column df "quantity")).
  { unfold coerced. rewrite column_set_col_other by discriminate.
    apply column_set_col_same. }
  assert (CP : column (coerced df) "price_usd" = map to_numeric (column df "price_usd")).
  { unfold coerced. apply column_set_col_same. }
  rewrite (get_col_present _ _ Q2), CQ. simpl.
  rewrite invalid_mask_numeric by apply numeric_dtype_coerced.
  rewrite map_map, existsb_map_id.
  unfold type_verdict.
  destruct (existsb _ (column df "quantity")); [reflexivity|].
  rewrite (get_col_present _ _ P2), CP. simpl.
  rewrite invalid_mask_numeric by apply numeric_dtype_coerced.
  rewrite map_map, existsb_map_id.
  destruct (existsb _ (column df "price_usd")); reflexivity.
Qed.

(** A frame without one of the two columns fails in the [except] branch. *)
Lemma validate_data_types_missing (df : DataFrame) :
  fst (fst (validate_data_types df)) = true ->
  In "quantity" (columns df) /\ In "price_usd" (columns df).
Proof.
  unfold validate_data_types, coerce_and_check, mbind, reading, assign, mret.
  destruct (get_col df "quantity") as [q|e] eqn:Q; simpl; [|discriminate].
  destruct (get_col (set_col df "quantity" (map to_numeric q)) "price_usd")
    as [p|e] eqn:P; simpl; [|discriminate].
  intros _. split.
  - eapply get_col_returns_present; eauto.
  - destruct (in_dec string_dec "price_usd" (columns df)) as [I|N]; [exact I|].
    exfalso. unfold get_col, set_col in P. simpl in P.
    rewrite lookup_update_other in P by discriminate.
    destruct (lookup "price_usd" (series df)) eqn:L; [|discriminate].
    apply N. eapply lookup_some_in; eauto.
Qed.

Lemma validate_data_types_no_quantity (df : DataFrame) :
  ~ In "quantity" (columns df) ->
  validate_data_types df =
  ((false, "ERROR: Data type validation failed. " ++
           str_exn (KeyError "quantity")), df).
Proof.
  intros N.
  unfold validate_data_types, coerce_and_check, mbind, reading, assign, mret.
  now rewrite (get_col_missing df "quantity" N).
Qed.

Lemma validate_data_types_no_price (df : DataFrame) :
  In "quantity" (columns df) -> ~ In "price_usd" (columns df) ->
  validate_data_types df =
  ((false, "ERROR: Data type validation failed. " ++
           str_exn (KeyError "price_usd")),
   set_col df "quantity" (map to_numeric (column df "quantity"))).
Proof.
  intros Q N.
  unfold validate_data_types, coerce_and_check, mbind, reading, assign, mret.
  rewrite (get_col_present df "quantity" Q).
  assert (M : ~ In "price_usd"
                (columns (set_col df "quantity"
                           (map to_numeric (column df "quantity"))))).
  { now rewrite (columns_set_col_present df _ _ Q). }
  now rewrite (get_col_missing _ "price_usd" M).
Qed.

End TypeValidation.

Section TypeVerdict.

Context `{Library}.

Lemma some_row_invalid_existsb (df : DataFrame) (c : string) :
  existsb (fun v => invalid_cell (to_numeric v)) (column df c) = true <->
  some_row_invalid df c.
Proof.
  unfold some_row_invalid. rewrite existsb_exists, Exists_exists.
  split; intros [v [I E]]; exists v; (split; [exact I|]);
    now apply invalid_cell_spec.
Qed.

Lemma some_row_invalid_false (df : DataFrame) (c : string) :
  existsb (fun v => invalid_cell (to_numeric v)) (column df c) = false <->
  ~ some_row_invalid df c.
Proof.
  rewrite <- some_row_invalid_existsb.
  destruct (existsb _ _); split; congruence.
Qed.

(** C5, as amended.  On a frame without a repeated label
    [validate_data_types] fails exactly when the [quantity] or the
    [price_usd] column is missing or some row has a coerced quantity or
    a coerced price that is null or not positive; when both columns are
    there an invalid quantity gives the quantity message whatever the
    prices are, and the price message is given exactly when both columns
    are there, every quantity is valid and some price is not. *)
Theorem validate_data_types_verdict (df : DataFrame) :
  NoDup (columns df) ->
  (fst (fst (validate_data_types df)) = false <->
   ~ In "quantity" (columns df) \/ ~ In "price_usd" (columns df) \/
   some_row_invalid df "quantity" \/ some_row_invalid df "price_usd") /\
  (In "quantity" (columns df) -> In "price_usd" (columns df) ->
   some_row_invalid df "quantity" ->
   fst (validate_data_types df) =
     (false,
      "ERROR: Invalid value for field(s): quantity. Must be positive integer.")) /\
  (snd (fst (validate_data_types df)) =
     "ERROR: Invalid value for field(s): price_usd. Must be positive number." <->
   In "quantity" (columns df) /\ In "price_usd" (columns df) /\
   ~ some_row_invalid df "quantity" /\ some_row_invalid df "price_usd").
Proof.
  intros _.
  destruct (in_dec string_dec "quantity" (columns df)) as [Q|Q].
  2: { rewrite (validate_data_types_no_quantity df Q). cbn [fst snd].
       split; [|split].
       - split; auto.
       - intros I. contradiction.
       - split; [discriminate|]. intros [I _]. contradiction. }
  destruct (in_dec string_dec "price_usd" (columns df)) as [P|P].
  2: { rewrite (validate_data_types_no_price df Q P). cbn [fst snd].
       split; [|split].
       - split; auto.
       - intros _ I. contradiction.
       - split; [discriminate|]. intros [_ [I _]]. contradiction. }
  rewrite (validate_data_types_run df Q P).
  unfold type_verdict.
  destruct (existsb _ (column df "quantity")) eqn:EQ.
  - apply some_row_invalid_existsb in EQ. simpl. split; [|split].
    + split; auto.
    + reflexivity.
    + split.
      * discriminate.
      * intros [_ [_ [N _]]]. contradiction.
  - apply some_row_invalid_false in EQ.
    destruct (existsb _ (column df "price_usd")) eqn:EP.
    + apply some_row_invalid_existsb in EP. simpl. split; [|split].
      * split; auto.
      * intros _ _ B. contradiction.
      * split; auto.
    + apply some_row_invalid_false in EP. simpl. split; [|split].
      * split; [discriminate|]. intros [B|[B|[B|B]]]; contradiction.
      * intros _ _ B. contradiction.
      * split; [discriminate|]. intros [_ [_ [_ B]]]. contradiction.
Qed.

End TypeVerdict.

Lemma mem_In (c : string) (l : list string) : Py.mem c l = true <-> In c l.
Proof.
  unfold Py.mem. rewrite existsb_exists. split.
  - intros [x [I E]]. apply String.eqb_eq in E. now subst.
  - intros I. exists c. split; [exact I|apply String.eqb_refl].
Qed.

Lemma distinct_NoDup (labels : list string) :
  distinct labels = true -> NoDup labels.
Proof.
  induction labels as [|label rest IH]; simpl; intros D.
  - constructor.
  - apply andb_true_iff in D. destruct D as [M D].
    constructor; [|now apply IH].
    intros I. apply mem_In in I. rewrite I in M. discriminate.
Qed.

Lemma validate_data_types_verdict_witness :
  NoDup (columns (frame_of Samples.bad_values)) /\
  fst (validate_data_types (frame_of Samples.bad_values)) =
  (false,
   "ERROR: Invalid value for field(s): quantity. Must be positive integer.").
Proof.
  assert (D : NoDup (columns (frame_of Samples.bad_values)))
    by (apply distinct_NoDup; vm_compute; reflexivity).
  split; [exact D|].
  refine (proj1 (proj2 (validate_data_types_verdict
                          (frame_of Samples.bad_values) D)) _ _ _).
  - apply mem_In. vm_compute. reflexivity.
  - apply mem_In. vm_compute. reflexivity.
  - apply some_row_invalid_existsb. vm_compute. reflexivity.
Defined.

(** C5, as stated, fails on a table without the [price_usd] column: the
    check fails, in its [except] branch, while the one quantity is valid
    and no row holds a price. *)
Lemma missing_price_fails_type_check :
  NoDup (columns (frame_of Samples.no_price)) /\
  fst (validate_data_types (frame_of Samples.no_price)) =
    (false, "ERROR: Data type validation failed. 'price_usd'") /\
  ~ (some_row_invalid (frame_of Samples.no_price) "quantity" \/
     some_row_invalid (frame_of Samples.no_price) "price_usd").
Proof.
  split; [apply distinct_NoDup; vm_compute; reflexivity|].
  split; [vm_compute; reflexivity|].
  intros [B|B]; apply some_row_invalid_existsb in B;
    vm_compute in B; discriminate.
Qed.

(* ================================================================== *)
(** ** [calculate_metrics] *)
(* ================================================================== *)

Lemma addend_numbers (v : value) (l : list Qc) :
  addend v = Return l -> l = numbers v.
Proof.
  destruct v; simpl; intros E; inversion E; reflexivity.
Qed.

Lemma addend_numeric (v : value) :
  is_text v = false -> addend v = Return (numbers v).
Proof. destruct v; simpl; intros E; try reflexivity. discriminate. Qed.

Lemma in_combine_seq {A : Type} (l : list A) (start i : nat) (x : A) :
  In (i, x) (combine (seq start (List.length l)) l) ->
  start <= i /\ nth_error l (i - start) = Some x.
Proof.
  revert start. induction l as [|y l IH]; simpl; intros start I.
  - destruct I.
  - destruct I as [I|I].
    + inversion I; subst. rewrite Nat.sub_diag. auto.
    + apply IH in I. destruct I as [L E]. split; [lia|].
      replace (i - start) with (S (i - S start)) by lia. exact E.
Qed.

Lemma map_fst_combine_seq {A : Type} (l : list A) (start : nat) :
  map fst (combine (seq start (List.length l)) l) = seq start (List.length l).
Proof.
  revert start. induction l as [|x l IH]; simpl; intros start.
  - reflexivity.
  - now rewrite IH.
Qed.

Lemma cell_numeric (cells : list value) (i : nat) :
  numeric_dtype cells = true -> is_text (cell cells i) = false.
Proof.
  intros N. unfold cell. unfold numeric_dtype in N.
  rewrite forallb_forall in N.
  destruct (nth_in_or_default i cells VNull) as [I|E].
  - apply N in I. now apply negb_true_iff in I.
  - now rewrite E.
Qed.

Lemma for_each_exists {A B : Type} (f : A -> result B) (xs : list A) :
  (forall x, In x xs -> exists y, f x = Return y) ->
  exists ys, for_each f xs = Return ys.
Proof.
  induction xs as [|x xs IH]; simpl; intros E.
  - eauto.
  - destruct (E x) as [y F]; [now left|]. rewrite F. simpl.
    destruct IH as [ys G]; [auto|]. rewrite G. simpl. eauto.
Qed.

Lemma for_each_flat_map {A B : Type} (f : A -> result (list B))
  (g : A -> list B) (xs : list A) (ys : list (list B)) :
  (forall x y, f x = Return y -> y = g x) ->
  for_each f xs = Return ys -> List.concat ys = flat_map g xs.
Proof.
  intros S E. apply for_each_Forall2 in E.
  induction E as [|x y xs ys R E IH]; simpl.
  - reflexivity.
  - now rewrite (S x y R), IH.
Qed.

Section Metrics.

Context `{Library}.

Lemma product_addend_spec (q p : value) (l : list Qc) :
  product_addend q p = Return l -> l = spend_of q p.
Proof.
  unfold product_addend.
  destruct q as [|x|s], p as [|y|t]; simpl; intros E; inversion E;
    reflexivity.
Qed.

Lemma product_addend_numeric (q p : value) :
  is_text q = false -> is_text p = false ->
  product_addend q p = Return (spend_of q p).
Proof.
  unfold product_addend.
  destruct q as [|x|s], p as [|y|t]; simpl; intros A B;
    try reflexivity; discriminate.
Qed.

Section Aggregate.

Variables (quantity price : list value).

Lemma aggregate_spec (k : key) (members : list nat) (row : key * Qc * Qc) :
  aggregate quantity price (k, members) = Return row ->
  row = (k,
         groupby_sum (flat_map (fun j => numbers (cell quantity j)) members),
         series_sum (flat_map (fun j => spend_of (cell quantity j)
                                                 (cell price j)) members)).
Proof.
  unfold aggregate.
  destruct (for_each _ members) as [qs|e] eqn:Q; simpl; [|discriminate].
  destruct (for_each _ members) as [ss|e] eqn:S in |- *; simpl; [|discriminate].
  intros E. inversion E; subst. clear E.
  rewrite (for_each_flat_map _ (fun j => numbers (cell quantity j)) _ _
             (fun j l => addend_numbers (cell quantity j) l) Q).
  rewrite (for_each_flat_map _ (fun j => spend_of (cell quantity j)
                                                  (cell price j)) _ _
             (fun j l => product_addend_spec (cell quantity j)
                                             (cell price j) l) S).
  reflexivity.
Qed.

Lemma aggregate_total (k : key) (members : list nat) :
  numeric_dtype quantity = true -> numeric_dtype price = true ->
  exists row, aggregate quantity price (k, members) = Return row.
Proof.
  intros NQ NP. unfold aggregate.
  rewrite (for_each_total _ (fun j => numbers (cell quantity j))).
  2: { intros j _. apply addend_numeric, cell_numeric, NQ. }
  simpl.
  rewrite (for_each_total _ (fun j => spend_of (cell quantity j)
                                               (cell price j))).
  2: { intros j _. apply product_addend_numeric; now apply cell_numeric. }
  simpl. eauto.
Qed.

End Aggregate.

Lemma keys_not_taken_as_labels (df : DataFrame) :
  In "product_id" (columns df) -> In "product_name" (columns df) ->
  keys_taken_as_labels df = false.
Proof.
  intros I N. unfold keys_taken_as_labels.
  apply mem_In in I, N. rewrite I, N. apply andb_false_r.
Qed.

(** The table before sorting and rounding: one row per group, labelled
    by the place of the group, holding the sums of the group. *)
Lemma unsorted_metrics_spec (df : DataFrame) (table : list (nat * ProductMetric)) :
  unsorted_metrics df = Return table ->
  table = combine (seq 0 (List.length (group_keys df)))
                  (map (unrounded_metric df) (group_keys df)).
Proof.
  unfold unsorted_metrics.
  destruct (keys_taken_as_labels df).
  { destruct (get_col df "quantity"); simpl; [|discriminate].
    destruct (get_col df "price_usd"); simpl; discriminate. }
  destruct (get_col df "product_id") as [ids|] eqn:I; simpl; [|discriminate].
  destruct (get_col df "product_name") as [names|] eqn:N; simpl; [|discriminate].
  destruct (get_col df "quantity") as [quantity|] eqn:Q; simpl; [|discriminate].
  destruct (get_col df "price_usd") as [price|] eqn:P; simpl; [|discriminate].
  destruct (for_each _ _) as [rows|] eqn:F; simpl; [|discriminate].
  intros E. inversion E; subst. clear E.
  apply get_col_column in I, N, Q, P.
  unfold group_keys. rewrite I, N.
  pose proof (groupby_members ids names (nrows df)) as M.
  apply for_each_Forall2 in F.
  assert (R : map scored rows =
              map (unrounded_metric df)
                  (map fst (groupby ids names (nrows df)))).
  { induction F as [|[k members] row groups rows A F IH]; simpl.
    - reflexivity.
    - rewrite IH by (intros; apply M; now right). f_equal.
      apply aggregate_spec in A. subst row.
      rewrite (M k members) by now left.
      unfold scored, unrounded_metric, weighted, quantity_sum, spend_sum,
        quantities, spends, product_rows, spend_of.
      simpl. rewrite I, N, Q, P. reflexivity. }
  rewrite R, !length_map, (Forall2_length F). reflexivity.
Qed.

Lemma unsorted_metrics_total (df : DataFrame) :
  In "product_id" (columns df) -> In "product_name" (columns df) ->
  In "quantity" (columns df) -> In "price_usd" (columns df) ->
  numeric_dtype (column df "quantity") = true ->
  numeric_dtype (column df "price_usd") = true ->
  exists table, unsorted_metrics df = Return table.
Proof.
  intros I N Q P NQ NP. unfold unsorted_metrics.
  rewrite (keys_not_taken_as_labels df I N).
  rewrite (get_col_present _ _ I), (get_col_present _ _ N),
    (get_col_present _ _ Q), (get_col_present _ _ P). simpl.
  destruct (for_each_exists (aggregate (column df "quantity") (column df "price_usd"))
              (groupby (column df "product_id") (column df "product_name") (nrows df)))
    as [rows F].
  - intros [k members] _. now apply aggregate_total.
  - rewrite F. simpl. eauto.
Qed.

Lemma calculate_metrics_spec (df : DataFrame) (pm : list (nat * ProductMetric)) :
  calculate_metrics df = Return pm ->
  exists table,
    unsorted_metrics df = Return table /\
    pm = map (fun row =>
                (fst row,
                 round_metric (numeric_column df "product_id")
                              (numeric_column df "product_name") (snd row)))
             (sort_values_desc table).
Proof.
  unfold calculate_metrics.
  destruct (unsorted_metrics df) as [table|]; simpl; [|discriminate].
  intros E. inversion E. eauto.
Qed.

Lemma calculate_metrics_entry (df : DataFrame) (pm : list (nat * ProductMetric))
  (i : nat) (m : ProductMetric) :
  calculate_metrics df = Return pm -> In (i, m) pm ->
  exists k,
    nth_error (group_keys df) i = Some k /\
    m = round_metric (numeric_column df "product_id")
                     (numeric_column df "product_name")
                     (unrounded_metric df k).
Proof.
  intros C I. apply calculate_metrics_spec in C.
  destruct C as [table [U E]]. subst pm.
  apply in_map_iff in I. destruct I as [[i0 m0] [E I]].
  simpl in E. inversion E; subst. clear E.
  apply (Permutation_in _ (sort_values_desc_perm table)) in I.
  apply unsorted_metrics_spec in U. subst table.
  rewrite <- (length_map (unrounded_metric df)) in I.
  apply in_combine_seq in I. destruct I as [_ I].
  rewrite Nat.sub_0_r in I.
  rewrite nth_error_map in I.
  destruct (nth_error (group_keys df) i) as [k|]; [|discriminate].
  simpl in I. inversion I. eauto.
Qed.

Lemma calculate_metrics_labels (df : DataFrame) (pm : list (nat * ProductMetric)) :
  calculate_metrics df = Return pm ->
  Permutation (map fst pm) (seq 0 (List.length (group_keys df))).
Proof.
  intros C. apply calculate_metrics_spec in C.
  destruct C as [table [U E]]. subst pm.
  rewrite map_map. simpl.
  eapply Permutation_trans.
  - apply Permutation_map, sort_values_desc_perm.
  - apply unsorted_metrics_spec in U. subst table.
    rewrite <- (length_map (unrounded_metric df)), map_fst_combine_seq.
    apply Permutation_refl.
Qed.

End Metrics.

Section Validated.

Context `{Library} `{Runtime}.

Lemma nrows_coerced (df : DataFrame) : nrows (coerced df) = nrows df.
Proof. reflexivity. Qed.

Lemma columns_coerced (df : DataFrame) (c : string) :
  In c (columns df) -> In c (columns (coerced df)).
Proof. intros I. unfold coerced. now apply columns_set_col, columns_set_col. Qed.


Lemma column_coerced_quantity (df : DataFrame) :
  column (coerced df) "quantity" = map to_numeric (column df "quantity").
Proof.
  unfold coerced. rewrite column_set_col_other by discriminate.
  apply column_set_col_same.
Qed.

Lemma column_coerced_price (df : DataFrame) :
  column (coerced df) "price_usd" = map to_numeric (column df "price_usd").
Proof. unfold coerced. apply column_set_col_same. Qed.

Lemma required_columns_present (df : DataFrame) :
  normalised df -> fst (validate_required_fields init df) = true ->
  has_required_columns df.
Proof.
  intros N V. unfold validate_required_fields in V.
  destruct (missing_fields init df) eqn:M; [|discriminate]. clear V.
  unfold has_required_columns. apply Forall_forall. intros field I.
  assert (P : Py.mem (Py.lower field) (df_columns df) = true).
  { destruct (Py.mem (Py.lower field) (df_columns df)) eqn:E; [reflexivity|].
    exfalso. assert (J : In field (missing_fields init df)).
    { apply filter_In. split; [exact I|]. now rewrite E. }
    rewrite M in J. destruct J. }
  apply mem_In in P. unfold df_columns in P.
  apply (proj1 (set_order_members _ _)) in P. apply in_map_iff in P.
  destruct P as [c [E J]]. unfold normalised in N.
  rewrite Forall_forall in N. rewrite (N c J) in E. subst c.
  simpl in I.
  repeat (destruct I as [I|I]; [subst field; exact J|]). destruct I.
Qed.

Lemma positive_cells (cells : list value) :
  existsb (fun v => invalid_cell (to_numeric v)) cells = false ->
  Forall positive_number (map to_numeric cells).
Proof.
  intros E. apply Forall_forall. intros v I. apply in_map_iff in I.
  destruct I as [w [F I]]. subst v.
  assert (V : invalid_cell (to_numeric w) = false).
  { destruct (invalid_cell (to_numeric w)) eqn:V; [|reflexivity].
    assert (X : existsb (fun v => invalid_cell (to_numeric v)) cells = true).
    { apply existsb_exists. eauto. }
    congruence. }
  apply valid_cell_spec in V. destruct V as [V|V]; [exact V|].
  rewrite to_numeric_not_text in V. discriminate.
Qed.

(** What the success path of [generate_response] can rely on. *)
Lemma validated_frame (df df' : DataFrame) :
  validated df df' ->
  df' = coerced df /\
  has_required_columns df' /\
  Forall positive_number (column df' "quantity") /\
  Forall positive_number (column df' "price_usd").
Proof.
  intros [_ [N [F [T E]]]].
  pose proof (required_columns_present df N F) as R.
  destruct (validate_data_types_missing df T) as [Q P].
  rewrite (validate_data_types_run df Q P) in T, E. simpl in T, E. subst df'.
  split; [reflexivity|]. split.
  - unfold has_required_columns in *. eapply Forall_impl; [|exact R].
    intros c. apply columns_coerced.
  - unfold type_verdict in T.
    destruct (existsb _ (column df "quantity")) eqn:EQ; [discriminate|].
    destruct (existsb _ (column df "price_usd")) eqn:EP; [discriminate|].
    rewrite column_coerced_quantity, column_coerced_price.
    split; now apply positive_cells.
Qed.

Lemma positive_numeric (cells : list value) :
  Forall positive_number cells -> numeric_dtype cells = true.
Proof.
  intros P. unfold numeric_dtype. apply forallb_forall. intros v I.
  rewrite Forall_forall in P. destruct (P v I) as [q [E _]]. now subst.
Qed.

Lemma required_column (df : DataFrame) (c : string) :
  has_required_columns df -> In c (required_fields init) -> In c (columns df).
Proof.
  unfold has_required_columns. rewrite Forall_forall. auto.
Qed.

Lemma validated_calculate_metrics (df df' : DataFrame) :
  validated df df' -> exists pm, calculate_metrics df' = Return pm.
Proof.
  intros V. destruct (validated_frame df df' V) as [_ [R [Q P]]].
  destruct (unsorted_metrics_total df') as [table U].
  - apply (required_column _ _ R). simpl. tauto.
  - apply (required_column _ _ R). simpl. tauto.
  - apply (required_column _ _ R). simpl. tauto.
  - apply (required_column _ _ R). simpl. tauto.
  - now apply positive_numeric.
  - now apply positive_numeric.
  - unfold calculate_metrics. rewrite U. simpl. eauto.
Qed.

(** C4.  For every validated frame without a repeated label
    [calculate_metrics] returns a table with one row per product: per
    pair of [product_id] and [product_name] that some row of the frame
    holds, both present.  The row of a product shows its two keys (as
    [round(2)] leaves them) and holds as [total_quantity] the library's
    sum of [quantity] over exactly the rows of that product, as
    [total_spend] the library's sum over those rows of
    [quantity × price_usd] taken row by row, and as [importance_score]
    [total_quantity × 0.5 + total_spend × 0.5] of the unrounded sums;
    each of the three is rounded to two decimals once, after the
    arithmetic. *)
Theorem calculate_metrics_totals (df df' : DataFrame) :
  validated df df' -> NoDup (columns df) ->
  exists pm keys,
    calculate_metrics df' = Return pm /\
    lists_products df' keys /\
    Permutation (map fst pm) (seq 0 (List.length keys)) /\
    forall i m, In (i, m) pm ->
      exists k,
        nth_error keys i = Some k /\
        product_id m = shown df' "product_id" (fst k) /\
        product_name m = shown df' "product_name" (snd k) /\
        total_quantity m = round2 (quantity_sum df' k) /\
        total_spend m = round2 (spend_sum df' k) /\
        importance_score m =
          round2 (weighted (quantity_sum df' k) (spend_sum df' k)).
Proof.
  intros V _. destruct (validated_calculate_metrics df df' V) as [pm C].
  exists pm, (group_keys df'). split; [exact C|]. split; [|split].
  - apply group_keys_list_products.
  - now apply calculate_metrics_labels.
  - intros i m I.
    destruct (calculate_metrics_entry df' pm i m C I) as [k [K E]].
    exists k. subst m. unfold shown. simpl. auto 6.
Qed.

End Validated.

(* ================================================================== *)
(** ** The order of the metrics table *)
(* ================================================================== *)

Lemma StronglySorted_nth_error {A : Type} (R : A -> A -> Prop) (l : list A)
  (i j : nat) (a b : A) :
  StronglySorted R l -> i < j ->
  nth_error l i = Some a -> nth_error l j = Some b -> R a b.
Proof.
  intros S. revert i j. induction S as [|x l S IH F]; intros i j L Ha Hb.
  - destruct i; discriminate.
  - destruct j as [|j]; [lia|]. destruct i as [|i]; simpl in *.
    + inversion Ha; subst. rewrite Forall_forall in F. apply F.
      eapply nth_error_In; eauto.
    + apply (IH i j); auto. lia.
Qed.

Lemma StronglySorted_map {A B : Type} (R : A -> A -> Prop) (Q : B -> B -> Prop)
  (f : A -> B) (l : list A) :
  (forall a b, R a b -> Q (f a) (f b)) ->
  StronglySorted R l -> StronglySorted Q (map f l).
Proof.
  intros M. induction 1 as [|x l S IH F]; simpl.
  - constructor.
  - constructor; [exact IH|]. apply Forall_map.
    eapply Forall_impl; [|exact F]. intros a. apply M.
Qed.

Lemma precedes_in {A : Type} (a b : A) (l : list A) :
  precedes a b l -> In a l /\ In b l.
Proof.
  intros [l1 [l2 [l3 E]]]. subst l. split.
  - apply in_elt.
  - apply in_or_app. right. right. apply in_elt.
Qed.

Section Order.

Context `{Library} `{Runtime}.

Lemma calculate_metrics_non_increasing (df : DataFrame)
  (pm : list (nat * ProductMetric)) :
  calculate_metrics df = Return pm -> non_increasing pm.
Proof.
  intros C. apply calculate_metrics_spec in C.
  destruct C as [table [_ E]]. subst pm. unfold non_increasing.
  eapply StronglySorted_map; [|apply sort_values_desc_sorted].
  intros a b L. unfold score in *. simpl. now apply round2_monotone.
Qed.

(** C2, as amended.  For every validated frame without a repeated label
    [calculate_metrics] returns a table whose importance scores are in
    non-increasing order; nothing is said of the order of products of
    equal score. *)
Theorem calculate_metrics_order (df df' : DataFrame) :
  validated df df' -> NoDup (columns df) ->
  exists pm,
    calculate_metrics df' = Return pm /\
    non_increasing pm.
Proof.
  intros V _. destruct (validated_calculate_metrics df df' V) as [pm C].
  exists pm. split; [exact C|].
  exact (calculate_metrics_non_increasing df' pm C).
Qed.

End Order.

Lemma rectangular_check (df : DataFrame) :
  forallb (fun kv => List.length (snd kv) =? nrows df) (series df) = true ->
  rectangular df.
Proof.
  intros E. unfold rectangular. apply Forall_forall. intros kv I.
  rewrite forallb_forall in E. apply Nat.eqb_eq. now apply E.
Qed.

Lemma normalised_check (df : DataFrame) :
  forallb (fun c => String.eqb (Py.strip (Py.lower c)) c) (columns df) = true ->
  normalised df.
Proof.
  intros E. unfold normalised. apply Forall_forall. intros c I.
  rewrite forallb_forall in E. apply String.eqb_eq. now apply E.
Qed.

(** Running both checks on a concrete text. *)
Ltac run_validated :=
  unfold validated, checked; split; [|split; [|split; [|split]]];
  [ apply rectangular_check; vm_compute; reflexivity
  | apply normalised_check; vm_compute; reflexivity
  | vm_compute; reflexivity
  | vm_compute; reflexivity
  | reflexivity ].

Lemma calculate_metrics_totals_witness :
  validated (frame_of Demo.example_data) (checked Demo.example_data) /\
  NoDup (columns (frame_of Demo.example_data)) /\
  exists pm keys,
    calculate_metrics (checked Demo.example_data) = Return pm /\
    lists_products (checked Demo.example_data) keys /\
    Permutation (map fst pm) (seq 0 (List.length keys)) /\
    forall i m, In (i, m) pm ->
      exists k,
        nth_error keys i = Some k /\
        product_id m = shown (checked Demo.example_data) "product_id" (fst k) /\
        product_name m =
          shown (checked Demo.example_data) "product_name" (snd k) /\
        total_quantity m = round2 (quantity_sum (checked Demo.example_data) k) /\
        total_spend m = round2 (spend_sum (checked Demo.example_data) k) /\
        importance_score m =
          round2 (weighted (quantity_sum (checked Demo.example_data) k)
                           (spend_sum (checked Demo.example_data) k)).
Proof.
  assert (V : validated (frame_of Demo.example_data) (checked Demo.example_data))
    by run_validated.
  assert (D : NoDup (columns (frame_of Demo.example_data)))
    by (apply distinct_NoDup; vm_compute; reflexivity).
  split; [exact V|]. split; [exact D|].
  exact (calculate_metrics_totals (frame_of Demo.example_data)
           (checked Demo.example_data) V D).
Defined.

Lemma calculate_metrics_order_witness :
  validated (frame_of Samples.tied) (checked Samples.tied) /\
  NoDup (columns (frame_of Samples.tied)) /\
  exists pm,
    calculate_metrics (checked Samples.tied) = Return pm /\
    non_increasing pm.
Proof.
  assert (V : validated (frame_of Samples.tied) (checked Samples.tied))
    by run_validated.
  assert (D : NoDup (columns (frame_of Samples.tied)))
    by (apply distinct_NoDup; vm_compute; reflexivity).
  split; [exact V|]. split; [exact D|].
  exact (calculate_metrics_order (frame_of Samples.tied)
           (checked Samples.tied) V D).
Defined.

(** C2, as stated, fails: in [Samples.tied] the product P2/Beta is met
    in the first row and P1/Alpha in the second, both score 5.5, and the
    table lists P1/Alpha first. *)
Lemma tied_not_ranked_by_first_encounter :
  validated (frame_of Samples.tied) (checked Samples.tied) /\
  ~ ranked_by_first_encounter (checked Samples.tied).
Proof.
  split; [run_validated|].
  intros R.
  destruct (calculate_metrics (checked Samples.tied)) as [pm|e] eqn:C.
  2: { vm_compute in C. discriminate. }
  destruct (R pm C) as [_ T].
  vm_compute in C. inversion C as [E]. clear C.
  match type of E with
  | [?a; ?b] = _ =>
      assert (L : first_row (checked Samples.tied)
                    (VStr "P1", VStr "Alpha") <
                  first_row (checked Samples.tied)
                    (VStr "P2", VStr "Beta"));
      [ apply (T a b);
        [ exists [], [], []; symmetry; exact E
        | reflexivity
        | vm_compute; reflexivity
        | vm_compute; reflexivity ]
      | vm_compute in L; lia ]
  end.
Qed.

(** The table before sorting is the same for the two orders of the rows,
    while the order of first encounter is not: no rule that sorts this
    table can follow first encounter on both texts. *)
Lemma tied_tables_agree :
  unsorted_metrics (checked Samples.tied) =
  unsorted_metrics (checked Samples.tied_swapped) /\
  first_row (checked Samples.tied) (VStr "P2", VStr "Beta") <
  first_row (checked Samples.tied) (VStr "P1", VStr "Alpha") /\
  first_row (checked Samples.tied_swapped) (VStr "P1", VStr "Alpha") <
  first_row (checked Samples.tied_swapped) (VStr "P2", VStr "Beta").
Proof.
  split; [vm_compute; reflexivity|]. split; vm_compute; lia.
Qed.

(** X2.  The groups of [groupby] partition the rows whose key has no
    null: group keys do not repeat, a group holds exactly the rows of its
    product, in row order, and is never empty, and every row with a full
    key is in the group of its key and in no other. *)
Theorem groups_partition_rows (ids names : list value) (n : nat) :
  NoDup (map fst (groupby ids names n)) /\
  (forall k members, In (k, members) (groupby ids names n) ->
     members = rows_of_product ids names n k /\ members <> []) /\
  (forall i, i < n -> has_null (key_at ids names i) = false ->
     exists members,
       In (key_at ids names i, members) (groupby ids names n) /\
       In i members) /\
  (forall i k members, In (k, members) (groupby ids names n) ->
     In i members -> key_at ids names i = k).
Proof.
  pose proof (groupby_grouped ids names n) as [S M C].
  split; [|split; [|split]].
  - clear M C. induction S as [|k keys S IH F].
    + constructor.
    + constructor; [|exact IH]. now apply sorted_head_not_in.
  - intros k members I. destruct (M k members I) as [_ [E N]]. auto.
  - intros i L N.
    assert (I : In i (seq 0 n)) by (apply in_seq; lia).
    pose proof (C i I N) as K. apply in_map_iff in K.
    destruct K as [[k members] [E K]]. simpl in E. subst k.
    exists members. split; [exact K|].
    destruct (M _ members K) as [_ [E _]]. rewrite E.
    apply filter_In. split; [exact I|]. now apply same_product_self.
  - intros i k members I J. destruct (M k members I) as [_ [E _]].
    rewrite E in J. apply filter_In in J. destruct J as [_ J].
    now apply same_product_key in J.
Qed.

(* ================================================================== *)
(** ** The report of a validated frame *)
(* ================================================================== *)

Lemma rectangular_column (df : DataFrame) (c : string) :
  rectangular df -> In c (columns df) ->
  List.length (column df c) = nrows df.
Proof.
  unfold rectangular, columns, column. intros R I.
  induction (series df) as [|[c' cells] kvs IH]; simpl in *.
  - destruct I.
  - inversion R as [|? ? E R']; subst. simpl in E.
    destruct (String.eqb c c') eqn:C.
    + exact E.
    + destruct I as [I|I].
      * subst c'. rewrite String.eqb_refl in C. discriminate.
      * now apply IH.
Qed.

Lemma cell_in (cells : list value) (i : nat) :
  i < List.length cells -> In (cell cells i) cells.
Proof. intros L. unfold cell. now apply nth_In. Qed.

Section Report.

Context `{Library} `{Runtime}.

Lemma validated_lengths (df df' : DataFrame) :
  validated df df' ->
  List.length (column df' "quantity") = nrows df' /\
  List.length (column df' "price_usd") = nrows df'.
Proof.
  intros V. destruct (validated_frame df df' V) as [E _].
  destruct V as [R [_ [_ [T _]]]].
  destruct (validate_data_types_missing df T) as [Q P]. subst df'.
  rewrite column_coerced_quantity, column_coerced_price, !length_map.
  rewrite nrows_coerced. split; now apply rectangular_column.
Qed.

(** On a validated frame the line of every row that holds a finite
    quantity can be written. *)
Lemma transaction_line_total (df df' : DataFrame) (j : nat) :
  validated df df' -> finite_quantities df' -> j < nrows df' ->
  exists line, transaction_line df' j = Return line.
Proof.
  intros V FQ L. destruct (validated_frame df df' V) as [_ [R [Q P]]].
  destruct (validated_lengths df df' V) as [LQ LP].
  unfold transaction_line, row_get.
  rewrite (get_col_present df' "transaction_id")
    by (apply (required_column _ _ R); simpl; tauto).
  rewrite (get_col_present df' "quantity")
    by (apply (required_column _ _ R); simpl; tauto).
  rewrite (get_col_present df' "price_usd")
    by (apply (required_column _ _ R); simpl; tauto).
  simpl.
  rewrite Forall_forall in Q, P.
  assert (I : In (cell (column df' "quantity") j) (column df' "quantity")).
  { apply cell_in. lia. }
  destruct (Q _ I) as [q [Eq _]].
  destruct (P (cell (column df' "price_usd") j)) as [p [Ep _]].
  { apply cell_in. lia. }
  unfold finite_quantities in FQ. rewrite forallb_forall in FQ.
  pose proof (FQ _ I) as Fq. rewrite Eq in Fq. simpl in Fq.
  apply negb_true_iff in Fq.
  rewrite Eq, Ep. cbn [number bind]. unfold to_int. rewrite Fq.
  cbn [bind]. eauto.
Qed.

Lemma select_product_bound (ids : list value) (n : nat) (pid : value) (j : nat) :
  In j (select_product ids n pid) -> j < n.
Proof.
  unfold select_product. intros I. apply filter_In in I.
  destruct I as [I _]. apply in_seq in I. lia.
Qed.

(** On a validated frame the listing of any product id can be written:
    one line per row whose [product_id] cell equals it. *)
Lemma format_transaction_details_total (df df' : DataFrame) (pid : value) :
  validated df df' -> finite_quantities df' ->
  exists lines,
    for_each (transaction_line df')
             (select_product (column df' "product_id") (nrows df') pid)
      = Return lines /\
    format_transaction_details df' pid = Return (Py.join Py.nl lines).
Proof.
  intros V FQ. destruct (validated_frame df df' V) as [_ [R _]].
  destruct (for_each_exists (transaction_line df')
              (select_product (column df' "product_id") (nrows df') pid))
    as [lines F].
  - intros j I. apply select_product_bound in I.
    now apply (transaction_line_total df).
  - exists lines. split; [exact F|].
    unfold format_transaction_details.
    rewrite (get_col_present df' "product_id")
      by (apply (required_column _ _ R); simpl; tauto).
    simpl. rewrite F. reflexivity.
Qed.

Lemma product_section_total (df df' : DataFrame) (entry : nat * ProductMetric) :
  validated df df' -> finite_quantities df' ->
  Py.isinf (total_quantity (snd entry)) = false ->
  exists lines, product_section df' entry = Return lines.
Proof.
  intros V FQ FT. destruct entry as [idx row]. unfold product_section.
  destruct (format_transaction_details_total df df' (product_id row) V FQ)
    as [lines [_ F]].
  rewrite F. cbn [bind]. unfold to_int. simpl in FT. rewrite FT.
  cbn [bind]. eauto.
Qed.

Lemma finite_total_quantity (df : DataFrame) (pm : list (nat * ProductMetric))
  (entry : nat * ProductMetric) :
  calculate_metrics df = Return pm -> finite_totals df -> In entry pm ->
  Py.isinf (total_quantity (snd entry)) = false.
Proof.
  intros C FT I. destruct entry as [i m].
  destruct (calculate_metrics_entry df pm i m C I) as [k [K E]].
  subst m. simpl. unfold finite_totals in FT. rewrite forallb_forall in FT.
  apply negb_true_iff, FT. eapply nth_error_In; eauto.
Qed.

(** The success path runs to its end on every validated frame. *)
Lemma success_report_total (df df' : DataFrame) (validation_report : list string) :
  validated df df' -> finite_quantities df' -> finite_totals df' ->
  exists pm sections,
    calculate_metrics df' = Return pm /\
    for_each (product_section df') pm = Return sections /\
    success_report validation_report df' =
    Return
      (Py.join Py.nl
         (validation_report +++ [success_banner] +++ formulas +++
          [Py.nl ++ "Summary:";
           "Total number of products analyzed: " ++
           Py.str_nat (List.length pm);
           Py.nl ++ "Ranked List and Calculations:"] +++
          List.concat sections +++
          (if 10 <? List.length pm then [transparency_note] else []) +++
          [closing_prompt])).
Proof.
  intros V FQ FT. destruct (validated_calculate_metrics df df' V) as [pm C].
  destruct (for_each_exists (product_section df') pm) as [sections S].
  - intros entry I. apply (product_section_total df); try assumption.
    now apply (finite_total_quantity df' pm).
  - exists pm, sections. split; [exact C|]. split; [exact S|].
    unfold success_report. rewrite C. simpl. rewrite S. reflexivity.
Qed.

(** The date check does not gate the success path: once the structural
    report is written, a validated frame gets the full success report
    whatever the report says about the dates. *)
Lemma report_on_validated (df df' : DataFrame) (validation_report : list string) :
  validated df df' ->
  format_validation_report init df = Return validation_report ->
  report_on init df = success_report validation_report df'.
Proof.
  intros V F. unfold report_on. rewrite F. simpl.
  destruct V as [_ [_ [VF [VT E]]]].
  destruct (validate_required_fields init df) as [ok message].
  destruct (validate_data_types df) as [[ok' message'] df''].
  simpl in *. subst. reflexivity.
Qed.

End Report.

(* ================================================================== *)
(** ** The transactions listed for a product *)
(* ================================================================== *)

Section Listing.

Context `{Library} `{Runtime}.

(** A group of the frame has a row in the metrics table, and that row
    carries the key of the group, rounded where the key is numeric. *)
Lemma group_has_metric (df : DataFrame) (pm : list (nat * ProductMetric))
  (k : key) :
  calculate_metrics df = Return pm -> In k (group_keys df) ->
  exists i m,
    In (i, m) pm /\ nth_error (group_keys df) i = Some k /\
    m = round_metric (numeric_column df "product_id")
                     (numeric_column df "product_name") (unrounded_metric df k).
Proof.
  intros C I. apply In_nth_error in I. destruct I as [i K].
  assert (L : i < List.length (group_keys df)).
  { apply nth_error_Some. congruence. }
  assert (J : In i (map fst pm)).
  { apply (Permutation_in _ (Permutation_sym (calculate_metrics_labels df pm C))).
    apply in_seq. lia. }
  apply in_map_iff in J. destruct J as [[i' m] [E J]]. simpl in E. subst i'.
  exists i, m. split; [exact J|]. split; [exact K|].
  destruct (calculate_metrics_entry df pm i m C J) as [k' [K' E]].
  congruence.
Qed.

Lemma rounded_product_id (df : DataFrame) (k : key) :
  round_cell (fst k) = fst k ->
  product_id (round_metric (numeric_column df "product_id")
                           (numeric_column df "product_name")
                           (unrounded_metric df k)) = fst k.
Proof.
  intros R. simpl. destruct (numeric_column df "product_id"); auto.
Qed.

(** C10, as amended.  In every validated frame without a repeated
    label and without an infinite quantity, in which a product id that
    rounding to two decimals leaves unchanged (every text id is one)
    occurs under two distinct names, both groups are in the metrics
    table and the transactions listed for either group are all the rows
    bearing that product id, those of the other group included: the
    listing selects by [product_id] alone. *)
Theorem listing_selects_by_product_id (df df' : DataFrame)
  (pid name1 name2 : value) :
  validated df df' -> NoDup (columns df) -> finite_quantities df' ->
  two_names df' pid name1 name2 ->
  round_cell pid = pid ->
  both_list_all df' pid name1 name2.
Proof.
  intros V _ FQ [r1 [r2 [L1 [L2 [K1 [K2 [_ [N1 N2]]]]]]]] R.
  destruct (validated_calculate_metrics df df' V) as [pm C].
  assert (I1 : In (pid, name1) (group_keys df')).
  { rewrite <- K1. apply groupby_has_key; [exact L1|]. now rewrite K1. }
  assert (I2 : In (pid, name2) (group_keys df')).
  { rewrite <- K2. apply groupby_has_key; [exact L2|]. now rewrite K2. }
  destruct (group_has_metric df' pm _ C I1) as [i1 [m1 [J1 [G1 E1]]]].
  destruct (group_has_metric df' pm _ C I2) as [i2 [m2 [J2 [G2 E2]]]].
  destruct (format_transaction_details_total df df' pid V FQ)
    as [lines [F D]].
  exists pm, i1, m1, i2, m2, lines.
  repeat (split; [assumption|]).
  subst m1 m2. rewrite !rounded_product_id by exact R. auto.
Qed.

End Listing.

Lemma listing_selects_by_product_id_witness :
  validated (frame_of Samples.renamed) (checked Samples.renamed) /\
  NoDup (columns (frame_of Samples.renamed)) /\
  finite_quantities (checked Samples.renamed) /\
  both_list_all (checked Samples.renamed)
    (VStr "P1") (VStr "Alpha") (VStr "Alfa").
Proof.
  assert (V : validated (frame_of Samples.renamed) (checked Samples.renamed))
    by run_validated.
  assert (D : NoDup (columns (frame_of Samples.renamed)))
    by (apply distinct_NoDup; vm_compute; reflexivity).
  assert (FQ : finite_quantities (checked Samples.renamed))
    by (vm_compute; reflexivity).
  split; [exact V|]. split; [exact D|]. split; [exact FQ|].
  refine (listing_selects_by_product_id (frame_of Samples.renamed)
            (checked Samples.renamed) _ _ _ V D FQ _ _).
  - exists 0, 1.
    split; [vm_compute; lia|]. split; [vm_compute; lia|].
    split; [vm_compute; reflexivity|]. split; [vm_compute; reflexivity|].
    split; [discriminate|]. split; reflexivity.
  - reflexivity.
Defined.

(** C10, as stated, fails on a numeric product id with three decimals:
    the metrics table carries the id rounded to 1.23, and the listing of
    either group selects the rows whose id is 1.23, of which there are
    none, while rows 0 and 1 bear the id 1.234. *)
Lemma fractional_id_lists_nothing :
  validated (frame_of Samples.fractional_id) (checked Samples.fractional_id) /\
  NoDup (columns (frame_of Samples.fractional_id)) /\
  finite_quantities (checked Samples.fractional_id) /\
  two_names (checked Samples.fractional_id)
    (num "1.234") (VStr "Alpha") (VStr "Alfa") /\
  ~ both_list_all (checked Samples.fractional_id)
      (num "1.234") (VStr "Alpha") (VStr "Alfa").
Proof.
  split; [run_validated|].
  split; [apply distinct_NoDup; vm_compute; reflexivity|].
  split; [vm_compute; reflexivity|]. split.
  - exists 0, 1.
    split; [vm_compute; lia|]. split; [vm_compute; lia|].
    split; [vm_compute; reflexivity|]. split; [vm_compute; reflexivity|].
    split; [discriminate|]. split; reflexivity.
  - intros [pm [i1 [m1 [i2 [m2 [lines [C [I1 [_ [_ [_ [F [D _]]]]]]]]]]]]].
    vm_compute in C. inversion C as [E]. clear C. subst pm.
    vm_compute in F. inversion F as [E]. clear F. subst lines.
    destruct I1 as [I|[I|[]]]; inversion I; subst; clear I;
      vm_compute in D; discriminate.
Qed.

(* ================================================================== *)
(** ** Format errors *)
(* ================================================================== *)

Section FormatErrors.

Context `{Library} `{Runtime}.
Variable self : ProductRecommenderAI.

Lemma no_key_not_present (members : list (string * json)) (k : string) :
  ~ In k (map fst members) ->
  existsb (fun kv => String.eqb k (fst kv)) members = false.
Proof.
  intros N. destruct (existsb _ members) eqn:E; [|reflexivity].
  exfalso. apply existsb_exists in E. destruct E as [kv [I E]].
  apply String.eqb_eq in E. apply N. subst k. now apply in_map.
Qed.

(** What [generate_response] answers when the format check fails. *)
Lemma generate_response_format_error (data message : string) :
  validate_data_format data = (false, message, None) ->
  generate_response self data =
  Return (message ++ Py.nl ++ Py.nl ++
          "Would you like a template for the data input?").
Proof.
  intros E. unfold generate_response. rewrite E. reflexivity.
Qed.

(** C7.  For text not detected as CSV: when it decodes to a JSON object
    without the [transactions] key, [validate_data_format] fails with the
    invalid-structure message; when decoding raises [JSONDecodeError], it
    fails with the invalid-format message; in both cases the answer of
    [generate_response] is that message followed by the template offer
    and nothing else. *)
Theorem format_error_messages (data : string) :
  looks_like_csv (Py.strip data) = false ->
  (forall members,
     json_loads (Py.strip data) = Return (JObj members) ->
     ~ In "transactions" (map fst members) ->
     validate_data_format data =
       (false,
        "ERROR: Invalid JSON structure. Must contain 'transactions' key.",
        None) /\
     generate_response self data =
       Return ("ERROR: Invalid JSON structure. Must contain 'transactions' key."
               ++ Py.nl ++ Py.nl ++
               "Would you like a template for the data input?")) /\
  (forall msg,
     json_loads (Py.strip data) = Raise (JSONDecodeError msg) ->
     validate_data_format data =
       (false,
        "ERROR: Invalid data format. Please provide your data in CSV or JSON format.",
        None) /\
     generate_response self data =
       Return ("ERROR: Invalid data format. Please provide your data in CSV or JSON format."
               ++ Py.nl ++ Py.nl ++
               "Would you like a template for the data input?")).
Proof.
  intros NC. split.
  - intros members D N.
    assert (E : validate_data_format data =
                (false, invalid_json_structure, None)).
    { unfold validate_data_format, read_json. rewrite NC, D.
      cbn [bind json_contains].
      now rewrite (no_key_not_present members "transactions" N). }
    split; [exact E|]. now apply generate_response_format_error.
  - intros msg D.
    assert (E : validate_data_format data =
                (false, invalid_data_format, None)).
    { unfold validate_data_format, read_json. now rewrite NC, D. }
    split; [exact E|]. now apply generate_response_format_error.
Qed.

End FormatErrors.

Lemma format_error_messages_witness :
  generate_response init Samples.no_transactions =
    Return ("ERROR: Invalid JSON structure. Must contain 'transactions' key."
            ++ Py.nl ++ Py.nl ++
            "Would you like a template for the data input?") /\
  generate_response init Samples.not_json =
    Return ("ERROR: Invalid data format. Please provide your data in CSV or JSON format."
            ++ Py.nl ++ Py.nl ++
            "Would you like a template for the data input?").
Proof.
  split.
  - refine (proj2 (proj1 (format_error_messages init Samples.no_transactions _)
                     [("orders", JArr [])] _ _)).
    + vm_compute. reflexivity.
    + vm_compute. reflexivity.
    + simpl. intros [E|[]]. discriminate.
  - refine (proj2 (proj2 (format_error_messages init Samples.not_json _)
                     "Expecting value" _)).
    + vm_compute. reflexivity.
    + vm_compute. reflexivity.
Defined.

(* ================================================================== *)
(** ** Column labels of CSV input *)
(* ================================================================== *)

Lemma lower_ascii_idem (c : ascii) :
  Py.lower_ascii (Py.lower_ascii c) = Py.lower_ascii c.
Proof.
  destruct c as [[] [] [] [] [] [] [] []]; vm_compute; reflexivity.
Qed.

Lemma is_space_lower (c : ascii) :
  Py.is_space (Py.lower_ascii c) = Py.is_space c.
Proof.
  destruct c as [[] [] [] [] [] [] [] []]; vm_compute; reflexivity.
Qed.

Lemma lower_idem (s : string) : Py.lower (Py.lower s) = Py.lower s.
Proof.
  induction s as [|c s IH]; simpl.
  - reflexivity.
  - now rewrite lower_ascii_idem, IH.
Qed.

Lemma string_length_ind (P : string -> Prop) :
  (forall s, (forall t, String.length t < String.length s -> P t) -> P s) ->
  forall s, P s.
Proof.
  intros step s. remember (String.length s) as n eqn:E. revert s E.
  induction n as [n IH] using lt_wf_ind. intros s E. apply step.
  intros t L. apply (IH (String.length t)); [lia|reflexivity].
Qed.

Lemma lower_ascii_cases (c : ascii) :
  Py.lower_ascii c = c \/
  (nat_of_ascii c < 128 /\ nat_of_ascii (Py.lower_ascii c) < 128).
Proof.
  destruct c as [[] [] [] [] [] [] [] []];
    first [ left; reflexivity
          | right; split; apply Nat.ltb_lt; reflexivity ].
Qed.

Ltac bytes :=
  unfold Py.wide2, Py.wide3, Py.byte_is, Py.is_space in *;
  repeat match goal with
         | H : _ && _ = true |- _ => apply andb_true_iff in H; destruct H
         | H : _ || _ = true |- _ => apply orb_true_iff in H; destruct H
         | H : (_ =? _) = true |- _ => apply Nat.eqb_eq in H
         | H : (_ <=? _) = true |- _ => apply Nat.leb_le in H
         end;
  lia.

(** The bytes of a wide blank: a lead byte, then continuation bytes. *)
Lemma is_space_low (c : ascii) :
  Py.is_space c = true -> nat_of_ascii c < 128.
Proof. intros S. bytes. Qed.

Lemma wide2_bytes (c1 c2 : ascii) :
  Py.wide2 c1 c2 = true ->
  192 <= nat_of_ascii c1 /\ 128 <= nat_of_ascii c2 <= 191.
Proof. intros W. bytes. Qed.

Lemma wide3_bytes (c1 c2 c3 : ascii) :
  Py.wide3 c1 c2 c3 = true ->
  192 <= nat_of_ascii c1 /\ 128 <= nat_of_ascii c2 <= 191 /\
  128 <= nat_of_ascii c3 <= 191.
Proof. intros W. bytes. Qed.

Lemma wide2_lower (c1 c2 : ascii) :
  Py.wide2 (Py.lower_ascii c1) (Py.lower_ascii c2) = Py.wide2 c1 c2.
Proof.
  destruct (lower_ascii_cases c1) as [E1|[A1 B1]],
           (lower_ascii_cases c2) as [E2|[A2 B2]];
    rewrite ?E1, ?E2; try reflexivity;
    match goal with
    | |- ?a = ?b =>
        destruct a eqn:W1; [apply wide2_bytes in W1; lia|];
        destruct b eqn:W2; [apply wide2_bytes in W2; lia|reflexivity]
    end.
Qed.

Lemma wide3_lower (c1 c2 c3 : ascii) :
  Py.wide3 (Py.lower_ascii c1) (Py.lower_ascii c2) (Py.lower_ascii c3) =
  Py.wide3 c1 c2 c3.
Proof.
  destruct (lower_ascii_cases c1) as [E1|[A1 B1]],
           (lower_ascii_cases c2) as [E2|[A2 B2]],
           (lower_ascii_cases c3) as [E3|[A3 B3]];
    rewrite ?E1, ?E2, ?E3; try reflexivity;
    match goal with
    | |- ?a = ?b =>
        destruct a eqn:W1; [apply wide3_bytes in W1; lia|];
        destruct b eqn:W2; [apply wide3_bytes in W2; lia|reflexivity]
    end.
Qed.

Lemma lstrip_eq (c1 : ascii) (s1 : string) :
  Py.lstrip (String c1 s1) =
  if Py.is_space c1 then Py.lstrip s1
  else
    match s1 with
    | EmptyString => String c1 s1
    | String c2 s2 =>
        if Py.wide2 c1 c2 then Py.lstrip s2
        else
          match s2 with
          | EmptyString => String c1 s1
          | String c3 s3 =>
              if Py.wide3 c1 c2 c3 then Py.lstrip s3 else String c1 s1
          end
    end.
Proof. reflexivity. Qed.

Lemma rstrip_eq (c : ascii) (s : string) :
  Py.rstrip (String c s) =
  if Py.all_space (String c s) then EmptyString
  else String c (Py.rstrip s).
Proof. reflexivity. Qed.

Lemma lstrip_lower (s : string) : Py.lstrip (Py.lower s) = Py.lower (Py.lstrip s).
Proof.
  induction s as [s IH] using string_length_ind.
  destruct s as [|c1 s1]; [reflexivity|].
  cbn [Py.lower]. rewrite !lstrip_eq, is_space_lower.
  destruct (Py.is_space c1); [apply IH; simpl; lia|].
  destruct s1 as [|c2 s2]; [reflexivity|].
  cbn [Py.lower]. rewrite wide2_lower.
  destruct (Py.wide2 c1 c2); [apply IH; simpl; lia|].
  destruct s2 as [|c3 s3]; [reflexivity|].
  cbn [Py.lower]. rewrite wide3_lower.
  destruct (Py.wide3 c1 c2 c3); [apply IH; simpl; lia|reflexivity].
Qed.

Lemma all_space_lower (s : string) :
  Py.all_space (Py.lower s) = Py.all_space s.
Proof.
  unfold Py.all_space. rewrite lstrip_lower.
  destruct (Py.lstrip s); reflexivity.
Qed.

Lemma rstrip_lower (s : string) : Py.rstrip (Py.lower s) = Py.lower (Py.rstrip s).
Proof.
  induction s as [|c s IH]; [reflexivity|].
  rewrite rstrip_eq.
  change (Py.lower (String c s))
    with (String (Py.lower_ascii c) (Py.lower s)).
  rewrite rstrip_eq.
  change (String (Py.lower_ascii c) (Py.lower s))
    with (Py.lower (String c s)) at 1.
  rewrite all_space_lower.
  destruct (Py.all_space (String c s)); [reflexivity|].
  cbn [Py.lower]. now rewrite IH.
Qed.

Lemma strip_lower (s : string) : Py.strip (Py.lower s) = Py.lower (Py.strip s).
Proof. unfold Py.strip. now rewrite lstrip_lower, rstrip_lower. Qed.

Lemma lstrip_idem (s : string) : Py.lstrip (Py.lstrip s) = Py.lstrip s.
Proof.
  induction s as [s IH] using string_length_ind.
  destruct s as [|c1 s1]; [reflexivity|].
  rewrite (lstrip_eq c1 s1).
  destruct (Py.is_space c1) eqn:S; [apply IH; simpl; lia|].
  destruct s1 as [|c2 s2]; [now rewrite lstrip_eq, S|].
  destruct (Py.wide2 c1 c2) eqn:W2; [apply IH; simpl; lia|].
  destruct s2 as [|c3 s3]; [now rewrite lstrip_eq, S, W2|].
  destruct (Py.wide3 c1 c2 c3) eqn:W3; [apply IH; simpl; lia|].
  now rewrite lstrip_eq, S, W2, W3.
Qed.

(** A text that starts with a continuation byte starts with no blank. *)
Lemma lstrip_continuation (c : ascii) (s : string) :
  128 <= nat_of_ascii c <= 191 -> Py.lstrip (String c s) = String c s.
Proof.
  intros B. rewrite lstrip_eq.
  destruct (Py.is_space c) eqn:S; [apply is_space_low in S; lia|].
  destruct s as [|c2 s2]; [reflexivity|].
  destruct (Py.wide2 c c2) eqn:W2; [apply wide2_bytes in W2; lia|].
  destruct s2 as [|c3 s3]; [reflexivity|].
  destruct (Py.wide3 c c2 c3) eqn:W3; [apply wide3_bytes in W3; lia|].
  reflexivity.
Qed.

Lemma continuation_not_all_space (c : ascii) (s : string) :
  128 <= nat_of_ascii c <= 191 -> Py.all_space (String c s) = false.
Proof.
  intros B. unfold Py.all_space. now rewrite lstrip_continuation.
Qed.

Lemma lstrip_rstrip (s : string) :
  Py.lstrip (Py.rstrip s) = Py.rstrip (Py.lstrip s).
Proof.
  induction s as [s IH] using string_length_ind.
  destruct s as [|c1 s1]; [reflexivity|].
  rewrite (rstrip_eq c1 s1).
  destruct (Py.all_space (String c1 s1)) eqn:A.
  { unfold Py.all_space in A.
    destruct (Py.lstrip (String c1 s1)); [reflexivity|discriminate]. }
  rewrite (lstrip_eq c1 s1), (lstrip_eq c1 (Py.rstrip s1)).
  destruct (Py.is_space c1) eqn:S; [apply IH; simpl; lia|].
  destruct s1 as [|c2 s2].
  { rewrite rstrip_eq, A. reflexivity. }
  rewrite (rstrip_eq c2 s2).
  destruct (Py.wide2 c1 c2) eqn:W2.
  { rewrite continuation_not_all_space by (apply wide2_bytes in W2; lia).
    rewrite W2. apply IH. simpl. lia. }
  destruct (Py.all_space (String c2 s2)) eqn:A2.
  { assert (E : Py.rstrip (String c1 (String c2 s2)) = String c1 EmptyString).
    { rewrite rstrip_eq, A, rstrip_eq, A2. reflexivity. }
    destruct s2 as [|c3 s3]; [now rewrite E|].
    destruct (Py.wide3 c1 c2 c3) eqn:W3; [|now rewrite E].
    rewrite continuation_not_all_space in A2
      by (apply wide3_bytes in W3; lia).
    discriminate. }
  rewrite W2.
  destruct s2 as [|c3 s3].
  { rewrite rstrip_eq, A, rstrip_eq, A2. reflexivity. }
  rewrite (rstrip_eq c3 s3).
  destruct (Py.wide3 c1 c2 c3) eqn:W3.
  { rewrite continuation_not_all_space by (apply wide3_bytes in W3; lia).
    rewrite W3. apply IH. simpl. lia. }
  rewrite (rstrip_eq c1), A, (rstrip_eq c2), A2, (rstrip_eq c3).
  destruct (Py.all_space (String c3 s3)); [reflexivity|].
  now rewrite W3.
Qed.

Lemma all_space_rstrip (s : string) :
  Py.all_space (Py.rstrip s) = Py.all_space s.
Proof.
  unfold Py.all_space. rewrite lstrip_rstrip.
  destruct (Py.lstrip s) as [|d u] eqn:E; [reflexivity|].
  rewrite rstrip_eq. unfold Py.all_space.
  rewrite <- E, lstrip_idem, E. reflexivity.
Qed.

Lemma rstrip_idem (s : string) : Py.rstrip (Py.rstrip s) = Py.rstrip s.
Proof.
  induction s as [|c s IH]; [reflexivity|].
  pose proof (all_space_rstrip (String c s)) as A.
  rewrite (rstrip_eq c s) in *.
  destruct (Py.all_space (String c s)); [reflexivity|].
  rewrite rstrip_eq, A, IH. reflexivity.
Qed.

Lemma strip_idem (s : string) : Py.strip (Py.strip s) = Py.strip s.
Proof.
  unfold Py.strip. now rewrite lstrip_rstrip, lstrip_idem, rstrip_idem.
Qed.

Lemma columns_rename (f : string -> string) (df : DataFrame) :
  columns (rename_columns f df) = map f (columns df).
Proof. unfold columns, rename_columns. simpl. now rewrite !map_map. Qed.

(** The frame [validate_data_format] makes of CSV input has normalised
    labels. *)
Lemma csv_labels_normalised (df : DataFrame) :
  normalised (rename_columns (fun col => Py.lower (Py.strip col)) df).
Proof.
  unfold normalised. rewrite columns_rename. apply Forall_map.
  apply Forall_forall. intros c _.
  now rewrite lower_idem, strip_lower, strip_idem.
Qed.

Lemma rectangular_rename (f : string -> string) (df : DataFrame) :
  rectangular df -> rectangular (rename_columns f df).
Proof.
  unfold rectangular, rename_columns. simpl. intros R.
  apply Forall_map. eapply Forall_impl; [|exact R]. auto.
Qed.

(* ================================================================== *)
(** ** A header without data rows *)
(* ================================================================== *)

Section HeaderOnly.

Context `{Library} `{Runtime}.






End HeaderOnly.


(* ================================================================== *)
(** ** Determinism *)
(* ================================================================== *)

Section Determinism.

Context `{Library}.
Variables (first second : Runtime).
Variable self : ProductRecommenderAI.

(** Whether a text is in a set does not depend on the layout of the
    set. *)
Lemma mem_df_columns (x : string) (df : DataFrame) :
  Py.mem x (@df_columns first df) = Py.mem x (@df_columns second df).
Proof.
  unfold df_columns.
  destruct (Py.mem x (@set_order second _)) eqn:E.
  - apply mem_In. apply mem_In in E.
    apply (proj2 (@set_order_members first _ _)).
    exact (proj1 (@set_order_members second _ _) E).
  - destruct (Py.mem x (@set_order first _)) eqn:F; [|reflexivity].
    apply mem_In in F. apply (proj1 (@set_order_members first _ _)) in F.
    apply (proj2 (@set_order_members second _ _)), mem_In in F. congruence.
Qed.

Lemma format_validation_report_layout (df : DataFrame) :
  @format_validation_report _ first self df =
  @format_validation_report _ second self df.
Proof.
  unfold format_validation_report.
  rewrite (map_ext
             (fun field =>
                "   - " ++ field ++ ": " ++
                (if Py.mem (Py.lower field) (@df_columns first df)
                 then "✓ Present" else "✗ Missing"))
             (fun field =>
                "   - " ++ field ++ ": " ++
                (if Py.mem (Py.lower field) (@df_columns second df)
                 then "✓ Present" else "✗ Missing"))).
  - reflexivity.
  - intros field. now rewrite mem_df_columns.
Qed.

Lemma validate_required_fields_layout (df : DataFrame) :
  @validate_required_fields first self df =
  @validate_required_fields second self df.
Proof.
  unfold validate_required_fields, missing_fields.
  rewrite (filter_ext
             (fun field => negb (Py.mem (Py.lower field) (@df_columns first df)))
             (fun field => negb (Py.mem (Py.lower field) (@df_columns second df)))).
  - reflexivity.
  - intros field. now rewrite mem_df_columns.
Qed.

(** C8.  Two invocations of [generate_response] on the same text return
    the same outcome, byte for byte, also when they run in two processes
    whose sets are laid out differently: the source builds sets of column
    labels and only asks them for membership. *)
Theorem generate_response_deterministic (data : string) :
  @generate_response _ first self data = @generate_response _ second self data.
Proof.
  unfold generate_response.
  destruct (validate_data_format data) as [[is_valid_format format_message] df].
  destruct (negb is_valid_format); [reflexivity|].
  destruct df as [df|]; [|reflexivity].
  unfold report_on.
  rewrite format_validation_report_layout, validate_required_fields_layout.
  reflexivity.
Qed.

End Determinism.

(* ================================================================== *)
(** ** Runs of [generate_response] *)
(* ================================================================== *)

Section Runs.

Context `{Library} `{Runtime}.
Variable self : ProductRecommenderAI.

(** The rank printed for a product is one more than the label of its
    row, and the label is the place of its group in key order. *)
Lemma rank_is_group_position (df : DataFrame) (pm : list (nat * ProductMetric))
  (i : nat) (m : ProductMetric) :
  calculate_metrics df = Return pm -> In (i, m) pm ->
  rank_line i m =
    Py.nl ++ "Rank " ++ Py.str_nat (i + 1) ++ ": " ++ str_value (product_name m) /\
  exists k, nth_error (group_keys df) i = Some k.
Proof.
  intros C I. split; [reflexivity|].
  destruct (calculate_metrics_entry df pm i m C I) as [k [K _]]. eauto.
Qed.

(** The structural report needs the [quantity] column before any check
    has run. *)
Lemma report_on_without_quantity (df : DataFrame) :
  ~ In "quantity" (columns df) ->
  report_on self df = Raise (KeyError "quantity").
Proof.
  intros N. unfold report_on, format_validation_report.
  now rewrite (get_col_missing df "quantity" N).
Qed.

Lemma generate_response_without_quantity (data message : string)
  (df : DataFrame) :
  validate_data_format data = (true, message, Some df) ->
  ~ In "quantity" (columns df) ->
  generate_response self data = Raise (KeyError "quantity").
Proof.
  intros V N. unfold generate_response. rewrite V. simpl.
  now apply report_on_without_quantity.
Qed.

End Runs.

(** C1 on the example of the source.  The report lists the products by
    importance score, 377.50 then 114.00 then 39.00, and prints for them
    the ranks 3, 2 and 1: the rank is the label the row had before the
    table was sorted, not its place in the sorted table. *)
Theorem example_ranks_follow_labels :
  returns (generate_response init Demo.example_data) = true /\
  lines_with "Rank "
    (report_text (generate_response init Demo.example_data)) =
    ["Rank 3: RetroMonitor"; "Rank 2: NeonKeyboard"; "Rank 1: QuantumMouse"] /\
  lines_with "- Importance Score"
    (report_text (generate_response init Demo.example_data)) =
    ["- Importance Score: 377.50"; "- Importance Score: 114.00";
     "- Importance Score: 39.00"].
Proof. split; [|split]; vm_compute; reflexivity. Qed.

(** C3 on tables that lack a column.  Without [quantity] or without
    [price_usd] the call raises [KeyError] instead of returning a report;
    the same happens, with [TypeError], when a quantity is text.  Without
    [transaction_date] a report is returned: that lookup alone sits in a
    [try]. *)
Theorem missing_column_raises :
  generate_response init Samples.two_columns = Raise (KeyError "quantity") /\
  generate_response init Samples.no_price = Raise (KeyError "price_usd") /\
  generate_response init Samples.text_quantity =
    Raise (TypeError "'<=' not supported between instances of 'str' and 'int'") /\
  returns (generate_response init Samples.no_date) = true /\
  lines_with "   - transaction_date"
    (report_text (generate_response init Samples.no_date)) =
    ["   - transaction_date: ✗ Missing"].
Proof. split; [|split; [|split; [|split]]]; vm_compute; reflexivity. Qed.

(** C6 on a JSON record whose [product_id] key starts with a blank: the
    structural report is written, both checks pass, and the call raises
    [KeyError] where the success report was due. *)
Theorem padded_label_raises :
  returns (format_validation_report init (frame_of Samples.padded_label)) = true /\
  validate_required_fields init (frame_of Samples.padded_label)
    = (true, "Success") /\
  fst (validate_data_types (frame_of Samples.padded_label))
    = (true, "Success") /\
  generate_response init Samples.padded_label = Raise (KeyError "product_id").
Proof. split; [|split; [|split]]; vm_compute; reflexivity. Qed.

(** The same call on text numerals: both checks would pass, and the
    structural report raises before they run. *)
Lemma quoted_quantity_raises :
  validate_required_fields init (frame_of Samples.quoted_quantity)
    = (true, "Success") /\
  fst (validate_data_types (frame_of Samples.quoted_quantity))
    = (true, "Success") /\
  generate_response init Samples.quoted_quantity =
    Raise (TypeError "'<=' not supported between instances of 'str' and 'int'").
Proof. split; [|split]; vm_compute; reflexivity. Qed.

(** A date that does not parse is reported and the success report is
    written all the same. *)
Lemma bad_date_still_succeeds :
  lines_with "   - Date format"
    (report_text (generate_response init Samples.bad_date)) =
    ["   - Date format: ✗ Invalid date format found"] /\
  lines_with "Total number of products"
    (report_text (generate_response init Samples.bad_date)) =
    ["Total number of products analyzed: 1"] /\
  lines_with "Rank "
    (report_text (generate_response init Samples.bad_date)) =
    ["Rank 1: Alpha"].
Proof. split; [|split]; vm_compute; reflexivity. Qed.

(* ================================================================== *)
(** ** Dates and feedback *)
(* ================================================================== *)

Section Dates.

Context `{Library} `{Runtime}.

Lemma date_line_reported (df : DataFrame) (validation_report : list string) :
  format_validation_report init df = Return validation_report ->
  In ("   - Date format: " ++ date_status df) validation_report.
Proof.
  unfold format_validation_report. cbv zeta.
  destruct (get_col df "quantity") as [q|]; cbn [bind]; [|discriminate].
  destruct (invalid_mask q) as [mq|]; cbn [bind]; [|discriminate].
  destruct (get_col df "price_usd") as [p|]; cbn [bind]; [|discriminate].
  destruct (invalid_mask p) as [mp|]; cbn [bind]; [|discriminate].
  intros E. apply Return_inj in E. rewrite <- E.
  apply in_or_app. right. apply in_or_app. right.
  right. right. right. left. reflexivity.
Qed.

(** X1.  The date check does not gate the success path: for a text read
    into a frame with normalised labels, none repeated, whose structural
    report is written and which passes both checks, and in which no
    quantity and no total quantity is infinite, [generate_response]
    returns the full success report, and the structural report in it
    carries the verdict on the dates, whichever it is. *)
Theorem dates_do_not_gate (data message : string) (df df' : DataFrame)
  (validation_report : list string) :
  validate_data_format data = (true, message, Some df) ->
  validated df df' -> NoDup (columns df) ->
  finite_quantities df' -> finite_totals df' ->
  format_validation_report init df = Return validation_report ->
  In ("   - Date format: " ++ date_status df) validation_report /\
  exists pm sections,
    calculate_metrics df' = Return pm /\
    for_each (product_section df') pm = Return sections /\
    generate_response init data =
    Return
      (Py.join Py.nl
         (validation_report +++ [success_banner] +++ formulas +++
          [Py.nl ++ "Summary:";
           "Total number of products analyzed: " ++
           Py.str_nat (List.length pm);
           Py.nl ++ "Ranked List and Calculations:"] +++
          List.concat sections +++
          (if 10 <? List.length pm then [transparency_note] else []) +++
          [closing_prompt])).
Proof.
  intros D V _ FQ FT F. split; [now apply date_line_reported|].
  destruct (success_report_total df df' validation_report V FQ FT)
    as [pm [sections [C [S R]]]].
  exists pm, sections. split; [exact C|]. split; [exact S|].
  unfold generate_response. rewrite D. simpl.
  now rewrite (report_on_validated df df' validation_report V F).
Qed.

End Dates.

Lemma dates_do_not_gate_witness :
  date_status (frame_of Samples.bad_date) = "✗ Invalid date format found" /\
  validated (frame_of Samples.bad_date) (checked Samples.bad_date) /\
  NoDup (columns (frame_of Samples.bad_date)) /\
  finite_quantities (checked Samples.bad_date) /\
  finite_totals (checked Samples.bad_date) /\
  exists validation_report,
    format_validation_report init (frame_of Samples.bad_date)
      = Return validation_report /\
    In ("   - Date format: " ++ date_status (frame_of Samples.bad_date))
       validation_report /\
    exists pm sections,
      calculate_metrics (checked Samples.bad_date) = Return pm /\
      for_each (product_section (checked Samples.bad_date)) pm
        = Return sections /\
      generate_response init Samples.bad_date =
      Return
        (Py.join Py.nl
           (validation_report +++ [success_banner] +++ formulas +++
            [Py.nl ++ "Summary:";
             "Total number of products analyzed: " ++
             Py.str_nat (List.length pm);
             Py.nl ++ "Ranked List and Calculations:"] +++
            List.concat sections +++
            (if 10 <? List.length pm then [transparency_note] else []) +++
            [closing_prompt])).
Proof.
  split; [vm_compute; reflexivity|].
  assert (V : validated (frame_of Samples.bad_date) (checked Samples.bad_date))
    by run_validated.
  assert (D : validate_data_format Samples.bad_date =
              (true, "Success", Some (frame_of Samples.bad_date))).
  { unfold frame_of.
    destruct (validate_data_format Samples.bad_date)
      as [[ok message] [df|]] eqn:E; vm_compute in E; inversion E.
    reflexivity. }
  assert (N : NoDup (columns (frame_of Samples.bad_date)))
    by (apply distinct_NoDup; vm_compute; reflexivity).
  assert (FQ : finite_quantities (checked Samples.bad_date))
    by (vm_compute; reflexivity).
  assert (FT : finite_totals (checked Samples.bad_date))
    by (vm_compute; reflexivity).
  split; [exact V|]. split; [exact N|]. split; [exact FQ|].
  split; [exact FT|].
  destruct (format_validation_report init (frame_of Samples.bad_date))
    as [validation_report|e] eqn:F.
  - exists validation_report. split; [reflexivity|].
    exact (dates_do_not_gate Samples.bad_date "Success"
             (frame_of Samples.bad_date) (checked Samples.bad_date)
             validation_report D V N FQ FT F).
  - vm_compute in F. discriminate.
Defined.

(** [process_feedback] thanks for a rating of 4 or more and asks
    how to improve for any other rating, out-of-range ones included. *)
Theorem process_feedback_answers (rating : Z) :
  ((4 <= rating)%Z ->
   process_feedback rating = "Thank you for your positive feedback!") /\
  ((rating < 4)%Z ->
   process_feedback rating = "How can we improve our product recommendations?").
Proof.
  unfold process_feedback. split; intros L.
  - apply Z.leb_le in L. now rewrite L.
  - apply Z.leb_gt in L. now rewrite L.
Qed.

(* ================================================================== *)
(** ** Frames with distinct labels *)
(* ================================================================== *)

Lemma stripped_check (labels : list string) :
  forallb (fun col => String.eqb (Py.strip col) col) labels = true ->
  Forall (fun col => Py.strip col = col) labels.
Proof.
  intros E. apply Forall_forall. intros col I.
  rewrite forallb_forall in E. apply String.eqb_eq. now apply E.
Qed.

(* ================================================================== *)
(** ** [validate_required_fields] *)
(* ================================================================== *)

Section FieldCheck.

Context `{Runtime}.
Variable self : ProductRecommenderAI.

Lemma mem_df_columns_present (df : DataFrame) (field : string) :
  Py.mem (Py.lower field) (df_columns df) = field_present df field.
Proof.
  unfold df_columns, field_present.
  destruct (existsb _ (columns df)) eqn:E.
  - apply mem_In, (proj2 (set_order_members _ _)).
    apply existsb_exists in E. destruct E as [col [I E]].
    apply String.eqb_eq in E. rewrite <- E.
    now apply (in_map (fun col => Py.strip (Py.lower col))).
  - destruct (Py.mem _ _) eqn:M; [|reflexivity].
    apply mem_In, (proj1 (set_order_members _ _)), in_map_iff in M.
    destruct M as [col [F I]].
    assert (X : existsb (fun col => String.eqb (Py.strip (Py.lower col))
                                               (Py.lower field))
                        (columns df) = true).
    { apply existsb_exists. exists col. split; [exact I|].
      now apply String.eqb_eq. }
    congruence.
Qed.

Lemma missing_fields_absent (df : DataFrame) :
  missing_fields self df = absent_fields self df.
Proof.
  unfold missing_fields, absent_fields. apply filter_ext.
  intros field. now rewrite mem_df_columns_present.
Qed.

(** X3.  [validate_required_fields] passes exactly when every required
    field is the lower-cased, stripped label of some column; otherwise its
    message names every required field without such a column, once each
    and in the order of declaration, whatever the order of the columns
    and the layout of the set the method builds. *)
Theorem validate_required_fields_outcome (df : DataFrame) :
  (fst (validate_required_fields self df) = true <->
   forall field, In field (required_fields self) ->
     exists col, In col (columns df) /\
                 Py.strip (Py.lower col) = Py.lower field) /\
  validate_required_fields self df =
    match absent_fields self df with
    | [] => (true, "Success")
    | missing =>
        (false,
         "ERROR: Missing required fields: " ++ Py.join ", " missing ++ ".")
    end.
Proof.
  assert (S : validate_required_fields self df =
              match absent_fields self df with
              | [] => (true, "Success")
              | missing =>
                  (false,
                   "ERROR: Missing required fields: " ++
                   Py.join ", " missing ++ ".")
              end).
  { unfold validate_required_fields. now rewrite missing_fields_absent. }
  split; [|exact S]. rewrite S. split.
  - intros P field I.
    destruct (field_present df field) eqn:E.
    + unfold field_present in E. apply existsb_exists in E.
      destruct E as [col [J E]]. apply String.eqb_eq in E. eauto.
    + exfalso. assert (J : In field (absent_fields self df)).
      { apply filter_In. split; [exact I|]. now rewrite E. }
      destruct (absent_fields self df); [destruct J|discriminate].
  - intros P.
    assert (E : absent_fields self df = []).
    { destruct (absent_fields self df) as [|field rest] eqn:A; [reflexivity|].
      exfalso. assert (J : In field (absent_fields self df)).
      { rewrite A. now left. }
      apply filter_In in J. destruct J as [I N].
      destruct (P field I) as [col [J E]].
      assert (X : field_present df field = true).
      { apply existsb_exists. exists col. split; [exact J|].
        now apply String.eqb_eq. }
      rewrite X in N. discriminate. }
    now rewrite E.
Qed.

Lemma field_present_rename (f : string -> string) (df : DataFrame)
  (field : string) :
  (forall col, Py.strip (Py.lower (f col)) = Py.strip (Py.lower col)) ->
  field_present (rename_columns f df) field = field_present df field.
Proof.
  intros E. unfold field_present. rewrite columns_rename.
  induction (columns df) as [|col cols IH]; simpl.
  - reflexivity.
  - now rewrite E, IH.
Qed.

(** X4.  The field check does not see the normalisation of labels that
    [validate_data_format] applies: lower-casing the labels (JSON), or
    stripping and lower-casing them (CSV), leaves the outcome of
    [validate_required_fields] as it was. *)
Theorem field_check_ignores_normalisation (df : DataFrame) :
  validate_required_fields self (rename_columns Py.lower df) =
    validate_required_fields self df /\
  validate_required_fields self
    (rename_columns (fun col => Py.lower (Py.strip col)) df) =
    validate_required_fields self df.
Proof.
  split; unfold validate_required_fields; rewrite !missing_fields_absent;
    unfold absent_fields.
  - rewrite (filter_ext _ (fun field => negb (field_present df field)));
      [reflexivity|].
    intros field. rewrite field_present_rename; [reflexivity|].
    intros col. now rewrite lower_idem.
  - rewrite (filter_ext _ (fun field => negb (field_present df field)));
      [reflexivity|].
    intros field. rewrite field_present_rename; [reflexivity|].
    intros col. now rewrite lower_idem, !strip_lower, strip_idem.
Qed.

End FieldCheck.

(* ================================================================== *)
(** ** [format_validation_report] *)
(* ================================================================== *)

Lemma invalid_mask_text (cells : list value) :
  numeric_dtype cells = false -> invalid_mask cells = Raise text_compared.
Proof.
  unfold invalid_mask, numeric_dtype.
  induction cells as [|v cells IH]; simpl; intros N.
  - discriminate.
  - destruct v as [|q|s]; simpl in *.
    + rewrite (IH N). reflexivity.
    + rewrite (IH N). reflexivity.
    + reflexivity.
Qed.

Lemma invalid_mask_returns (cells : list value) (mask : list bool) :
  invalid_mask cells = Return mask ->
  numeric_dtype cells = true /\ mask = map invalid_cell cells.
Proof.
  intros E. destruct (numeric_dtype cells) eqn:N.
  - split; [reflexivity|]. rewrite (invalid_mask_numeric cells N) in E.
    now inversion E.
  - rewrite (invalid_mask_text cells N) in E. discriminate.
Qed.

Section StructuralReport.

Context `{Library} `{Runtime}.
Variable self : ProductRecommenderAI.

Lemma report_missing_quantity (df : DataFrame) :
  ~ In "quantity" (columns df) ->
  format_validation_report self df = Raise (KeyError "quantity").
Proof.
  intros N. unfold format_validation_report.
  now rewrite (get_col_missing df "quantity" N).
Qed.

Lemma report_text_quantity (df : DataFrame) :
  In "quantity" (columns df) ->
  numeric_dtype (column df "quantity") = false ->
  format_validation_report self df = Raise text_compared.
Proof.
  intros Q N. unfold format_validation_report.
  rewrite (get_col_present df "quantity" Q). cbv zeta. cbn [bind].
  now rewrite (invalid_mask_text _ N).
Qed.

Lemma report_missing_price (df : DataFrame) :
  In "quantity" (columns df) ->
  numeric_dtype (column df "quantity") = true ->
  ~ In "price_usd" (columns df) ->
  format_validation_report self df = Raise (KeyError "price_usd").
Proof.
  intros Q N P. unfold format_validation_report.
  rewrite (get_col_present df "quantity" Q). cbv zeta. cbn [bind].
  rewrite (invalid_mask_numeric _ N). cbn [bind].
  now rewrite (get_col_missing df "price_usd" P).
Qed.

Lemma report_text_price (df : DataFrame) :
  In "quantity" (columns df) ->
  numeric_dtype (column df "quantity") = true ->
  In "price_usd" (columns df) ->
  numeric_dtype (column df "price_usd") = false ->
  format_validation_report self df = Raise text_compared.
Proof.
  intros Q N P M. unfold format_validation_report.
  rewrite (get_col_present df "quantity" Q). cbv zeta. cbn [bind].
  rewrite (invalid_mask_numeric _ N). cbn [bind].
  rewrite (get_col_present df "price_usd" P). cbn [bind].
  now rewrite (invalid_mask_text _ M).
Qed.

Lemma report_written (df : DataFrame) :
  returns (format_validation_report self df) = true ->
  In "quantity" (columns df) /\ In "price_usd" (columns df) /\
  numeric_dtype (column df "quantity") = true /\
  numeric_dtype (column df "price_usd") = true.
Proof.
  intros R.
  destruct (in_dec string_dec "quantity" (columns df)) as [Q|Q];
    [|rewrite (report_missing_quantity df Q) in R; discriminate].
  destruct (numeric_dtype (column df "quantity")) eqn:N;
    [|rewrite (report_text_quantity df Q N) in R; discriminate].
  destruct (in_dec string_dec "price_usd" (columns df)) as [P|P];
    [|rewrite (report_missing_price df Q N P) in R; discriminate].
  destruct (numeric_dtype (column df "price_usd")) eqn:M;
    [|rewrite (report_text_price df Q N P M) in R; discriminate].
  auto.
Qed.

(** X5.  On a frame whose labels are distinct, [format_validation_report]
    returns exactly when the frame has the [quantity] and [price_usd]
    columns and neither holds text; it raises [KeyError] for the first of
    the two that is missing and [TypeError] for the first that holds
    text, [quantity] before [price_usd].  No other column, and no date,
    makes it raise. *)
Theorem format_validation_report_outcome (df : DataFrame) :
  NoDup (columns df) ->
  (returns (format_validation_report self df) = true <->
   In "quantity" (columns df) /\ In "price_usd" (columns df) /\
   numeric_dtype (column df "quantity") = true /\
   numeric_dtype (column df "price_usd") = true) /\
  (~ In "quantity" (columns df) ->
   format_validation_report self df = Raise (KeyError "quantity")) /\
  (In "quantity" (columns df) ->
   numeric_dtype (column df "quantity") = false ->
   format_validation_report self df = Raise text_compared) /\
  (In "quantity" (columns df) ->
   numeric_dtype (column df "quantity") = true ->
   ~ In "price_usd" (columns df) ->
   format_validation_report self df = Raise (KeyError "price_usd")) /\
  (In "quantity" (columns df) ->
   numeric_dtype (column df "quantity") = true ->
   In "price_usd" (columns df) ->
   numeric_dtype (column df "price_usd") = false ->
   format_validation_report self df = Raise text_compared).
Proof.
  intros _. split; [split|].
  - apply report_written.
  - intros [Q [P [N M]]]. unfold format_validation_report.
    rewrite (get_col_present df "quantity" Q). cbv zeta. cbn [bind].
    rewrite (invalid_mask_numeric _ N). cbn [bind].
    rewrite (get_col_present df "price_usd" P). cbn [bind].
    rewrite (invalid_mask_numeric _ M). reflexivity.
  - split; [apply report_missing_quantity|].
    split; [apply report_text_quantity|].
    split; [apply report_missing_price|apply report_text_price].
Qed.

Lemma to_numeric_number (v : value) : is_text v = false -> to_numeric v = v.
Proof. destruct v; simpl; intros E; try reflexivity. discriminate. Qed.

Lemma rejected_raw (df : DataFrame) (c : string) :
  numeric_dtype (column df c) = true ->
  rejected df c = count_true (map invalid_cell (column df c)) /\
  existsb (fun v => invalid_cell (to_numeric v)) (column df c) =
  existsb (fun b => b) (map invalid_cell (column df c)).
Proof.
  unfold rejected, count_true, numeric_dtype.
  induction (column df c) as [|v cells IH]; simpl; intros N.
  - auto.
  - apply andb_true_iff in N. destruct N as [T N].
    apply negb_true_iff in T. rewrite (to_numeric_number v T).
    destruct (IH N) as [IH1 IH2]. rewrite IH2.
    split; [|reflexivity]. destruct (invalid_cell v); simpl; now rewrite IH1.
Qed.

Lemma type_status_count (mask : list bool) :
  type_status mask = status_of (count_true mask).
Proof.
  unfold type_status, status_of, count_true.
  induction mask as [|b mask IH]; simpl.
  - reflexivity.
  - destruct b; simpl; [reflexivity|exact IH].
Qed.

Lemma rejected_none (df : DataFrame) (c : string) :
  rejected df c = 0 <->
  existsb (fun v => invalid_cell (to_numeric v)) (column df c) = false.
Proof.
  unfold rejected. induction (column df c) as [|v cells IH]; simpl.
  - tauto.
  - destruct (invalid_cell (to_numeric v)); simpl.
    + split; discriminate.
    + exact IH.
Qed.

(** X6.  Whenever the structural report of a frame with distinct labels
    is written, its two type lines agree with [validate_data_types]: the quantity line and the price
    line say [Valid], or count the invalid records, by the number of rows
    that [validate_data_types] rejects after coercion, and the check
    passes exactly when both lines say [Valid]. *)
Theorem report_agrees_with_type_check (df : DataFrame) (report : list string) :
  NoDup (columns df) ->
  format_validation_report self df = Return report ->
  line_from_end 3 report =
    "   - Quantity (positive integers): " ++ status_of (rejected df "quantity") /\
  line_from_end 2 report =
    "   - Price (positive numbers): " ++ status_of (rejected df "price_usd") /\
  (fst (fst (validate_data_types df)) = true <->
   rejected df "quantity" = 0 /\ rejected df "price_usd" = 0).
Proof.
  intros _ R.
  assert (S : returns (format_validation_report self df) = true)
    by now rewrite R.
  apply report_written in S.
  destruct S as [Q [P [N M]]].
  destruct (rejected_raw df "quantity" N) as [CQ EQ].
  destruct (rejected_raw df "price_usd" M) as [CP EP].
  unfold format_validation_report in R. cbv zeta in R.
  rewrite (get_col_present df "quantity" Q) in R. cbn [bind] in R.
  rewrite (invalid_mask_numeric _ N) in R. cbn [bind] in R.
  rewrite (get_col_present df "price_usd" P) in R. cbn [bind] in R.
  rewrite (invalid_mask_numeric _ M) in R. cbn [bind] in R.
  apply Return_inj in R. subst report.
  unfold line_from_end. rewrite !rev_app_distr. cbn [rev app nth].
  rewrite !type_status_count, <- CQ, <- CP.
  split; [reflexivity|]. split; [reflexivity|].
  rewrite (validate_data_types_run df Q P). unfold type_verdict.
  rewrite !rejected_none.
  destruct (existsb _ (column df "quantity")); simpl.
  - split; [discriminate|]. intros [X _]. discriminate.
  - destruct (existsb _ (column df "price_usd")); simpl.
    + split; [discriminate|]. intros [_ X]. discriminate.
    + tauto.
Qed.

End StructuralReport.

Lemma format_validation_report_outcome_witness :
  format_validation_report init (frame_of Samples.no_price) =
  Raise (KeyError "price_usd").
Proof.
  refine (proj1 (proj2 (proj2 (proj2
            (format_validation_report_outcome init
               (frame_of Samples.no_price) _)))) _ _ _).
  - apply distinct_NoDup. vm_compute. reflexivity.
  - apply mem_In. vm_compute. reflexivity.
  - vm_compute. reflexivity.
  - intros I. apply mem_In in I. vm_compute in I. discriminate.
Defined.

Lemma report_agrees_with_type_check_witness :
  match format_validation_report init (frame_of Samples.bad_values) with
  | Return report =>
      line_from_end 3 report =
        "   - Quantity (positive integers): " ++
        status_of (rejected (frame_of Samples.bad_values) "quantity") /\
      line_from_end 2 report =
        "   - Price (positive numbers): " ++
        status_of (rejected (frame_of Samples.bad_values) "price_usd") /\
      (fst (fst (validate_data_types (frame_of Samples.bad_values))) = true <->
       rejected (frame_of Samples.bad_values) "quantity" = 0 /\
       rejected (frame_of Samples.bad_values) "price_usd" = 0)
  | Raise _ => False
  end.
Proof.
  destruct (format_validation_report init (frame_of Samples.bad_values))
    as [report|e] eqn:E.
  - refine (report_agrees_with_type_check init
              (frame_of Samples.bad_values) report _ E).
    apply distinct_NoDup. vm_compute. reflexivity.
  - vm_compute in E. discriminate.
Defined.

(* ================================================================== *)
(** ** [validate_data_types] and the caller's frame *)
(* ================================================================== *)

Lemma update_same {A : Type} (c : string) (v : A) (kvs : list (string * A)) :
  lookup c kvs = Some v -> update c v kvs = kvs.
Proof.
  induction kvs as [|[c' v'] kvs IH]; simpl; intros L.
  - discriminate.
  - destruct (String.eqb c c') eqn:E.
    + apply String.eqb_eq in E. subst c'. now inversion L.
    + f_equal. now apply IH.
Qed.

Lemma set_col_same (df : DataFrame) (c : string) (cells : list value) :
  lookup c (series df) = Some cells -> set_col df c cells = df.
Proof.
  intros L. destruct df as [n s]. unfold set_col. simpl in *.
  now rewrite (update_same c cells s L).
Qed.

Lemma lookup_column (df : DataFrame) (c : string) :
  In c (columns df) -> lookup c (series df) = Some (column df c).
Proof.
  intros I. apply lookup_in in I. destruct I as [v E].
  unfold column. now rewrite E.
Qed.

Section TypeCheck.

Context `{Library}.

Lemma to_numeric_idempotent (v : value) :
  to_numeric (to_numeric v) = to_numeric v.
Proof.
  destruct v as [|q|s]; simpl; try reflexivity.
  destruct (numeric_of_text s); reflexivity.
Qed.

Lemma map_to_numeric_idempotent (cells : list value) :
  map to_numeric (map to_numeric cells) = map to_numeric cells.
Proof.
  rewrite map_map. apply map_ext. intros v. apply to_numeric_idempotent.
Qed.

Lemma columns_coerced_eq (df : DataFrame) :
  In "quantity" (columns df) -> In "price_usd" (columns df) ->
  columns (coerced df) = columns df.
Proof.
  intros Q P. unfold coerced.
  rewrite columns_set_col_present.
  - now apply columns_set_col_present.
  - now rewrite columns_set_col_present.
Qed.

Lemma coerced_idempotent (df : DataFrame) :
  In "quantity" (columns df) -> In "price_usd" (columns df) ->
  coerced (coerced df) = coerced df.
Proof.
  intros Q P. unfold coerced at 1.
  rewrite column_coerced_quantity, column_coerced_price.
  rewrite !map_to_numeric_idempotent.
  assert (Q' : In "quantity" (columns (coerced df)))
    by now rewrite columns_coerced_eq.
  rewrite (set_col_same (coerced df) "quantity").
  - apply set_col_same.
    rewrite <- column_coerced_price. apply lookup_column.
    now rewrite columns_coerced_eq.
  - rewrite <- column_coerced_quantity. now apply lookup_column.
Qed.

Lemma type_verdict_coerced (df : DataFrame) :
  type_verdict (coerced df) = type_verdict df.
Proof.
  unfold type_verdict.
  rewrite column_coerced_quantity, column_coerced_price.
  assert (E : forall cells,
             existsb (fun v => invalid_cell (to_numeric v))
                     (map to_numeric cells) =
             existsb (fun v => invalid_cell (to_numeric v)) cells).
  { intros cells. induction cells as [|v cells IH]; simpl.
    - reflexivity.
    - now rewrite to_numeric_idempotent, IH. }
  now rewrite !E.
Qed.

(** X7.  What [validate_data_types] does to a frame with distinct
    labels, whatever its verdict: the rows, the labels and their order, and every
    column other than [quantity] and [price_usd] stay as they were; the
    [quantity] column, when there is one, is left coerced to numbers even
    when the check fails, also when it fails because [price_usd] is
    missing; the [price_usd] column is left coerced when both columns are
    there; without a [quantity] column the frame is not touched. *)
Theorem validate_data_types_footprint (df : DataFrame) :
  NoDup (columns df) ->
  nrows (snd (validate_data_types df)) = nrows df /\
  columns (snd (validate_data_types df)) = columns df /\
  (forall c, c <> "quantity" -> c <> "price_usd" ->
             column (snd (validate_data_types df)) c = column df c) /\
  (In "quantity" (columns df) ->
   column (snd (validate_data_types df)) "quantity" =
   map to_numeric (column df "quantity")) /\
  (In "quantity" (columns df) -> In "price_usd" (columns df) ->
   column (snd (validate_data_types df)) "price_usd" =
   map to_numeric (column df "price_usd")) /\
  (~ In "quantity" (columns df) -> snd (validate_data_types df) = df).
Proof.
  intros _.
  destruct (in_dec string_dec "quantity" (columns df)) as [Q|Q].
  - destruct (in_dec string_dec "price_usd" (columns df)) as [P|P].
    + rewrite (validate_data_types_run df Q P). cbn [snd].
      split; [reflexivity|].
      split; [now apply columns_coerced_eq|].
      split.
      { intros c NQ NP. unfold coerced.
        rewrite column_set_col_other by exact NP.
        now rewrite column_set_col_other by exact NQ. }
      split; [intros _; apply column_coerced_quantity|].
      split; [intros _ _; apply column_coerced_price|].
      intros N. contradiction.
    + rewrite (validate_data_types_no_price df Q P). cbn [snd].
      split; [reflexivity|].
      split; [now apply columns_set_col_present|].
      split.
      { intros c NQ _. now rewrite column_set_col_other by exact NQ. }
      split; [intros _; apply column_set_col_same|].
      split; [intros _ I; contradiction|].
      intros N. contradiction.
  - rewrite (validate_data_types_no_quantity df Q). cbn [snd].
    split; [reflexivity|]. split; [reflexivity|].
    split; [reflexivity|].
    split; [intros I; contradiction|].
    split; [intros I; contradiction|].
    reflexivity.
Qed.

(** X8.  [validate_data_types] is idempotent on frames with distinct
    labels: run on the frame it left behind, it gives the verdict and the
    message it gave before and leaves that frame as it is. *)
Theorem validate_data_types_idempotent (df : DataFrame) :
  NoDup (columns df) ->
  validate_data_types (snd (validate_data_types df)) = validate_data_types df.
Proof.
  intros _. destruct (in_dec string_dec "quantity" (columns df)) as [Q|Q].
  - destruct (in_dec string_dec "price_usd" (columns df)) as [P|P].
    + rewrite (validate_data_types_run df Q P). cbn [snd].
      rewrite validate_data_types_run.
      * now rewrite type_verdict_coerced, coerced_idempotent.
      * now rewrite columns_coerced_eq.
      * now rewrite columns_coerced_eq.
    + rewrite (validate_data_types_no_price df Q P). cbn [snd].
      rewrite validate_data_types_no_price.
      * rewrite column_set_col_same, map_to_numeric_idempotent.
        f_equal. apply set_col_same.
        unfold set_col. simpl. apply lookup_update_same.
      * now rewrite columns_set_col_present.
      * now rewrite columns_set_col_present.
  - rewrite (validate_data_types_no_quantity df Q). cbn [snd].
    exact (validate_data_types_no_quantity df Q).
Qed.

End TypeCheck.

Lemma validate_data_types_footprint_witness :
  column (snd (validate_data_types (frame_of Samples.no_price))) "quantity" =
  map to_numeric (column (frame_of Samples.no_price) "quantity").
Proof.
  refine (proj1 (proj2 (proj2 (proj2
            (validate_data_types_footprint
               (frame_of Samples.no_price) _)))) _).
  - apply distinct_NoDup. vm_compute. reflexivity.
  - apply mem_In. vm_compute. reflexivity.
Defined.

Lemma validate_data_types_idempotent_witness :
  validate_data_types
    (snd (validate_data_types (frame_of Samples.text_quantity))) =
  validate_data_types (frame_of Samples.text_quantity).
Proof.
  refine (validate_data_types_idempotent (frame_of Samples.text_quantity) _).
  apply distinct_NoDup. vm_compute. reflexivity.
Defined.

(* ================================================================== *)
(** ** The coercion inside [generate_response] *)
(* ================================================================== *)

Section Coercion.

Context `{Library} `{Runtime}.
Variable self : ProductRecommenderAI.

Lemma map_to_numeric_numbers (cells : list value) :
  numeric_dtype cells = true -> map to_numeric cells = cells.
Proof.
  unfold numeric_dtype. induction cells as [|v cells IH]; simpl; intros N.
  - reflexivity.
  - apply andb_true_iff in N. destruct N as [T N].
    apply negb_true_iff in T.
    now rewrite (to_numeric_number v T), (IH N).
Qed.

(** X18.  The coercion of [validate_data_types] never acts inside
    [generate_response]: [generate_response] calls the structural report
    first, and whenever that report is written for a frame with distinct
    labels, [validate_data_types] leaves the frame exactly as it was,
    since a column with a cell that [to_numeric] would change has
    already made the report raise. *)
Theorem coercion_never_acts (df : DataFrame) (report : list string) :
  NoDup (columns df) ->
  format_validation_report self df = Return report ->
  snd (validate_data_types df) = df.
Proof.
  intros _ R.
  assert (S : returns (format_validation_report self df) = true)
    by now rewrite R.
  apply report_written in S. destruct S as [Q [P [N M]]].
  rewrite (validate_data_types_run df Q P). cbn [snd]. unfold coerced.
  rewrite (map_to_numeric_numbers _ N), (map_to_numeric_numbers _ M).
  rewrite (set_col_same df "quantity") by now apply lookup_column.
  apply set_col_same. now apply lookup_column.
Qed.

End Coercion.

Lemma coercion_never_acts_witness :
  match format_validation_report init (frame_of Samples.bad_values) with
  | Return report =>
      snd (validate_data_types (frame_of Samples.bad_values)) =
      frame_of Samples.bad_values
  | Raise _ => False
  end.
Proof.
  destruct (format_validation_report init (frame_of Samples.bad_values))
    as [report|e] eqn:E.
  - refine (coercion_never_acts init (frame_of Samples.bad_values) report _ E).
    apply distinct_NoDup. vm_compute. reflexivity.
  - vm_compute in E. discriminate.
Defined.

(* ================================================================== *)
(** ** [generate_response] on CSV input *)
(* ================================================================== *)

Section CsvInput.

Context `{Library} `{Runtime}.

Lemma validate_data_format_csv (data : string) (raw : DataFrame) :
  looks_like_csv (Py.strip data) = true ->
  read_csv (Py.strip data) = Return raw ->
  validate_data_format data =
  (true, "Success",
   Some (rename_columns (fun col => Py.lower (Py.strip col)) raw)).
Proof.
  intros C R. unfold validate_data_format. cbv zeta. now rewrite C, R.
Qed.

Lemma validate_data_format_csv_raises (data : string) (e : exn) :
  looks_like_csv (Py.strip data) = true ->
  read_csv (Py.strip data) = Raise e ->
  validate_data_format data =
  (false, "ERROR: Data processing failed. " ++ str_exn e, None).
Proof.
  intros C R. unfold validate_data_format. cbv zeta. now rewrite C, R.
Qed.

Lemma report_on_outcome (df : DataFrame) :
  rectangular df -> normalised df ->
  finite_quantities (snd (validate_data_types df)) ->
  finite_totals (snd (validate_data_types df)) ->
  match format_validation_report init df with
  | Return report =>
      exists rest, report_on init df = Return (Py.join Py.nl (report +++ rest))
  | Raise e => report_on init df = Raise e
  end.
Proof.
  intros RT NM FQ FT.
  destruct (format_validation_report init df) as [vr|e] eqn:F.
  - destruct (fst (validate_required_fields init df)) eqn:VF;
      [destruct (fst (fst (validate_data_types df))) eqn:VT|].
    + assert (V : validated df (snd (validate_data_types df))).
      { unfold validated. auto. }
      rewrite (report_on_validated df _ vr V F).
      destruct (success_report_total df _ vr V FQ FT)
        as [pm [sections [_ [_ E]]]].
      eexists. exact E.
    + unfold report_on. rewrite F. cbn [bind].
      destruct (validate_required_fields init df) as [vf fm].
      destruct (validate_data_types df) as [[vt tm] df'].
      cbn [fst] in *. subst. eexists. reflexivity.
    + unfold report_on. rewrite F. cbn [bind].
      destruct (validate_required_fields init df) as [vf fm].
      destruct (validate_data_types df) as [[vt tm] df'].
      cbn [fst] in *. subst. eexists. reflexivity.
  - unfold report_on. rewrite F. reflexivity.
Qed.

(** X9.  The outcomes of [generate_response] on input taken as CSV,
    when the frame read has distinct stripped and lowered labels and,
    once coerced, holds no infinite quantity and gives no infinite total
    quantity.  If the
    text cannot be read, the answer is the processing error and the
    template offer.  If it is read and the structural report is written,
    the answer is a text that begins with the lines of that report.  If
    the structural report raises, [generate_response] raises the same
    exception.  So neither check, nor the metrics, nor the listings
    raise on such input. *)
Theorem csv_response_outcome (data : string) :
  looks_like_csv (Py.strip data) = true ->
  (forall raw, read_csv (Py.strip data) = Return raw ->
     rectangular raw /\
     NoDup (map (fun col => Py.lower (Py.strip col)) (columns raw))) ->
  finite_quantities (checked data) -> finite_totals (checked data) ->
  match read_csv (Py.strip data) with
  | Return raw =>
      match format_validation_report init
              (rename_columns (fun col => Py.lower (Py.strip col)) raw) with
      | Return report =>
          exists rest,
            generate_response init data =
            Return (Py.join Py.nl (report +++ rest))
      | Raise e => generate_response init data = Raise e
      end
  | Raise e =>
      generate_response init data =
      Return (("ERROR: Data processing failed. " ++ str_exn e) ++
              Py.nl ++ Py.nl ++
              "Would you like a template for the data input?")
  end.
Proof.
  intros C RT FQ FT. destruct (read_csv (Py.strip data)) as [raw|e] eqn:R.
  - unfold checked, frame_of in FQ, FT.
    rewrite (validate_data_format_csv data raw C R) in FQ, FT.
    unfold generate_response.
    rewrite (validate_data_format_csv data raw C R). cbn [negb].
    apply report_on_outcome.
    + apply rectangular_rename. exact (proj1 (RT raw eq_refl)).
    + apply csv_labels_normalised.
    + exact FQ.
    + exact FT.
  - apply generate_response_format_error.
    exact (validate_data_format_csv_raises data e C R).
Qed.

End CsvInput.

Lemma csv_response_outcome_witness :
  finite_quantities (checked Samples.tied) /\
  finite_totals (checked Samples.tied) /\
  match read_csv (Py.strip Samples.tied) with
  | Return raw =>
      match format_validation_report init
              (rename_columns (fun col => Py.lower (Py.strip col)) raw) with
      | Return report =>
          exists rest,
            generate_response init Samples.tied =
            Return (Py.join Py.nl (report +++ rest))
      | Raise e => generate_response init Samples.tied = Raise e
      end
  | Raise e =>
      generate_response init Samples.tied =
      Return (("ERROR: Data processing failed. " ++ str_exn e) ++
              Py.nl ++ Py.nl ++
              "Would you like a template for the data input?")
  end.
Proof.
  assert (FQ : finite_quantities (checked Samples.tied))
    by (vm_compute; reflexivity).
  assert (FT : finite_totals (checked Samples.tied))
    by (vm_compute; reflexivity).
  split; [exact FQ|]. split; [exact FT|].
  refine (csv_response_outcome Samples.tied _ _ FQ FT).
  - vm_compute. reflexivity.
  - intros raw R. vm_compute in R. apply Return_inj in R. subst raw.
    split.
    + apply rectangular_check. vm_compute. reflexivity.
    + apply distinct_NoDup. vm_compute. reflexivity.
Defined.

(* ================================================================== *)
(** ** [validate_data_format] *)
(* ================================================================== *)

Lemma present_lookup {A : Type} (k : string) (kvs : list (string * A)) :
  existsb (fun kv => String.eqb k (fst kv)) kvs = true <->
  exists v, lookup k kvs = Some v.
Proof.
  induction kvs as [|[k' v'] kvs IH]; simpl.
  - split; [discriminate|]. intros [v E]. discriminate.
  - destruct (String.eqb k k'); simpl.
    + split; [eauto|reflexivity].
    + exact IH.
Qed.

Section Format.

Context `{Library} `{Runtime}.
Variable self : ProductRecommenderAI.

Lemma read_json_outcome (data : string) :
  (exists df, read_json data = Return (true, "Success", Some df)) \/
  (exists message,
     read_json data = Return (false, "ERROR: " ++ message, None)) \/
  (exists e, read_json data = Raise e /\
             forall msg, e <> JSONDecodeError msg).
Proof.
  unfold read_json. cbv zeta.
  destruct (json_loads data) as [j|e]; cbn [bind].
  - destruct (json_contains "transactions" j) as [[|]|e] eqn:C; cbn [bind].
    + destruct (json_subscript j "transactions") as [t|e] eqn:S; cbn [bind].
      * destruct (frame_of_json t) as [raw|e]; cbn [bind].
        -- destruct (text_labels t).
           ++ left. eexists. reflexivity.
           ++ right. right. eexists. split; [reflexivity|discriminate].
        -- destruct e; try (right; right; eexists; split;
                            [reflexivity|discriminate]).
           right. left. eexists. reflexivity.
      * destruct j; simpl in S; try discriminate;
          try (inversion S; subst e; right; right; eexists; split;
               [reflexivity|discriminate]).
        destruct (lookup "transactions" members); [discriminate|].
        inversion S; subst e. right; right; eexists; split;
          [reflexivity|discriminate].
    + right. left. eexists. reflexivity.
    + destruct j; simpl in C; try discriminate;
        inversion C; subst e; right; right; eexists; split;
          try reflexivity; discriminate.
  - destruct e; try (right; right; eexists; split;
                     [reflexivity|discriminate]).
    right. left. eexists. reflexivity.
Qed.

(** X10.  [validate_data_format] has two outcomes and no other: a frame
    with the flag true and the message [Success], or no frame with the
    flag false and a message that starts with [ERROR: ], and then
    [generate_response] returns that message followed by the template
    offer.  So [generate_response] never meets a missing frame after a
    passed format check, and no exception of the readers leaves
    [validate_data_format]. *)
Theorem validate_data_format_outcome (data : string) :
  (exists df, validate_data_format data = (true, "Success", Some df)) \/
  (exists message,
     validate_data_format data = (false, "ERROR: " ++ message, None) /\
     generate_response self data =
     Return (("ERROR: " ++ message) ++ Py.nl ++ Py.nl ++
             "Would you like a template for the data input?")).
Proof.
  assert (G : forall message,
             validate_data_format data = (false, message, None) ->
             generate_response self data =
             Return (message ++ Py.nl ++ Py.nl ++
                     "Would you like a template for the data input?")).
  { intros message E. now apply generate_response_format_error. }
  unfold validate_data_format in *. cbv zeta in *.
  destruct (looks_like_csv (Py.strip data)).
  - destruct (read_csv (Py.strip data)) as [raw|e]; cbn [bind] in *.
    + left. eexists. reflexivity.
    + right. eexists. split; [|apply G]; reflexivity.
  - destruct (read_json_outcome (Py.strip data)) as [[df E]|[[m E]|[e [E _]]]];
      rewrite E in *.
    + left. eexists. reflexivity.
    + right. eexists. split; [|apply G]; reflexivity.
    + right. eexists. split; [|apply G]; reflexivity.
Qed.

(** X11.  Text that is not taken as CSV yields a frame in one way only:
    it decodes to a JSON object that has a [transactions] member of
    which pandas makes a frame whose labels are text, and the frame
    handed out is that one with its labels lowered (and not stripped).
    A top-level array, text, number or null never yields a frame, and
    neither does a frame with labels that are not text. *)
Theorem json_frame_origin (data : string) (df : DataFrame) :
  looks_like_csv (Py.strip data) = false ->
  (validate_data_format data = (true, "Success", Some df) <->
   exists members transactions raw,
     json_loads (Py.strip data) = Return (JObj members) /\
     lookup "transactions" members = Some transactions /\
     frame_of_json transactions = Return raw /\
     text_labels transactions = true /\
     df = rename_columns Py.lower raw).
Proof.
  intros NC. unfold validate_data_format, read_json. cbv zeta. rewrite NC.
  split.
  - destruct (json_loads (Py.strip data)) as [j|e]; cbn [bind].
    + destruct j as [|b|q|s|items|members]; cbn [json_contains bind];
        try discriminate.
      * destruct (Py.contains "transactions" s); cbn [bind json_subscript];
          discriminate.
      * destruct (existsb _ items); cbn [bind json_subscript]; discriminate.
      * destruct (existsb _ members) eqn:P; cbn [bind json_subscript];
          [|discriminate].
        destruct (lookup "transactions" members) as [t|] eqn:L;
          cbn [bind]; [|discriminate].
        destruct (frame_of_json t) as [raw|e] eqn:F; cbn [bind].
        -- destruct (text_labels t) eqn:T; [|discriminate].
           intros E. inversion E. subst df. exists members, t, raw. auto.
        -- destruct e; discriminate.
    + destruct e; discriminate.
  - intros [members [t [raw [D [L [F [T E]]]]]]]. subst df.
    rewrite D. cbn [bind json_contains].
    assert (P : existsb (fun kv => String.eqb "transactions" (fst kv)) members
                = true).
    { apply present_lookup. eauto. }
    rewrite P. cbn [bind json_subscript]. rewrite L. cbn [bind].
    rewrite F. cbn [bind]. rewrite T. reflexivity.
Qed.

End Format.

Lemma json_frame_origin_witness :
  validate_data_format Samples.quoted_quantity =
    (true, "Success", Some (frame_of Samples.quoted_quantity)) <->
  exists members transactions raw,
    json_loads (Py.strip Samples.quoted_quantity) = Return (JObj members) /\
    lookup "transactions" members = Some transactions /\
    frame_of_json transactions = Return raw /\
    text_labels transactions = true /\
    frame_of Samples.quoted_quantity = rename_columns Py.lower raw.
Proof.
  refine (json_frame_origin Samples.quoted_quantity
            (frame_of Samples.quoted_quantity) _).
  vm_compute. reflexivity.
Defined.

(* ================================================================== *)
(** ** [generate_response] on JSON input *)
(* ================================================================== *)

Section JsonInput.

Context `{Library} `{Runtime}.

Lemma json_labels_lowered (data message : string) (df : DataFrame) :
  looks_like_csv (Py.strip data) = false ->
  validate_data_format data = (true, message, Some df) ->
  Forall (fun col => Py.lower col = col) (columns df).
Proof.
  intros NC. unfold validate_data_format, read_json. cbv zeta. rewrite NC.
  destruct (json_loads (Py.strip data)) as [j|e]; cbn [bind].
  - destruct (json_contains "transactions" j) as [[|]|e]; cbn [bind].
    + destruct (json_subscript j "transactions") as [t|e]; cbn [bind].
      * destruct (frame_of_json t) as [raw|e]; cbn [bind].
        -- destruct (text_labels t); [|discriminate].
           intros E. inversion E. subst df.
           rewrite columns_rename. apply Forall_forall. intros col I.
           apply in_map_iff in I. destruct I as [c [E' _]]. subst col.
           apply lower_idem.
        -- destruct e; discriminate.
      * destruct e; discriminate.
    + discriminate.
    + destruct e; discriminate.
  - destruct e; discriminate.
Qed.

(** X14.  JSON input whose keys carry no blanks at either end is as safe
    as CSV input: when the frame made of it has distinct labels and,
    once coerced, holds no infinite quantity and gives no infinite total
    quantity, [generate_response] returns a text that begins with the lines of the
    structural report when that report is written, and raises the
    exception of the structural report when it raises; neither check,
    nor the metrics, nor the listings raise. *)
Theorem unpadded_json_response_outcome (data : string) (df : DataFrame) :
  looks_like_csv (Py.strip data) = false ->
  validate_data_format data = (true, "Success", Some df) ->
  rectangular df -> NoDup (columns df) ->
  Forall (fun col => Py.strip col = col) (columns df) ->
  finite_quantities (snd (validate_data_types df)) ->
  finite_totals (snd (validate_data_types df)) ->
  match format_validation_report init df with
  | Return report =>
      exists rest,
        generate_response init data = Return (Py.join Py.nl (report +++ rest))
  | Raise e => generate_response init data = Raise e
  end.
Proof.
  intros NC F RT _ ST FQ FT.
  pose proof (json_labels_lowered data _ df NC F) as LW.
  unfold generate_response. rewrite F. cbn [negb].
  apply report_on_outcome; [exact RT| |exact FQ|exact FT].
  unfold normalised. rewrite Forall_forall in *. intros col I.
  now rewrite (LW col I), (ST col I).
Qed.

End JsonInput.

Lemma unpadded_json_response_outcome_witness :
  finite_quantities (checked Orders.envelope) /\
  finite_totals (checked Orders.envelope) /\
  match format_validation_report init (frame_of Orders.envelope) with
  | Return report =>
      exists rest,
        generate_response init Orders.envelope =
        Return (Py.join Py.nl (report +++ rest))
  | Raise e => generate_response init Orders.envelope = Raise e
  end.
Proof.
  assert (FQ : finite_quantities (checked Orders.envelope))
    by (vm_compute; reflexivity).
  assert (FT : finite_totals (checked Orders.envelope))
    by (vm_compute; reflexivity).
  split; [exact FQ|]. split; [exact FT|].
  refine (unpadded_json_response_outcome Orders.envelope
            (frame_of Orders.envelope) _ _ _ _ _ FQ FT).
  - vm_compute. reflexivity.
  - vm_compute. reflexivity.
  - apply rectangular_check. vm_compute. reflexivity.
  - apply distinct_NoDup. vm_compute. reflexivity.
  - apply stripped_check. vm_compute. reflexivity.
Defined.

(* ================================================================== *)
(** ** Labels the field check accepts and the metrics do not find *)
(* ================================================================== *)

Section UncheckedLabels.

Context `{Library} `{Runtime}.

Lemma passed_checks_report (df : DataFrame) (report : list string) :
  format_validation_report init df = Return report ->
  fst (validate_required_fields init df) = true ->
  fst (fst (validate_data_types df)) = true ->
  report_on init df = success_report report (coerced df).
Proof.
  intros F VF VT. unfold report_on. rewrite F. cbn [bind].
  destruct (validate_data_types_missing df VT) as [Q P].
  rewrite (validate_data_types_run df Q P) in *.
  destruct (validate_required_fields init df) as [vf fm].
  destruct (type_verdict df) as [vt tm].
  cbn [fst] in *. subst. reflexivity.
Qed.

Lemma keys_as_columns (df : DataFrame) :
  nrows df <> 2 -> keys_taken_as_labels df = false.
Proof.
  intros N. unfold keys_taken_as_labels.
  apply Nat.eqb_neq in N. now rewrite N.
Qed.

Lemma keys_as_labels (df : DataFrame) :
  nrows df = 2 ->
  ~ (In "product_id" (columns df) /\ In "product_name" (columns df)) ->
  keys_taken_as_labels df = true.
Proof.
  intros E N. unfold keys_taken_as_labels. rewrite E. cbn [Nat.eqb andb].
  apply negb_true_iff.
  destruct (Py.mem "product_id" (columns df)) eqn:A; [|reflexivity].
  destruct (Py.mem "product_name" (columns df)) eqn:B; [|reflexivity].
  exfalso. apply N. split; now apply mem_In.
Qed.

Lemma calculate_metrics_no_id (df : DataFrame) :
  nrows df <> 2 -> ~ In "product_id" (columns df) ->
  calculate_metrics df = Raise (KeyError "product_id").
Proof.
  intros R N. unfold calculate_metrics, unsorted_metrics.
  now rewrite (keys_as_columns df R), (get_col_missing df _ N).
Qed.

Lemma calculate_metrics_no_name (df : DataFrame) :
  nrows df <> 2 ->
  In "product_id" (columns df) -> ~ In "product_name" (columns df) ->
  calculate_metrics df = Raise (KeyError "product_name").
Proof.
  intros R I N. unfold calculate_metrics, unsorted_metrics.
  now rewrite (keys_as_columns df R), (get_col_present df _ I),
    (get_col_missing df _ N).
Qed.

Lemma calculate_metrics_keys_as_labels (df : DataFrame) :
  nrows df = 2 ->
  ~ (In "product_id" (columns df) /\ In "product_name" (columns df)) ->
  In "quantity" (columns df) -> In "price_usd" (columns df) ->
  exists msg, calculate_metrics df = Raise (ValueError msg).
Proof.
  intros R N Q P. unfold calculate_metrics, unsorted_metrics.
  rewrite (keys_as_labels df R N), (get_col_present df _ Q),
    (get_col_present df _ P).
  eexists. reflexivity.
Qed.

(** X19.  A passed field check does not protect the metrics.  The field
    check compares stripped labels, [calculate_metrics] looks columns up
    by their exact label: when the structural report is written and both
    checks pass for a frame with distinct labels that has no column
    labelled exactly [product_id], [generate_response] raises [KeyError]
    for [product_id], and when only [product_name] is not there under
    its exact label it raises [KeyError] for [product_name]; on a frame
    of exactly two rows, where [groupby] takes the two keys for the
    labels of the groups, it raises [ValueError] in either case. *)
Theorem unchecked_label_raises (data : string) (df : DataFrame)
  (report : list string) :
  validate_data_format data = (true, "Success", Some df) ->
  NoDup (columns df) ->
  format_validation_report init df = Return report ->
  fst (validate_required_fields init df) = true ->
  fst (fst (validate_data_types df)) = true ->
  (nrows df <> 2 -> ~ In "product_id" (columns df) ->
   generate_response init data = Raise (KeyError "product_id")) /\
  (nrows df <> 2 ->
   In "product_id" (columns df) -> ~ In "product_name" (columns df) ->
   generate_response init data = Raise (KeyError "product_name")) /\
  (nrows df = 2 ->
   ~ (In "product_id" (columns df) /\ In "product_name" (columns df)) ->
   exists msg, generate_response init data = Raise (ValueError msg)).
Proof.
  intros D _ F VF VT.
  assert (G : generate_response init data =
              success_report report (coerced df)).
  { unfold generate_response. rewrite D. cbn [negb].
    now apply passed_checks_report. }
  destruct (validate_data_types_missing df VT) as [Q P].
  rewrite G. unfold success_report. split; [|split].
  - intros R N. rewrite calculate_metrics_no_id; [reflexivity|exact R|].
    now rewrite (columns_coerced_eq df Q P).
  - intros R I N.
    rewrite calculate_metrics_no_name; [reflexivity|exact R| |].
    + now rewrite (columns_coerced_eq df Q P).
    + now rewrite (columns_coerced_eq df Q P).
  - intros R N.
    destruct (calculate_metrics_keys_as_labels (coerced df)) as [msg E].
    + exact R.
    + now rewrite (columns_coerced_eq df Q P).
    + now rewrite (columns_coerced_eq df Q P).
    + now rewrite (columns_coerced_eq df Q P).
    + exists msg. now rewrite E.
Qed.

End UncheckedLabels.

Lemma unchecked_label_raises_witness :
  generate_response init Samples.padded_label = Raise (KeyError "product_id").
Proof.
  destruct (format_validation_report init (frame_of Samples.padded_label))
    as [report|e] eqn:F; [|vm_compute in F; discriminate].
  refine (proj1 (unchecked_label_raises Samples.padded_label
                   (frame_of Samples.padded_label) report _ _ F _ _) _ _).
  - vm_compute. reflexivity.
  - apply distinct_NoDup. vm_compute. reflexivity.
  - vm_compute. reflexivity.
  - vm_compute. reflexivity.
  - vm_compute. discriminate.
  - intros I. apply mem_In in I. vm_compute in I. discriminate.
Defined.
